(** * Business-hours calculus: a shallow embedding of [src/lib/business.ts]
      and of the request handler of [src/index.ts].

    Modelling conventions.
    - A Luxon [DateTime] is an epoch time stamp in milliseconds together with
      the offset (in minutes) of its zone.  The business zone America/Bogota
      is taken at the offset UTC-05:00, which is its offset from
      1993-02-07T04:00:00Z on ([BOGOTA_UTC5_SINCE]; it was UTC-04:00 for the
      nine months before).  Calendar arithmetic is done on unbounded
      integers: the invalid [DateTime] that Luxon returns outside its range
      ([LUXON_MAX_MS]) is not modelled.
    - JavaScript numbers holding day counts are integers ([Z]).  The [hours]
      quantities of [addBusinessHours] are modelled twice: as exact
      rationals ([Q], module [Business]) and as IEEE 754 doubles (module
      [Business64]).  The two agree where every quantity the loop rounds is
      a whole number of minutes; statements about results on [Q] that go
      beyond that say so in their hypotheses ([exactDomain]).
    - [Set<string>] is [gset string].
    - [while] loops are fuelled; running out of fuel is [None].  Each loop
      on exact numbers comes with a lemma giving the fuel that suffices. *)

From Stdlib Require Import ZArith QArith Qround Lia Lqa String Ascii List Bool.
From Stdlib Require Uint63 PrimFloat SpecFloat FloatOps.
From stdpp Require Import base gmap strings.

Local Open Scope Z_scope.

(* let [lia] reason about division and remainder by constants *)
Ltac Zify.zify_post_hook ::= Z.to_euclidean_division_equations.

(** ** Luxon [DateTime] over a fixed-offset zone *)

Module Luxon.

Record DateTime : Type := mkDateTime {
  toMillis : Z;  (* milliseconds since 1970-01-01T00:00:00Z *)
  offset : Z     (* zone offset in minutes, east of UTC positive *)
}.

Definition MS_PER_DAY : Z := 86400000.

Definition localMs (dt : DateTime) : Z := toMillis dt + offset dt * 60000.
Definition dayNumber (dt : DateTime) : Z := localMs dt / MS_PER_DAY.
Definition msOfDay (dt : DateTime) : Z := localMs dt mod MS_PER_DAY.

Definition hour (dt : DateTime) : Z := msOfDay dt / 3600000.
Definition minute (dt : DateTime) : Z := (msOfDay dt / 60000) mod 60.
Definition second (dt : DateTime) : Z := (msOfDay dt / 1000) mod 60.
Definition millisecond (dt : DateTime) : Z := msOfDay dt mod 1000.

(* weekday: 1 = Monday, 7 = Sunday; 1970-01-01 was a Thursday *)
Definition weekday (dt : DateTime) : Z := (dayNumber dt + 3) mod 7 + 1.

(* dt.plus({ days: n }), dt.minus({ days: n }), dt.plus({ minutes: n }) *)
Definition plusDays (n : Z) (dt : DateTime) : DateTime :=
  mkDateTime (toMillis dt + n * MS_PER_DAY) (offset dt).
Definition minusDays (n : Z) (dt : DateTime) : DateTime :=
  mkDateTime (toMillis dt - n * MS_PER_DAY) (offset dt).
Definition plusMinutes (n : Z) (dt : DateTime) : DateTime :=
  mkDateTime (toMillis dt + n * 60000) (offset dt).

(* dt.set({ hour: h, minute: 0, second: 0, millisecond: 0 }) *)
Definition setHour (h : Z) (dt : DateTime) : DateTime :=
  mkDateTime (dayNumber dt * MS_PER_DAY + h * 3600000 - offset dt * 60000)
             (offset dt).

(* dt.setZone(z): same instant, other offset *)
Definition setZone (off : Z) (dt : DateTime) : DateTime :=
  mkDateTime (toMillis dt) off.

(** Proleptic Gregorian calendar: day number <-> (year, month, day). *)
Definition yearOfEra (doe : Z) : Z :=
  (doe - doe / 1460 + doe / 36524 - doe / 146096) / 365.
Definition dayOfYear (doe : Z) : Z :=
  let yoe := yearOfEra doe in doe - (365 * yoe + yoe / 4 - yoe / 100).
Definition monthIndex (doe : Z) : Z := (5 * dayOfYear doe + 2) / 153.
Definition dayOfMonth (doe : Z) : Z :=
  dayOfYear doe - (153 * monthIndex doe + 2) / 5 + 1.

Definition civil_from_days (z : Z) : Z * Z * Z :=
  let z := z + 719468 in
  let era := z / 146097 in
  let doe := z - era * 146097 in
  let mp := monthIndex doe in
  let m := if mp <? 10 then mp + 3 else mp - 9 in
  let y := yearOfEra doe + era * 400 in
  (if m <=? 2 then y + 1 else y, m, dayOfMonth doe).

Definition days_from_civil (ymd : Z * Z * Z) : Z :=
  let '(y0, m, d) := ymd in
  let y := if m <=? 2 then y0 - 1 else y0 in
  let era := y / 400 in
  let yoe := y - era * 400 in
  let mp := if 2 <? m then m - 3 else m + 9 in
  let doy := (153 * mp + 2) / 5 + d - 1 in
  let doe := yoe * 365 + yoe / 4 - yoe / 100 + doy in
  era * 146097 + doe - 719468.

Definition year (dt : DateTime) : Z := fst (fst (civil_from_days (dayNumber dt))).
Definition month (dt : DateTime) : Z := snd (fst (civil_from_days (dayNumber dt))).
Definition day (dt : DateTime) : Z := snd (civil_from_days (dayNumber dt)).

(** Decimal rendering. [dec k n] is the [k] low decimal digits of [n];
    [padStart w n] is [String(n).padStart(w, "0")] for [n >= 0]. *)
Definition digit (n : Z) : ascii := ascii_of_nat (48 + Z.to_nat n).

Fixpoint dec (k : nat) (n : Z) : string :=
  match k with
  | O => EmptyString
  | S k' => dec k' (n / 10) +:+ String (digit (n mod 10)) EmptyString
  end.

Fixpoint ndigits_go (fuel : nat) (n : Z) : nat :=
  match fuel with
  | O => 1
  | S f => if n <? 10 then 1%nat else S (ndigits_go f (n / 10))
  end.

Definition ndigits (n : Z) : nat := ndigits_go (Z.to_nat (Z.log2 n)) n.

Definition padStart (w : nat) (n : Z) : string := dec (Nat.max w (ndigits n)) n.

Definition isoYear (y : Z) : string :=
  if (0 <=? y) && (y <=? 9999) then padStart 4 y
  else (if 0 <=? y then "+" else "-") +:+ padStart 6 (Z.abs y).

Definition isoDate (ymd : Z * Z * Z) : string :=
  let '(y, m, d) := ymd in
  isoYear y +:+ "-" +:+ padStart 2 m +:+ "-" +:+ padStart 2 d.

(* dt.toISODate() : YYYY-MM-DD *)
Definition toISODate (dt : DateTime) : string :=
  isoDate (civil_from_days (dayNumber dt)).

Definition isoOffset (off : Z) : string :=
  if off =? 0 then "Z"
  else (if 0 <=? off then "+" else "-") +:+ padStart 2 (Z.abs off / 60)
       +:+ ":" +:+ padStart 2 (Z.abs off mod 60).

(* dt.toISO({ suppressMilliseconds }): the option leaves the milliseconds
   out only when they are 0 *)
Definition toISO (suppressMilliseconds : bool) (dt : DateTime) : string :=
  toISODate dt +:+ "T" +:+ padStart 2 (hour dt) +:+ ":" +:+ padStart 2 (minute dt)
  +:+ ":" +:+ padStart 2 (second dt)
  +:+ (if suppressMilliseconds && (millisecond dt =? 0) then ""
       else "." +:+ padStart 3 (millisecond dt))
  +:+ isoOffset (offset dt).

End Luxon.

Import Luxon.

(** ** Generic pieces: exact-number helpers, fuelled loops, outcomes *)

(* JavaScript comparison and rounding on numbers *)
Definition Qleb (a b : Q) : bool := Qle_bool a b.
Definition Qltb (a b : Q) : bool := negb (Qle_bool b a).
Definition Math_min (a b : Q) : Q := if Qle_bool a b then a else b.
(* Math.round: nearest integer, ties towards +infinity *)
Definition Math_round (x : Q) : Z := Qfloor (x + (1 # 2)).

(* while (cond(s)) s = body(s); [None] when the fuel runs out or the body does *)
Fixpoint while_loop {S : Type} (fuel : nat) (cond : S → bool)
    (body : S → option S) (s : S) : option S :=
  match fuel with
  | O => None
  | Datatypes.S f =>
      if cond s then
        match body s with
        | Some s' => while_loop f cond body s'
        | None => None
        end
      else Some s
  end.

(** ** src/lib/business.ts *)

Module Business.

Abbreviation HolidaysSet := (gset string).   (* YYYY-MM-DD *)

Record HolidayCache : Type := mkHolidayCache {
  ts : Z;
  holidays : HolidaysSet
}.

Definition COLOMBIA_ZONE : Z := -300.     (* America/Bogota: UTC-05:00 since 1993-02-07 *)
Definition UTC_ZONE : Z := 0.
Definition WORK_START_HOUR : Z := 8.
Definition LUNCH_START_HOUR : Z := 12.
Definition LUNCH_END_HOUR : Z := 13.
Definition WORK_END_HOUR : Z := 17.
Definition HOLIDAY_CACHE_TTL_MS : Z := 1000 * 60 * 60.

(** *** Holiday provider *)

#[warnings="-register-all"]
Inductive JSON : Type :=
  | JNull
  | JBool (b : bool)
  | JNumber (q : Q)
  | JString (s : string)
  | JArray (items : list JSON)
  | JObject (props : gmap string JSON).

(* what the transport hands back: [fetch] rejects, or resolves to a response
   whose [json()] either decodes the body or rejects *)
Inductive FetchResult : Type :=
  | FetchRejected
  | FetchResponse (ok : bool) (status : Z) (body : option JSON).

Inductive Exn : Type :=
  | FailedToFetchHolidays (status : Z)   (* Error("Failed to fetch holidays: ...") *)
  | TransportError                       (* rejection of fetch() *)
  | InvalidJson                          (* rejection of res.json() *)
  | InvalidDate.                         (* Error("InvalidDate") *)

Inductive Outcome (A : Type) : Type :=
  | Returned (a : A)
  | Thrown (e : Exn)
  | OutOfFuel.
Arguments Returned {A} a.
Arguments Thrown {A} e.
Arguments OutOfFuel {A}.

(* the module-level state and what a call observes of the outside *)
Record World : Type := mkWorld {
  holidayCache : option HolidayCache;
  fetches : nat                           (* number of requests sent *)
}.

(* s.split("T")[0] *)
Fixpoint splitT0 (s : string) : string :=
  match s with
  | EmptyString => EmptyString
  | String c r => if Ascii.eqb c "T" then EmptyString else String c (splitT0 r)
  end.

Definition itemDate (item : JSON) : option string :=
  match item with
  | JString s => Some (splitT0 s)
  | JObject props =>
      match props !! "date"%string with
      | Some (JString s) => Some (splitT0 s)
      | _ =>
          match props !! "fecha"%string with
          | Some (JString s) => Some (splitT0 s)
          | _ => None
          end
      end
  | _ => None
  end.

Definition scanItems (items : list JSON) (out : HolidaysSet) : HolidaysSet :=
  fold_left (fun out item =>
               match itemDate item with
               | Some d => {[ d ]} ∪ out
               | None => out
               end) items out.

Definition parseHolidays (json : JSON) : HolidaysSet :=
  match json with
  | JArray items => scanItems items ∅
  | JObject obj =>
      map_fold (fun (_ : string) v out =>
                  match v with
                  | JArray items => scanItems items out
                  | _ => out
                  end) ∅ obj
  | _ => ∅
  end.

Definition cacheFresh (now : Z) (c : HolidayCache) : bool :=
  now - ts c <? HOLIDAY_CACHE_TTL_MS.

(* holidayCache && (now - holidayCache.ts) < HOLIDAY_CACHE_TTL_MS *)
Definition cacheHit (now : Z) (w : World) : option HolidaysSet :=
  match holidayCache w with
  | Some c => if cacheFresh now c then Some (holidays c) else None
  | None => None
  end.

(* [now] is Date.now() at entry, [net] what the transport answers if asked *)
Definition fetchHolidays (now : Z) (net : FetchResult) (w : World)
  : Outcome HolidaysSet * World :=
  match cacheHit now w with
  | Some cached => (Returned cached, w)
  | None =>
      let w1 := mkWorld (holidayCache w) (S (fetches w)) in   (* await fetch(URL) *)
      match net with
      | FetchRejected => (Thrown TransportError, w1)
      | FetchResponse ok status body =>
          if negb ok then (Thrown (FailedToFetchHolidays status), w1)
          else
            match body with                                    (* await res.json() *)
            | None => (Thrown InvalidJson, w1)
            | Some json =>
                let out := parseHolidays json in
                (Returned out,
                 mkWorld (Some (mkHolidayCache now out)) (fetches w1))
            end
      end
  end.

(** *** Calendar predicates *)

Definition isWeekend (dt : DateTime) : bool :=
  (weekday dt =? 6) || (weekday dt =? 7).

Definition toYMD (dt : DateTime) : string := toISODate dt.

Definition isWorkingDay (dt : DateTime) (holidays : HolidaysSet) : bool :=
  if isWeekend dt then false
  else negb (bool_decide (toYMD dt ∈ holidays)).

(* the same predicate on day numbers, and the clock in whole seconds *)
Definition dateString (d : Z) : string := isoDate (civil_from_days d).
Definition workingDayNumber (d : Z) (holidays : HolidaysSet) : bool :=
  negb (((d + 3) mod 7 + 1 =? 6) || ((d + 3) mod 7 + 1 =? 7))
  && negb (bool_decide (dateString d ∈ holidays)).
Definition secondOfDay (dt : DateTime) : Z := msOfDay dt / 1000.

(* the instant lies in [08:00, 12:00) or [13:00, 17:00) of a working day *)
Definition inSegment (dt : DateTime) (holidays : HolidaysSet) : bool :=
  isWorkingDay dt holidays
  && ((28800 <=? secondOfDay dt) && (secondOfDay dt <? 43200)
      || (46800 <=? secondOfDay dt) && (secondOfDay dt <? 61200)).

(* dt.hour + dt.minute / 60 + dt.second / 3600 *)
Definition hourOfDay (dt : DateTime) : Q :=
  (inject_Z (hour dt) + inject_Z (minute dt) / 60 + inject_Z (second dt) / 3600)%Q.

(* fuel for a day-by-day search for a working day: [n] holidays leave one of
   the next [n + 1] Mondays free *)
Definition dayFuel (holidays : HolidaysSet) : nat := 7 * (size holidays + 1).

(** *** Normalizer *)

Definition normalizeBackwardToWorkingSlot (dtIn : DateTime) (holidays : HolidaysSet)
  : option DateTime :=
  let dt := dtIn in
  if negb (isWorkingDay dt holidays) then
    (* do { dt = dt.minus(1 day).set(17:00) } while (!isWorkingDay(dt)) *)
    let back d := setHour WORK_END_HOUR (minusDays 1 d) in
    while_loop (dayFuel holidays)
      (fun d => negb (isWorkingDay d holidays))
      (fun d => Some (back d)) (back dt)
  else
    let hour := hourOfDay dt in
    if Qleb (inject_Z LUNCH_START_HOUR) hour && Qltb hour (inject_Z LUNCH_END_HOUR) then
      Some (setHour LUNCH_START_HOUR dt)
    else if Qleb (inject_Z WORK_END_HOUR) hour then
      Some (setHour WORK_END_HOUR dt)
    else if Qltb hour (inject_Z WORK_START_HOUR) then
      match while_loop (dayFuel holidays)
              (fun prev => negb (isWorkingDay prev holidays))
              (fun prev => Some (minusDays 1 prev)) (minusDays 1 dt) with
      | Some prev => Some (setHour WORK_END_HOUR prev)
      | None => None
      end
    else Some dt.

(** *** Day accumulator

    [days] and [remaining] are integers; as doubles they are exact up to
    2^53, and the loop stays inside Luxon's range as long as the result
    does. *)

(* while (!isWorkingDay(dt, holidays)) dt = dt.plus({ days: 1 }) *)
Definition skipToWorkingDay (dt : DateTime) (holidays : HolidaysSet) : option DateTime :=
  while_loop (dayFuel holidays)
    (fun d => negb (isWorkingDay d holidays))
    (fun d => Some (plusDays 1 d)) dt.

Definition addBusinessDays (start : DateTime) (days : Z) (holidays : HolidaysSet)
  : option DateTime :=
  if days <=? 0 then Some start
  else
    match while_loop (S (Z.to_nat days))
            (fun st : DateTime * Z => 0 <? snd st)
            (fun st =>
               let '(dt, remaining) := st in
               match skipToWorkingDay (plusDays 1 dt) holidays with
               | Some dt' => Some (dt', remaining - 1)
               | None => None
               end)
            (start, days) with
    | Some (dt, _) => Some dt
    | None => None
    end.

(** *** Hour accumulator, on exact numbers

    [remaining], [h], [available] and [take] are exact rationals here; the
    same loop on doubles is [Business64.addBusinessHours_body64]. *)

(* one pass through the body of [while (remaining > 0)] *)
Definition addBusinessHours_body (holidays : HolidaysSet) (st : DateTime * Q)
  : option (DateTime * Q) :=
  let '(dt, remaining) := st in
  if negb (isWorkingDay dt holidays) then
    match skipToWorkingDay (setHour WORK_START_HOUR (plusDays 1 dt)) holidays with
    | Some dt' => Some (setHour WORK_START_HOUR dt', remaining)
    | None => None
    end
  else
    let h := hourOfDay dt in
    if Qltb h (inject_Z WORK_START_HOUR) then
      Some (setHour WORK_START_HOUR dt, remaining)
    else if Qleb (inject_Z LUNCH_START_HOUR) h && Qltb h (inject_Z LUNCH_END_HOUR) then
      Some (setHour LUNCH_END_HOUR dt, remaining)
    else if Qleb (inject_Z WORK_END_HOUR) h then
      match skipToWorkingDay (plusDays 1 dt) holidays with
      | Some dt' => Some (setHour WORK_START_HOUR dt', remaining)
      | None => None
      end
    else
      let segmentEnd :=
        if Qleb (inject_Z WORK_START_HOUR) h && Qltb h (inject_Z LUNCH_START_HOUR)
        then LUNCH_START_HOUR else WORK_END_HOUR in
      let available := (inject_Z segmentEnd - h)%Q in
      let take := Math_min available remaining in
      let minutesToAdd := Math_round (take * 60) in
      Some (plusMinutes minutesToAdd dt, Qred (remaining - take)).   (* kept in lowest terms *)

(* every in-segment pass takes at least a second off [remaining], and every
   other pass is followed by an in-segment one *)
Definition hoursFuel (hours : Q) : nat :=
  S (2 * Z.to_nat (Qceiling (hours * 3600))).

Definition addBusinessHours_fuel (fuel : nat) (start : DateTime) (hours : Q)
    (holidays : HolidaysSet) : option DateTime :=
  if Qle_bool hours 0 then Some start
  else
    match while_loop fuel
            (fun st : DateTime * Q => Qltb 0 (snd st))
            (addBusinessHours_body holidays) (start, hours) with
    | Some (dt, _) => Some dt
    | None => None
    end.

Definition addBusinessHours (start : DateTime) (hours : Q) (holidays : HolidaysSet)
  : option DateTime :=
  addBusinessHours_fuel (hoursFuel hours) start hours holidays.

(** *** Orchestrator *)

Definition ofOption {A : Type} (o : option A) : Outcome A :=
  match o with Some a => Returned a | None => OutOfFuel end.

(* sequencing of steps that may throw: [x ← step; rest] *)
Definition bindO {A B : Type} (k : A → Outcome B) (o : Outcome A) : Outcome B :=
  match o with
  | Returned a => k a
  | Thrown e => Thrown e
  | OutOfFuel => OutOfFuel
  end.

#[global] Instance Outcome_ret : MRet Outcome := @Returned.
#[global] Instance Outcome_bind : MBind Outcome := @bindO.

(* what one call reads from its surroundings *)
Record Env : Type := mkEnv {
  dateNow : Z;                              (* Date.now() inside fetchHolidays *)
  transport : FetchResult;                  (* answer of the holiday source *)
  fromISO : string → option DateTime;       (* DateTime.fromISO(_, { zone: "utc" }),
                                               None when the result is invalid *)
  dateTimeNow : Z                           (* DateTime.now() *)
}.

(* JavaScript truthiness of [string | null] *)
Definition truthy (s : option string) : option string :=
  match s with
  | Some EmptyString => None
  | other => other
  end.

Definition computeBusinessDate (env : Env) (startUtcIso : option string)
    (days : Z) (hours : Q) (w : World) : Outcome DateTime * World :=
  let '(fetched, w') := fetchHolidays (dateNow env) (transport env) w in
  (holidays ← fetched;
   startCol ← match truthy startUtcIso with
              | Some iso =>
                  match fromISO env iso with
                  | None => Thrown InvalidDate
                  | Some parsed => Returned (setZone COLOMBIA_ZONE parsed)
                  end
              | None => Returned (mkDateTime (dateTimeNow env) COLOMBIA_ZONE)
              end;
   normalized ← ofOption (normalizeBackwardToWorkingSlot startCol holidays);
   afterDays ← (if 0 <? days then ofOption (addBusinessDays normalized days holidays)
                else Returned normalized);
   afterHours ← (if Qltb 0 hours then ofOption (addBusinessHours afterDays hours holidays)
                 else Returned afterDays);
   mret (setZone UTC_ZONE afterHours),
   w').

End Business.

(** ** src/index.ts: the success path of GET /api/business-hours *)

Module Api.
Import Business.

(* result = await computeBusinessDate(rawDate ?? null, days, hours);
   dateIso = result.toISO({ suppressMilliseconds: true }) *)
Definition businessHoursDate (env : Env) (rawDate : option string)
    (days : Z) (hours : Q) (w : World) : Outcome string * World :=
  let '(result, w') := computeBusinessDate env rawDate days hours w in
  (r ← result; mret (toISO true r), w').

(* the shape [YYYY-MM-DDTHH:MM:SSZ]: a UTC instant to the second, without a
   fractional part.  In the pattern, [d] stands for a decimal digit. *)
Definition isDigit (c : ascii) : bool :=
  let n := nat_of_ascii c in (48 <=? n)%nat && (n <=? 57)%nat.

Fixpoint matchesPattern (pattern s : string) : bool :=
  match pattern, s with
  | EmptyString, EmptyString => true
  | String p pattern', String c s' =>
      (if Ascii.eqb p "d" then isDigit c else Ascii.eqb p c)
      && matchesPattern pattern' s'
  | _, _ => false
  end.

Definition secondPrecisionUtc (s : string) : bool :=
  matchesPattern "dddd-dd-ddTdd:dd:ddZ" s.

End Api.

(** ** A reader for instants written [YYYY-MM-DDTHH:MM:SS(.fff)Z]

    Luxon's [DateTime.fromISO] is a parameter of the model ([fromISO] of
    [Env]).  This reader covers the one format the HTTP boundary documents
    and serves to run the model on concrete requests. *)

Module IsoReader.

Definition digitValue (c : ascii) : option Z :=
  let n := Z.of_nat (nat_of_ascii c) in
  if (48 <=? n) && (n <=? 57) then Some (n - 48) else None.

Fixpoint readDigits (k : nat) (acc : Z) (s : string) : option (Z * string) :=
  match k with
  | O => Some (acc, s)
  | S k' =>
      match s with
      | String c r =>
          match digitValue c with
          | Some d => readDigits k' (acc * 10 + d) r
          | None => None
          end
      | EmptyString => None
      end
  end.

Definition readChar (c : ascii) (s : string) : option string :=
  match s with
  | String c' r => if Ascii.eqb c c' then Some r else None
  | EmptyString => None
  end.

Definition readInstant (s : string) : option DateTime :=
  '(y, s) ← readDigits 4 0 s;
  s ← readChar "-" s;
  '(m, s) ← readDigits 2 0 s;
  s ← readChar "-" s;
  '(d, s) ← readDigits 2 0 s;
  s ← readChar "T" s;
  '(hh, s) ← readDigits 2 0 s;
  s ← readChar ":" s;
  '(mm, s) ← readDigits 2 0 s;
  s ← readChar ":" s;
  '(ss, s) ← readDigits 2 0 s;
  '(ms, s) ← match readChar "." s with
             | Some s' => readDigits 3 0 s'
             | None => Some (0, s)
             end;
  s ← readChar "Z" s;
  let n := days_from_civil (y, m, d) in
  if String.eqb s "" && (hh <? 24) && (mm <? 60) && (ss <? 60)
     && bool_decide (civil_from_days n = (y, m, d))
  then Some (mkDateTime (n * MS_PER_DAY + hh * 3600000 + mm * 60000 + ss * 1000 + ms) 0)
  else None.

End IsoReader.

(** ** Sample instants *)

Module Samples.
Import Business.

(* wall-clock time [hh:mm:ss.ms] on the civil date [ymd] in the zone [off] *)
Definition wallClock (ymd : Z * Z * Z) (hh mm ss ms : Z) (off : Z) : DateTime :=
  mkDateTime (days_from_civil ymd * MS_PER_DAY
              + hh * 3600000 + mm * 60000 + ss * 1000 + ms - off * 60000) off.

Definition bogota (ymd : Z * Z * Z) (hh mm ss ms : Z) : DateTime :=
  wallClock ymd hh mm ss ms COLOMBIA_ZONE.
Definition utc (ymd : Z * Z * Z) (hh mm ss ms : Z) : DateTime :=
  wallClock ymd hh mm ss ms UTC_ZONE.

(* Friday 2025-10-03 17:00 and the Monday after, 08:00 and 09:00, in Bogota *)
Definition friday17 : DateTime := bogota (2025, 10, 3) 17 0 0 0.
Definition monday08 : DateTime := bogota (2025, 10, 6) 8 0 0 0.
Definition monday09 : DateTime := bogota (2025, 10, 6) 9 0 0 0.

End Samples.

(** ** The normalizer as the specification words it (section 4.3)

    An ordered list of five rules.  Each has a guard on the instant's date
    and time of day, and an outcome described by the date and the wall-clock
    time of the instant to return. *)

Module Reference.
Import Business.

Inductive Rule : Type :=
  | NotWorkingDay     (* 1 *)
  | LunchBreak        (* 2 *)
  | AtOrAfterClose    (* 3 *)
  | BeforeOpen        (* 4 *)
  | InsideSegment.    (* 5 *)

(* h:00:00.000 as milliseconds into the day *)
Definition clock (h : Z) : Z := h * 3600000.

(* the instant of day number [d] at h:00:00.000, in the zone [off] *)
Definition atClock (d h off : Z) : DateTime :=
  mkDateTime (d * MS_PER_DAY + clock h - off * 60000) off.

Definition guard (rule : Rule) (dt : DateTime) (holidays : HolidaysSet) : Prop :=
  let t := msOfDay dt in
  match rule with
  | NotWorkingDay => isWorkingDay dt holidays = false
  | LunchBreak =>
      isWorkingDay dt holidays = true ∧ clock LUNCH_START_HOUR <= t < clock LUNCH_END_HOUR
  | AtOrAfterClose =>
      isWorkingDay dt holidays = true ∧ clock WORK_END_HOUR <= t
  | BeforeOpen =>
      isWorkingDay dt holidays = true ∧ t < clock WORK_START_HOUR
  | InsideSegment =>
      isWorkingDay dt holidays = true
      ∧ (clock WORK_START_HOUR <= t < clock LUNCH_START_HOUR
         ∨ clock LUNCH_END_HOUR <= t < clock WORK_END_HOUR)
  end.

(* [p] is the working day reached by stepping back from day [d] one day at
   a time: the latest working day before [d] *)
Definition previousWorkingDay (holidays : HolidaysSet) (d p : Z) : Prop :=
  p < d ∧ workingDayNumber p holidays = true
  ∧ ∀ q, p < q < d → workingDayNumber q holidays = false.

Definition outcome (rule : Rule) (dt : DateTime) (holidays : HolidaysSet)
    (r : DateTime) : Prop :=
  match rule with
  | NotWorkingDay | BeforeOpen =>
      ∃ p, previousWorkingDay holidays (dayNumber dt) p
           ∧ r = atClock p WORK_END_HOUR (offset dt)
  | LunchBreak => r = atClock (dayNumber dt) LUNCH_START_HOUR (offset dt)
  | AtOrAfterClose => r = atClock (dayNumber dt) WORK_END_HOUR (offset dt)
  | InsideSegment => r = dt
  end.

Definition normalizes (dt : DateTime) (holidays : HolidaysSet) (r : DateTime) : Prop :=
  ∃ rule, guard rule dt holidays ∧ outcome rule dt holidays r.

(** Business time between two instants (section 8): time is counted only
    inside the working segments [08:00, 12:00) and [13:00, 17:00) of working
    days. *)

(* milliseconds of working segments of one day that lie before time of day [t] *)
Definition workedBefore (t : Z) : Z :=
  Z.min (Z.max (t - clock WORK_START_HOUR) 0) (clock LUNCH_START_HOUR - clock WORK_START_HOUR)
  + Z.min (Z.max (t - clock LUNCH_END_HOUR) 0) (clock WORK_END_HOUR - clock LUNCH_END_HOUR).

(* business milliseconds from [a] to [b], for [a] not after [b] in the same zone *)
Definition businessMsBetween (holidays : HolidaysSet) (a b : DateTime) : Z :=
  let da := dayNumber a in
  let db := dayNumber b in
  foldr (fun d acc =>
           (if workingDayNumber d holidays
            then workedBefore (if d =? db then msOfDay b else MS_PER_DAY)
                 - workedBefore (if d =? da then msOfDay a else 0)
            else 0) + acc)
        0 (seqZ da (db - da + 1)).

(* the same in minutes, as a rational in lowest terms *)
Definition businessMinutesBetween (holidays : HolidaysSet) (a b : DateTime) : Q :=
  Qred (inject_Z (businessMsBetween holidays a b) / 60000).

End Reference.

(** ** The requests of scripts/test-examples.ts *)

Module TestCases.
Import Business Api IsoReader.

(* the holiday source: the two holidays of April 2025 that example 9 crosses *)
Definition source : FetchResult :=
  FetchResponse true 200
    (Some (JArray [JString "2025-04-17T00:00:00.000Z"; JString "2025-04-18T00:00:00.000Z"])).

(* GET /api/business-hours?date=..&days=..&hours=.. on a cold cache *)
Definition get (date : string) (days : Z) (hours : Q) : Outcome string :=
  fst (businessHoursDate (mkEnv 0 source readInstant 0) (Some date) days hours (mkWorld None 0)).

End TestCases.

(** ** src/index.ts: the handler of GET /api/business-hours *)

Module Handler.
Import Business Api.

(* a JavaScript number, as far as the handler inspects it *)
Inductive JSNumber : Type :=
  | JSNaN
  | JSInfinity (negative : bool)
  | JSFinite (q : Q).

Definition Number_isInteger (x : JSNumber) : bool :=
  match x with
  | JSFinite q => Qeq_bool q (inject_Z (Qfloor q))
  | _ => false
  end.

(* x < 0 *)
Definition ltZero (x : JSNumber) : bool :=
  match x with
  | JSNaN => false
  | JSInfinity negative => negative
  | JSFinite q => Qltb q 0
  end.

(* the numeric value handed on; read only once the integer check has passed *)
Definition finiteValue (x : JSNumber) : Q :=
  match x with
  | JSFinite q => q
  | _ => 0%Q
  end.

(* req.query: each of the three parameters is absent or a string (repeated
   and nested parameters, which express turns into arrays and objects, are
   not part of the model) *)
Record Query : Type := mkQuery {
  rawDays : option string;
  rawHours : option string;
  rawDate : option string
}.

Inductive Payload : Type :=
  | SuccessResponse (date : string)
  | ErrorResponse (error message : string).

Record Response : Type := mkResponse {
  status : Z;
  payload : Payload
}.

Definition error400 (message : string) : Response :=
  mkResponse 400 (ErrorResponse "InvalidParameters" message).
Definition error503 (message : string) : Response :=
  mkResponse 503 (ErrorResponse "ServiceUnavailable" message).
Definition error500 (message : string) : Response :=
  mkResponse 500 (ErrorResponse "InternalError" message).

(* raw === undefined || raw === "" *)
Definition missing (raw : option string) : bool :=
  match raw with
  | None => true
  | Some EmptyString => true
  | Some _ => false
  end.

(* s.endsWith(c), for a one-character suffix *)
Fixpoint endsWith (c : ascii) (s : string) : bool :=
  match s with
  | EmptyString => false
  | String a EmptyString => Ascii.eqb a c
  | String _ r => endsWith c r
  end.

(* rawDays !== undefined ? Number(rawDays) : 0, and the same for hours *)
Definition requestedDays (Number : string → JSNumber) (q : Query) : JSNumber :=
  match rawDays q with Some s => Number s | None => JSFinite 0 end.
Definition requestedHours (Number : string → JSNumber) (q : Query) : JSNumber :=
  match rawHours q with Some s => Number s | None => JSFinite 0 end.

(* [Number] is JavaScript's conversion of a string to a number, a parameter
   like [fromISO].  [None] stands for a request left without a response
   (the model's loops out of fuel).  The outer [catch], which answers 500,
   has no branch here: with string parameters no statement outside the
   inner [try] throws. *)
Definition handler (Number : string → JSNumber) (env : Env) (q : Query) (w : World)
  : option Response * World :=
  let days := match rawDays q with Some s => Number s | None => JSFinite 0 end in
  let hours := match rawHours q with Some s => Number s | None => JSFinite 0 end in
  if missing (rawDays q) && missing (rawHours q) then
    (Some (error400 "Se requiere 'days' o 'hours' (entero positivo)."), w)
  else if negb (Number_isInteger days) || ltZero days then
    (Some (error400 "'days' debe ser un entero positivo."), w)
  else if negb (Number_isInteger hours) || ltZero hours then
    (Some (error400 "'hours' debe ser un entero positivo."), w)
  else if match rawDate q with
          | Some d => negb (endsWith "Z" d)
          | None => false
          end then
    (Some (error400 "'date' debe ser ISO 8601 en UTC con sufijo Z."), w)
  else
    let '(result, w') :=
      businessHoursDate env (rawDate q) (Qfloor (finiteValue days)) (finiteValue hours) w in
    match result with
    | Returned dateIso => (Some (mkResponse 200 (SuccessResponse dateIso)), w')
    | Thrown InvalidDate => (Some (error400 "'date' no es un ISO UTC válido."), w')
    | Thrown _ =>
        (Some (error503 "No fue posible obtener el catálogo de días festivos."), w')
    | OutOfFuel => (None, w')
    end.

(* [Number] on the strings the examples use: the empty string is 0, a string
   of decimal digits its value; every other string is given as NaN here *)
Fixpoint digitsValue (acc : Z) (s : string) : option Z :=
  match s with
  | EmptyString => Some acc
  | String c r =>
      if isDigit c then digitsValue (acc * 10 + (Z.of_nat (nat_of_ascii c) - 48)) r
      else None
  end.

Definition decimalNumber (s : string) : JSNumber :=
  match digitsValue 0 s with
  | Some n => JSFinite (inject_Z n)
  | None => JSNaN
  end.

(** The parameters as the endpoint documents them: [days] and [hours]
    optional integers >= 0, at least one of them given; [date] optional,
    ISO 8601 in UTC with the suffix Z. *)

Definition nonNegativeInteger (x : JSNumber) : Prop :=
  ∃ (y : Q) (n : Z), x = JSFinite y ∧ 0 <= n ∧ (y == inject_Z n)%Q.

Definition wellFormed (Number : string → JSNumber) (q : Query) : Prop :=
  ((∃ s, rawDays q = Some s ∧ s ≠ EmptyString) ∨ (∃ s, rawHours q = Some s ∧ s ≠ EmptyString))
  ∧ (∀ s, rawDays q = Some s → nonNegativeInteger (Number s))
  ∧ (∀ s, rawHours q = Some s → nonNegativeInteger (Number s))
  ∧ (∀ d, rawDate q = Some d → ∃ p, d = p +:+ "Z").

End Handler.

(** ** Vocabulary for the properties of the schedule *)

Module Schedule.
Import Business Reference.

(* an instant at which the working clock can stand: on a working day, from
   opening to closing time, not strictly inside the lunch break *)
Definition workingInstant (dt : DateTime) (holidays : HolidaysSet) : Prop :=
  isWorkingDay dt holidays = true
  ∧ (clock WORK_START_HOUR <= msOfDay dt <= clock LUNCH_START_HOUR
     ∨ clock LUNCH_END_HOUR <= msOfDay dt <= clock WORK_END_HOUR).

(* number of working days among the day numbers a+1, ..., b *)
Definition workingDaysBetween (holidays : HolidaysSet) (a b : Z) : nat :=
  length (filter (fun d => workingDayNumber d holidays = true) (seqZ (a + 1) (b - a))).

(* business milliseconds of the day of [dt] that lie before [dt] *)
Definition workedToday (holidays : HolidaysSet) (dt : DateTime) : Z :=
  if isWorkingDay dt holidays then workedBefore (msOfDay dt) else 0.

(* Luxon's range: a DateTime is valid up to 100,000,000 days from the epoch *)
Definition LUXON_MAX_MS : Z := 8640000000000000.

(* 1993-02-07T04:00:00Z: since then America/Bogota is at UTC-05:00 *)
Definition BOGOTA_UTC5_SINCE : Z := 729057600000.

(** The calls of [computeBusinessDate] on which the model coincides with
    Luxon and with double arithmetic: the start has no seconds and no
    milliseconds, [days] and [hours] are whole numbers >= 0 (as the doc
    comment asks), and every instant the computation can reach, from the
    earliest the normalizer can step back to up to the latest the
    accumulators can step forward to, lies where America/Bogota is at
    UTC-05:00 and inside Luxon's range.  A search for a working day moves
    by less than [dayFuel] days. *)
Definition exactDomain (holidays : HolidaysSet) (startCol : DateTime)
    (days : Z) (hours : Q) : Prop :=
  msOfDay startCol mod 60000 = 0
  ∧ 0 <= days
  ∧ (∃ n : Z, 0 <= n ∧ (hours == inject_Z n)%Q)
  ∧ BOGOTA_UTC5_SINCE + (Z.of_nat (dayFuel holidays) + 1) * MS_PER_DAY <= toMillis startCol
  ∧ toMillis startCol
    + Z.of_nat (dayFuel holidays) * (days + Qfloor hours + 3) * MS_PER_DAY <= LUXON_MAX_MS.

(* the character [c] occurs in [s] *)
Fixpoint occurs (c : ascii) (s : string) : bool :=
  match s with
  | EmptyString => false
  | String a r => Ascii.eqb a c || occurs c r
  end.

End Schedule.

(** ** The hour accumulator in double precision

    The loop of [addBusinessHours] once more, with [hours], [remaining],
    [h], [available] and [take] as IEEE 754 binary64 numbers, computed with
    the operations JavaScript applies to them.  Instants stay exact: Luxon
    keeps integer fields. *)

Module Business64.
Import Business Samples.
Import PrimFloat FloatOps SpecFloat.

(* an integer field of a DateTime (hour, minute, second) as a number *)
Definition ofZ (z : Z) : float := of_uint63 (Uint63.of_Z z).

(* dt.hour + dt.minute / 60 + dt.second / 3600 *)
Definition hourOfDay64 (dt : DateTime) : float :=
  (ofZ (hour dt) + ofZ (minute dt) / 60 + ofZ (second dt) / 3600)%float.

(* Math.min, on numbers that are not NaN *)
Definition Math_min64 (a b : float) : float := if leb a b then a else b.

(* Math.round: the nearest integer, ties towards +Infinity, taken on the
   exact value of the double; NaN and the infinities have none *)
Definition Math_round64 (x : float) : option Z :=
  match Prim2SF x with
  | S754_zero _ => Some 0
  | S754_finite s m e =>
      let n := if s then Z.neg m else Z.pos m in
      if 0 <=? e then Some (n * 2 ^ e)
      else Some ((2 * n + 2 ^ (- e)) / 2 ^ (- e + 1))
  | _ => None
  end.

(* one pass through the body of [while (remaining > 0)]; [None] also when
   the minutes to add are not a number *)
Definition addBusinessHours_body64 (holidays : HolidaysSet) (st : DateTime * float)
  : option (DateTime * float) :=
  let '(dt, remaining) := st in
  if negb (isWorkingDay dt holidays) then
    match skipToWorkingDay (setHour WORK_START_HOUR (plusDays 1 dt)) holidays with
    | Some dt' => Some (setHour WORK_START_HOUR dt', remaining)
    | None => None
    end
  else
    let h := hourOfDay64 dt in
    if ltb h (ofZ WORK_START_HOUR) then
      Some (setHour WORK_START_HOUR dt, remaining)
    else if leb (ofZ LUNCH_START_HOUR) h && ltb h (ofZ LUNCH_END_HOUR) then
      Some (setHour LUNCH_END_HOUR dt, remaining)
    else if leb (ofZ WORK_END_HOUR) h then
      match skipToWorkingDay (plusDays 1 dt) holidays with
      | Some dt' => Some (setHour WORK_START_HOUR dt', remaining)
      | None => None
      end
    else
      let segmentEnd :=
        if leb (ofZ WORK_START_HOUR) h && ltb h (ofZ LUNCH_START_HOUR)
        then ofZ LUNCH_START_HOUR else ofZ WORK_END_HOUR in
      let available := (segmentEnd - h)%float in
      let take := Math_min64 available remaining in
      match Math_round64 (take * 60) with
      | Some minutesToAdd => Some (plusMinutes minutesToAdd dt, (remaining - take)%float)
      | None => None
      end.

(* [None]: the loop has not exited within [fuel] passes *)
Definition addBusinessHours64 (fuel : nat) (start : DateTime) (hours : float)
    (holidays : HolidaysSet) : option DateTime :=
  if leb hours 0 then Some start
  else
    match while_loop fuel
            (fun st : DateTime * float => ltb 0 (snd st))
            (addBusinessHours_body64 holidays) (start, hours) with
    | Some (dt, _) => Some dt
    | None => None
    end.

(* Monday 2025-10-06 11:59:40 in Bogota: twenty seconds before the lunch break *)
Definition monday115940 : DateTime := bogota (2025, 10, 6) 11 59 40 0.

End Business64.

(** * Proofs *)

(** ** The calendar: [toISODate] names each day by a different string *)

Module CalendarFacts.
Import Luxon.

Lemma dayOfEra_facts (doe : Z) :
  0 <= doe < 146097 →
  0 <= yearOfEra doe < 400 ∧ 0 <= monthIndex doe <= 11 ∧ 1 <= dayOfMonth doe <= 31.
Proof.
  intros H.
  assert (Hy : 0 <= yearOfEra doe < 400) by (unfold yearOfEra; lia).
  assert (Hd : 0 <= dayOfYear doe <= 365) by (unfold dayOfYear, yearOfEra; lia).
  split; [exact Hy|].
  unfold dayOfMonth, monthIndex. lia.
Qed.

Lemma civil_from_days_range (z : Z) :
  let '(y, m, d) := civil_from_days z in 1 <= m <= 12 ∧ 1 <= d <= 31.
Proof.
  unfold civil_from_days.
  set (doe := z + 719468 - (z + 719468) / 146097 * 146097).
  assert (Hdoe : 0 <= doe < 146097) by (unfold doe; lia).
  destruct (dayOfEra_facts doe Hdoe) as (_ & Hm & Hd).
  destruct (monthIndex doe <? 10) eqn:E; lia.
Qed.

Lemma days_from_civil_from_days (z : Z) : days_from_civil (civil_from_days z) = z.
Proof.
  unfold civil_from_days, days_from_civil.
  set (era := (z + 719468) / 146097).
  set (doe := z + 719468 - era * 146097).
  assert (Hdoe : 0 <= doe < 146097) by (unfold doe, era; lia).
  destruct (dayOfEra_facts doe Hdoe) as (Hy & Hm & Hd).
  set (mp := monthIndex doe) in *.
  set (yoe := yearOfEra doe) in *.
  set (m := if mp <? 10 then mp + 3 else mp - 9).
  assert (Hmp : (if 2 <? m then m - 3 else m + 9) = mp).
  { unfold m. destruct (mp <? 10) eqn:E.
    - apply Z.ltb_lt in E. replace (2 <? mp + 3) with true by (symmetry; apply Z.ltb_lt; lia). lia.
    - apply Z.ltb_ge in E. replace (2 <? mp - 9) with false by (symmetry; apply Z.ltb_ge; lia). lia. }
  assert (Hy' : (if m <=? 2 then (if m <=? 2 then yoe + era * 400 + 1 else yoe + era * 400) - 1
                 else if m <=? 2 then yoe + era * 400 + 1 else yoe + era * 400)
                = yoe + era * 400).
  { destruct (m <=? 2); lia. }
  rewrite Hy', Hmp.
  assert (Hera : (yoe + era * 400) / 400 = era) by lia.
  rewrite Hera.
  unfold dayOfMonth. fold mp. unfold dayOfYear. fold yoe. unfold doe. lia.
Qed.

Lemma civil_from_days_inj (a b : Z) : civil_from_days a = civil_from_days b → a = b.
Proof.
  intros H. rewrite <- (days_from_civil_from_days a), <- (days_from_civil_from_days b).
  now rewrite H.
Qed.

(** Strings: lengths, splitting at a suffix of known length *)

Lemma append_cons (c : ascii) (s t : string) : String c s +:+ t = String c (s +:+ t).
Proof. reflexivity. Qed.

Lemma append_nil_l (t : string) : "" +:+ t = t.
Proof. reflexivity. Qed.

Lemma length_append (s t : string) :
  String.length (s +:+ t) = (String.length s + String.length t)%nat.
Proof.
  induction s as [|c s IH]; [reflexivity|].
  rewrite append_cons. cbn [String.length]. now rewrite IH.
Qed.

Lemma append_inj_suffix (s1 s2 t1 t2 : string) :
  String.length t1 = String.length t2 →
  s1 +:+ t1 = s2 +:+ t2 → s1 = s2 ∧ t1 = t2.
Proof.
  revert s2. induction s1 as [|c s1 IH]; intros [|c' s2] Hlen H.
  - split; [reflexivity|exact H].
  - exfalso. rewrite append_nil_l in H. subst t1.
    rewrite append_cons in Hlen. cbn [String.length] in Hlen.
    rewrite length_append in Hlen. lia.
  - exfalso. rewrite append_nil_l in H. subst t2.
    rewrite append_cons in Hlen. cbn [String.length] in Hlen.
    rewrite length_append in Hlen. lia.
  - rewrite !append_cons in H. injection H as -> H.
    destruct (IH s2 Hlen H) as [-> ->]. split; reflexivity.
Qed.

(** Decimal digits *)

Lemma digit_inj (a b : Z) : 0 <= a < 10 → 0 <= b < 10 → digit a = digit b → a = b.
Proof.
  intros Ha Hb H. unfold digit in H.
  apply (f_equal nat_of_ascii) in H.
  rewrite !nat_ascii_embedding in H by lia. lia.
Qed.

Lemma dec_length (k : nat) (n : Z) : String.length (dec k n) = k.
Proof.
  revert n. induction k as [|k IH]; intros n; [reflexivity|].
  cbn [dec]. rewrite length_append, IH. cbn [String.length]. lia.
Qed.

Lemma dec_inj (k : nat) (a b : Z) :
  0 <= a < 10 ^ Z.of_nat k → 0 <= b < 10 ^ Z.of_nat k → dec k a = dec k b → a = b.
Proof.
  revert a b. induction k as [|k IH]; intros a b Ha Hb H.
  - change (10 ^ Z.of_nat 0) with 1 in *. lia.
  - rewrite Nat2Z.inj_succ, Z.pow_succ_r in Ha, Hb by lia.
    cbn [dec] in H. apply append_inj_suffix in H as [H1 H2]; [|reflexivity].
    injection H2 as H2. apply digit_inj in H2; [|lia|lia].
    apply IH in H1; lia.
Qed.

Lemma ndigits_go_bound (fuel : nat) (n : Z) :
  0 <= n < 2 ^ (Z.of_nat fuel + 3) → n < 10 ^ Z.of_nat (ndigits_go fuel n).
Proof.
  revert n. induction fuel as [|fuel IH]; intros n Hn.
  - cbn in *. lia.
  - cbn [ndigits_go]. destruct (n <? 10) eqn:E.
    + apply Z.ltb_lt in E. cbn. lia.
    + apply Z.ltb_ge in E. rewrite Nat2Z.inj_succ, Z.pow_succ_r by lia.
      replace (Z.of_nat (S fuel) + 3) with (Z.succ (Z.of_nat fuel + 3)) in Hn by lia.
      rewrite Z.pow_succ_r in Hn by lia.
      assert (n / 10 < 10 ^ Z.of_nat (ndigits_go fuel (n / 10))) by (apply IH; lia).
      lia.
Qed.

Lemma ndigits_bound (n : Z) : 0 <= n → n < 10 ^ Z.of_nat (ndigits n).
Proof.
  intros Hn. unfold ndigits. apply ndigits_go_bound. split; [lia|].
  destruct (Z.eq_dec n 0) as [->|Hne]; [cbn; lia|].
  rewrite Z2Nat.id by apply Z.log2_nonneg.
  pose proof (Z.log2_spec n ltac:(lia)) as [_ Hlt].
  eapply Z.lt_le_trans; [exact Hlt|].
  apply Z.pow_le_mono_r; lia.
Qed.

Lemma ndigits_go_small (fuel : nat) (n : Z) (k : nat) :
  0 <= n < 10 ^ Z.of_nat k → (1 <= k)%nat → (ndigits_go fuel n <= k)%nat.
Proof.
  revert n k. induction fuel as [|fuel IH]; intros n k Hn Hk; [cbn; lia|].
  cbn [ndigits_go]. destruct (n <? 10) eqn:E; [lia|].
  apply Z.ltb_ge in E. destruct k as [|[|k]]; [lia| cbn in Hn; lia |].
  apply le_n_S, IH; [|lia].
  rewrite Nat2Z.inj_succ, Z.pow_succ_r in Hn by lia. lia.
Qed.

Lemma padStart_small (w : nat) (n : Z) :
  0 <= n < 10 ^ Z.of_nat w → (1 <= w)%nat → padStart w n = dec w n.
Proof.
  intros Hn Hw. unfold padStart.
  pose proof (ndigits_go_small (Z.to_nat (Z.log2 n)) n w Hn Hw) as H.
  fold (ndigits n) in H. now rewrite Nat.max_l by exact H.
Qed.

Lemma padStart_length_ge (w : nat) (n : Z) : (w <= String.length (padStart w n))%nat.
Proof. unfold padStart. rewrite dec_length. lia. Qed.

Lemma padStart_inj (w : nat) (a b : Z) :
  0 <= a → 0 <= b → padStart w a = padStart w b → a = b.
Proof.
  intros Ha Hb H. unfold padStart in H.
  assert (Hk : Nat.max w (ndigits a) = Nat.max w (ndigits b)).
  { apply (f_equal String.length) in H. now rewrite !dec_length in H. }
  rewrite <- Hk in H.
  assert (Hmono : ∀ n, 0 <= n → n < 10 ^ Z.of_nat (Nat.max w (ndigits n))).
  { intros n Hn. eapply Z.lt_le_trans; [apply ndigits_bound, Hn|].
    apply Z.pow_le_mono_r; lia. }
  eapply dec_inj; [| |exact H].
  - split; [lia|]. now apply Hmono.
  - split; [lia|]. rewrite Hk. now apply Hmono.
Qed.

(** ISO dates *)

Lemma isoYear_inj (a b : Z) : isoYear a = isoYear b → a = b.
Proof.
  unfold isoYear. intros H.
  destruct ((0 <=? a) && (a <=? 9999)) eqn:Ea; destruct ((0 <=? b) && (b <=? 9999)) eqn:Eb.
  - apply andb_prop in Ea as [?%Z.leb_le ?], Eb as [?%Z.leb_le ?].
    eapply padStart_inj; eauto.
  - exfalso. apply andb_prop in Ea as [?%Z.leb_le ?%Z.leb_le].
    rewrite padStart_small in H by (cbn; lia).
    apply (f_equal String.length) in H. rewrite dec_length in H.
    pose proof (padStart_length_ge 6 (Z.abs b)).
    destruct (0 <=? b); rewrite append_cons, append_nil_l in H; cbn [String.length] in H; lia.
  - exfalso. apply andb_prop in Eb as [?%Z.leb_le ?%Z.leb_le].
    rewrite (padStart_small 4 b) in H by (cbn; lia).
    apply (f_equal String.length) in H. rewrite dec_length in H.
    pose proof (padStart_length_ge 6 (Z.abs a)).
    destruct (0 <=? a); rewrite append_cons, append_nil_l in H; cbn [String.length] in H; lia.
  - destruct (0 <=? a) eqn:Sa; destruct (0 <=? b) eqn:Sb;
      rewrite !append_cons, !append_nil_l in H; injection H as H;
      try discriminate;
      apply padStart_inj in H; lia.
Qed.

Lemma isoDate_inj (y1 m1 d1 y2 m2 d2 : Z) :
  1 <= m1 <= 12 → 1 <= d1 <= 31 → 1 <= m2 <= 12 → 1 <= d2 <= 31 →
  isoDate (y1, m1, d1) = isoDate (y2, m2, d2) → (y1, m1, d1) = (y2, m2, d2).
Proof.
  intros Hm1 Hd1 Hm2 Hd2 H. unfold isoDate in H.
  rewrite !(padStart_small 2) in H by (cbn; lia).
  pose proof (dec_length 2 m1) as L1. pose proof (dec_length 2 m2) as L2.
  pose proof (dec_length 2 d1) as L3. pose proof (dec_length 2 d2) as L4.
  remember (dec 2 m1) as M1 eqn:EM1. remember (dec 2 m2) as M2 eqn:EM2.
  remember (dec 2 d1) as D1 eqn:ED1. remember (dec 2 d2) as D2 eqn:ED2.
  remember (isoYear y1) as Y1 eqn:EY1. remember (isoYear y2) as Y2 eqn:EY2.
  apply append_inj_suffix in H as [Hy H].
  2:{ rewrite !append_cons, !append_nil_l. cbn [String.length].
      rewrite !length_append. cbn [String.length]. lia. }
  rewrite !append_cons, !append_nil_l in H. injection H as H.
  apply append_inj_suffix in H as [Hm H]; [|cbn [String.length]; lia].
  injection H as Hd. subst.
  apply isoYear_inj in Hy.
  apply dec_inj in Hm; [|cbn; lia|cbn; lia].
  apply dec_inj in Hd; [|cbn; lia|cbn; lia].
  now subst.
Qed.

End CalendarFacts.

(** ** Fuelled loops *)

Module LoopFacts.

Lemma while_loop_step {S : Type} (c : S → bool) (b : S → option S) (n : nat) (s : S) :
  while_loop (Datatypes.S n) c b s
  = if c s then match b s with
               | Some s' => while_loop n c b s'
               | None => None
               end
    else Some s.
Proof. reflexivity. Qed.

Lemma while_loop_mono {S : Type} (c : S → bool) (b : S → option S) (n m : nat) (s r : S) :
  while_loop n c b s = Some r → (n <= m)%nat → while_loop m c b s = Some r.
Proof.
  revert m s. induction n as [|n IH]; intros m s H Hle; [discriminate|].
  destruct m as [|m]; [lia|]. cbn in *.
  destruct (c s); [|exact H]. destruct (b s) as [s'|]; [|discriminate].
  apply IH; [exact H|lia].
Qed.

(* a search along a sequence [g 0, g 1, ...] stops at the first index where
   the condition fails, provided the fuel reaches it *)
Lemma while_loop_search {S : Type} (c : S → bool) (step : S → S) (g : nat → S) :
  (∀ k, step (g k) = g (Datatypes.S k)) →
  ∀ fuel i, (∃ k, (k < fuel)%nat ∧ c (g (i + k)%nat) = false) →
  ∃ k, while_loop fuel c (fun s => Some (step s)) (g i) = Some (g (i + k)%nat)
       ∧ c (g (i + k)%nat) = false ∧ ∀ j, (j < k)%nat → c (g (i + j)%nat) = true.
Proof.
  intros Hstep. induction fuel as [|fuel IH]; intros i (k & Hk & Hc); [lia|].
  cbn [while_loop]. destruct (c (g i)) eqn:E.
  - destruct k as [|k]; [rewrite Nat.add_0_r in Hc; congruence|].
    rewrite Hstep.
    destruct (IH (Datatypes.S i)) as (k' & Hrun & Hstop & Hbefore).
    { exists k. split; [lia|]. now rewrite Nat.add_succ_comm. }
    exists (Datatypes.S k'). rewrite <- !Nat.add_succ_comm. repeat split; try assumption.
    intros [|j] Hj; [now rewrite Nat.add_0_r|].
    rewrite <- Nat.add_succ_comm. apply Hbefore. lia.
  - exists 0%nat. rewrite Nat.add_0_r. repeat split; [assumption|]. intros j Hj. lia.
Qed.

End LoopFacts.

(** ** Working days: a holiday set is finite, so a working day is never far *)

Module WorkingDayFacts.
Import Luxon Business CalendarFacts LoopFacts.

Lemma dateString_inj (a b : Z) : dateString a = dateString b → a = b.
Proof.
  unfold dateString. intros H.
  pose proof (civil_from_days_range a) as Ra.
  pose proof (civil_from_days_range b) as Rb.
  destruct (civil_from_days a) as [[y1 m1] d1] eqn:Ea.
  destruct (civil_from_days b) as [[y2 m2] d2] eqn:Eb.
  apply civil_from_days_inj. rewrite Ea, Eb.
  apply isoDate_inj; tauto.
Qed.

Lemma toYMD_inj (a b : DateTime) : toYMD a = toYMD b → dayNumber a = dayNumber b.
Proof. apply dateString_inj. Qed.

Lemma isWorkingDay_dayNumber (dt : DateTime) (h : gset string) :
  isWorkingDay dt h = workingDayNumber (dayNumber dt) h.
Proof.
  unfold isWorkingDay, workingDayNumber, isWeekend, weekday, toYMD, toISODate, dateString.
  now destruct (_ || _).
Qed.

Lemma isWorkingDay_same_day (a b : DateTime) (h : gset string) :
  dayNumber a = dayNumber b → isWorkingDay a h = isWorkingDay b h.
Proof. intros H. now rewrite !isWorkingDay_dayNumber, H. Qed.

Lemma isWorkingDay_true (dt : DateTime) (h : gset string) :
  isWorkingDay dt h = true ↔ isWeekend dt = false ∧ toYMD dt ∉ h.
Proof.
  unfold isWorkingDay. destruct (isWeekend dt); [intuition discriminate|].
  rewrite negb_true_iff, bool_decide_eq_false. tauto.
Qed.

(* among [size h + 1] Mondays a week apart one is not a holiday *)
Lemma monday_not_holiday (h : gset string) (m sigma : Z) :
  sigma = 1 ∨ sigma = -1 →
  ∃ i : nat, (i <= size h)%nat ∧ dateString (m + sigma * 7 * Z.of_nat i) ∉ h.
Proof.
  intros Hs.
  set (f := fun i : nat => dateString (m + sigma * 7 * Z.of_nat i)).
  destruct (decide (Forall (fun i => f i ∈ h) (seq 0 (S (size h))))) as [Hall|Hnot].
  - exfalso.
    assert (Hinj : Inj (=) (=) f).
    { intros i j Hij. apply dateString_inj in Hij. lia. }
    assert (Hnd : NoDup (f <$> seq 0 (S (size h)))).
    { apply (NoDup_fmap_2 f), NoDup_seq. }
    assert (Hsub : list_to_set (f <$> seq 0 (S (size h))) ⊆ h).
    { intros x Hx. apply elem_of_list_to_set, list_elem_of_fmap in Hx as (i & -> & Hi).
      rewrite Forall_forall in Hall. now apply Hall. }
    apply subseteq_size in Hsub.
    rewrite size_list_to_set in Hsub by exact Hnd.
    rewrite length_fmap, length_seq in Hsub. lia.
  - apply not_Forall_Exists in Hnot; [|intros; apply _].
    apply Exists_exists in Hnot as (i & Hi & Hn).
    apply elem_of_seq in Hi. exists i. split; [lia|exact Hn].
Qed.

Lemma working_day_within (h : gset string) (d0 sigma : Z) :
  sigma = 1 ∨ sigma = -1 →
  ∃ k : nat, (k < 7 * (size h + 1))%nat
             ∧ workingDayNumber (d0 + sigma * Z.of_nat k) h = true.
Proof.
  intros Hs.
  set (j := (- sigma * (d0 + 3)) mod 7).
  destruct (monday_not_holiday h (d0 + sigma * j) sigma Hs) as (i & Hi & Hn).
  exists (Z.to_nat j + 7 * i)%nat. split; [lia|].
  replace (d0 + sigma * Z.of_nat (Z.to_nat j + 7 * i))
    with (d0 + sigma * j + sigma * 7 * Z.of_nat i) by lia.
  unfold workingDayNumber.
  rewrite (bool_decide_eq_false_2 _ Hn).
  assert (Hmon : (d0 + sigma * j + sigma * 7 * Z.of_nat i + 3) mod 7 = 0).
  { unfold j. destruct Hs as [-> | ->]; lia. }
  rewrite Hmon. reflexivity.
Qed.

End WorkingDayFacts.

(** ** Arithmetic of [DateTime] *)

Module DateTimeFacts.
Import Luxon.

Ltac unfold_datetime :=
  unfold hour, minute, second, millisecond;
  unfold setHour, plusDays, minusDays, plusMinutes, setZone;
  unfold msOfDay, dayNumber, localMs, MS_PER_DAY;
  cbn [toMillis offset].

Lemma DateTime_eq (a b : DateTime) :
  offset a = offset b → dayNumber a = dayNumber b → msOfDay a = msOfDay b → a = b.
Proof.
  destruct a as [ta oa], b as [tb ob]. unfold dayNumber, msOfDay, localMs, MS_PER_DAY.
  cbn. intros -> Hd Hm. f_equal. lia.
Qed.

Lemma dayNumber_plusDays (n : Z) (dt : DateTime) : dayNumber (plusDays n dt) = dayNumber dt + n.
Proof. unfold_datetime. lia. Qed.

Lemma msOfDay_plusDays (n : Z) (dt : DateTime) : msOfDay (plusDays n dt) = msOfDay dt.
Proof. unfold_datetime. lia. Qed.

Lemma dayNumber_minusDays (n : Z) (dt : DateTime) : dayNumber (minusDays n dt) = dayNumber dt - n.
Proof. unfold_datetime. lia. Qed.

Lemma msOfDay_minusDays (n : Z) (dt : DateTime) : msOfDay (minusDays n dt) = msOfDay dt.
Proof. unfold_datetime. lia. Qed.

Lemma dayNumber_setHour (h : Z) (dt : DateTime) :
  0 <= h < 24 → dayNumber (setHour h dt) = dayNumber dt.
Proof. unfold_datetime. lia. Qed.

Lemma msOfDay_setHour (h : Z) (dt : DateTime) :
  0 <= h < 24 → msOfDay (setHour h dt) = h * 3600000.
Proof. unfold_datetime. lia. Qed.

Lemma plusDays_0 (dt : DateTime) : plusDays 0 dt = dt.
Proof. destruct dt. unfold plusDays. cbn. f_equal. lia. Qed.

Lemma plusDays_plusDays (a b : Z) (dt : DateTime) :
  plusDays a (plusDays b dt) = plusDays (b + a) dt.
Proof. unfold plusDays, MS_PER_DAY. cbn. f_equal. lia. Qed.

Lemma minusDays_minusDays (a b : Z) (dt : DateTime) :
  minusDays a (minusDays b dt) = minusDays (b + a) dt.
Proof. unfold minusDays, MS_PER_DAY. cbn. f_equal. lia. Qed.

Lemma setHour_setHour (h h' : Z) (dt : DateTime) :
  0 <= h' < 24 → setHour h (setHour h' dt) = setHour h dt.
Proof.
  intros H. unfold setHour at 1 3. rewrite dayNumber_setHour by exact H. reflexivity.
Qed.

Lemma setHour_minusDays (h n : Z) (dt : DateTime) :
  setHour h (minusDays n dt) = minusDays n (setHour h dt).
Proof.
  unfold setHour. rewrite dayNumber_minusDays. unfold minusDays, MS_PER_DAY. cbn.
  f_equal. lia.
Qed.

Lemma msOfDay_range (dt : DateTime) : 0 <= msOfDay dt < 86400000.
Proof. unfold msOfDay, MS_PER_DAY. lia. Qed.

End DateTimeFacts.

(** ** The day-by-day searches of the three algorithms *)

Module SearchFacts.
Import Luxon Business LoopFacts WorkingDayFacts DateTimeFacts.

Lemma day_search (h : gset string) (step : DateTime → DateTime) (g : nat → DateTime)
    (d0 sigma : Z) :
  sigma = 1 ∨ sigma = -1 →
  (∀ k, step (g k) = g (S k)) →
  (∀ k, dayNumber (g k) = d0 + sigma * Z.of_nat k) →
  ∃ k, while_loop (dayFuel h) (fun d => negb (isWorkingDay d h))
         (fun d => Some (step d)) (g 0%nat) = Some (g k)
       ∧ isWorkingDay (g k) h = true
       ∧ ∀ j, (j < k)%nat → isWorkingDay (g j) h = false.
Proof.
  intros Hs Hstep Hday.
  destruct (while_loop_search (fun d => negb (isWorkingDay d h)) step g Hstep
              (dayFuel h) 0%nat) as (k & Hrun & Hstop & Hbefore).
  { destruct (working_day_within h d0 sigma Hs) as (k & Hk & Hw).
    exists k. split; [exact Hk|]. cbn [Nat.add].
    now rewrite isWorkingDay_dayNumber, Hday, Hw. }
  cbn [Nat.add] in *. exists k. split; [exact Hrun|]. split.
  - now apply negb_false_iff.
  - intros j Hj. apply negb_true_iff. now apply Hbefore.
Qed.

(* while (!isWorkingDay(dt)) dt = dt.plus({ days: 1 }) *)
Lemma skipToWorkingDay_spec (dt : DateTime) (h : gset string) :
  ∃ k : nat, skipToWorkingDay dt h = Some (plusDays (Z.of_nat k) dt)
             ∧ isWorkingDay (plusDays (Z.of_nat k) dt) h = true
             ∧ ∀ j, (j < k)%nat → isWorkingDay (plusDays (Z.of_nat j) dt) h = false.
Proof.
  unfold skipToWorkingDay.
  destruct (day_search h (plusDays 1) (fun k => plusDays (Z.of_nat k) dt) (dayNumber dt) 1)
    as (k & Hrun & Hk).
  - now left.
  - intros k. rewrite plusDays_plusDays. f_equal. lia.
  - intros k. rewrite dayNumber_plusDays. lia.
  - exists k. cbn beta in Hrun. change (Z.of_nat 0) with 0 in Hrun.
    rewrite plusDays_0 in Hrun. split; [exact Hrun|exact Hk].
Qed.

Lemma skipToWorkingDay_working (dt r : DateTime) (h : gset string) :
  skipToWorkingDay dt h = Some r → isWorkingDay r h = true.
Proof.
  intros H. destruct (skipToWorkingDay_spec dt h) as (k & Hrun & Hw & _). congruence.
Qed.

End SearchFacts.

(** ** Day accumulator *)

Module DayAccumulator.
Import Luxon Business Samples LoopFacts WorkingDayFacts DateTimeFacts SearchFacts.

(* the loop of [addBusinessDays] run for [n] business days *)
Lemma addBusinessDays_loop (h : gset string) (n : nat) (dt : DateTime) :
  ∃ r, while_loop (S n) (fun st : DateTime * Z => 0 <? snd st)
         (fun st => let '(dt, remaining) := st in
                    match skipToWorkingDay (plusDays 1 dt) h with
                    | Some dt' => Some (dt', remaining - 1)
                    | None => None
                    end) (dt, Z.of_nat n) = Some (r, 0)
       ∧ msOfDay r = msOfDay dt ∧ offset r = offset dt
       ∧ ((0 < n)%nat → isWorkingDay r h = true)
       ∧ (n = 0%nat → r = dt).
Proof.
  revert dt. induction n as [|n IH]; intros dt.
  - exists dt. cbn. repeat split; intros; (lia || reflexivity).
  - destruct (skipToWorkingDay_spec (plusDays 1 dt) h) as (k & Hskip & Hw & _).
    set (dt' := plusDays (Z.of_nat k) (plusDays 1 dt)) in *.
    destruct (IH dt') as (r & Hrun & Hms & Hoff & Hwork & Hzero).
    exists r. rewrite while_loop_step. cbn [snd].
    replace (0 <? Z.of_nat (S n)) with true by (symmetry; apply Z.ltb_lt; lia).
    rewrite Hskip. replace (Z.of_nat (S n) - 1) with (Z.of_nat n) by lia.
    rewrite Hrun. repeat split.
    + rewrite Hms. unfold dt'. now rewrite !msOfDay_plusDays.
    + rewrite Hoff. reflexivity.
    + intros _. destruct n as [|n]; [rewrite Hzero by reflexivity; exact Hw|].
      apply Hwork. lia.
    + discriminate.
Qed.

Lemma addBusinessDays_noop (start : DateTime) (days : Z) (h : gset string) :
  days <= 0 → addBusinessDays start days h = Some start.
Proof.
  intros H. unfold addBusinessDays.
  now replace (days <=? 0) with true by (symmetry; apply Z.leb_le; lia).
Qed.

Lemma addBusinessDays_returns (start : DateTime) (days : Z) (h : gset string) :
  ∃ r, addBusinessDays start days h = Some r.
Proof.
  destruct (Z_le_gt_dec days 0) as [Hle|Hgt].
  - exists start. now apply addBusinessDays_noop.
  - unfold addBusinessDays.
    replace (days <=? 0) with false by (symmetry; apply Z.leb_gt; lia).
    destruct (addBusinessDays_loop h (Z.to_nat days) start) as (r & Hrun & _).
    rewrite Z2Nat.id in Hrun by lia. rewrite Hrun. now exists r.
Qed.

(** C1, as amended: for every holiday set, every instant and every
    [days >= 1], [addBusinessDays] returns an instant, and the calendar date
    of that instant is neither a Saturday, nor a Sunday, nor a member of the
    holiday set.  ([days <= 0] is the no-op of [addBusinessDays_noop].) *)
Theorem addBusinessDays_lands_on_working_day
    (start : DateTime) (days : Z) (holidays : gset string) :
  0 < days →
  ∃ r, addBusinessDays start days holidays = Some r
       ∧ isWeekend r = false ∧ toYMD r ∉ holidays.
Proof.
  intros Hd. unfold addBusinessDays.
  replace (days <=? 0) with false by (symmetry; apply Z.leb_gt; lia).
  destruct (addBusinessDays_loop holidays (Z.to_nat days) start)
    as (r & Hrun & _ & _ & Hw & _).
  rewrite Z2Nat.id in Hrun by lia. rewrite Hrun.
  exists r. split; [reflexivity|]. apply isWorkingDay_true, Hw. lia.
Qed.

Lemma addBusinessDays_lands_on_working_day_witness :
  ∃ r, addBusinessDays (bogota (2025, 10, 3) 10 0 0 0) 1 {[ "2025-10-06"%string ]} = Some r
       ∧ isWeekend r = false ∧ toYMD r ∉ ({[ "2025-10-06"%string ]} : gset string).
Proof. apply addBusinessDays_lands_on_working_day. lia. Defined.

(** C1, as stated, fails for [days = 0]: asked for zero business days from
    Saturday 2025-10-04 10:00 (Bogota), [addBusinessDays] hands the Saturday
    back. *)
Lemma addBusinessDays_zero_returns_saturday :
  addBusinessDays (bogota (2025, 10, 4) 10 0 0 0) 0 ∅
    = Some (bogota (2025, 10, 4) 10 0 0 0)
  ∧ weekday (bogota (2025, 10, 4) 10 0 0 0) = 6
  ∧ isWeekend (bogota (2025, 10, 4) 10 0 0 0) = true.
Proof. repeat split. Qed.

Example addBusinessDays_from_friday :
  addBusinessDays (bogota (2025, 10, 3) 10 0 0 0) 1 {[ "2025-10-06"%string ]}
  = Some (bogota (2025, 10, 7) 10 0 0 0).
Proof. vm_compute. reflexivity. Qed.

End DayAccumulator.

(** ** The clock: [hourOfDay] against whole seconds *)

Module ClockFacts.
Import Luxon Business DateTimeFacts.

Lemma secondOfDay_fields (dt : DateTime) :
  secondOfDay dt = hour dt * 3600 + minute dt * 60 + second dt.
Proof. unfold secondOfDay, hour, minute, second. pose proof (msOfDay_range dt). lia. Qed.

Lemma secondOfDay_range (dt : DateTime) : 0 <= secondOfDay dt < 86400.
Proof. unfold secondOfDay. pose proof (msOfDay_range dt). lia. Qed.

Lemma hourOfDay_seconds (dt : DateTime) :
  (hourOfDay dt == inject_Z (secondOfDay dt) * (1 # 3600))%Q.
Proof.
  rewrite secondOfDay_fields. unfold hourOfDay.
  rewrite !inject_Z_plus, !inject_Z_mult. field.
Qed.

Lemma Qleb_hourOfDay (H : Z) (dt : DateTime) :
  Qleb (inject_Z H) (hourOfDay dt) = (H * 3600 <=? secondOfDay dt).
Proof.
  apply eq_true_iff_eq. unfold Qleb. rewrite Qle_bool_iff, Z.leb_le, hourOfDay_seconds.
  unfold Qle, Qmult, inject_Z. cbn. lia.
Qed.

Lemma Qltb_hourOfDay (H : Z) (dt : DateTime) :
  Qltb (hourOfDay dt) (inject_Z H) = (secondOfDay dt <? H * 3600).
Proof.
  unfold Qltb. rewrite Z.ltb_antisym. f_equal. apply Qleb_hourOfDay.
Qed.

(* the four tests of the algorithms on the clock *)
Lemma before_open_test (dt : DateTime) :
  Qltb (hourOfDay dt) (inject_Z WORK_START_HOUR) = (secondOfDay dt <? 28800).
Proof. apply Qltb_hourOfDay. Qed.

Lemma in_lunch_test (dt : DateTime) :
  Qleb (inject_Z LUNCH_START_HOUR) (hourOfDay dt) && Qltb (hourOfDay dt) (inject_Z LUNCH_END_HOUR)
  = (43200 <=? secondOfDay dt) && (secondOfDay dt <? 46800).
Proof. now rewrite Qleb_hourOfDay, Qltb_hourOfDay. Qed.

Lemma after_close_test (dt : DateTime) :
  Qleb (inject_Z WORK_END_HOUR) (hourOfDay dt) = (61200 <=? secondOfDay dt).
Proof. apply Qleb_hourOfDay. Qed.

Lemma morning_test (dt : DateTime) :
  Qleb (inject_Z WORK_START_HOUR) (hourOfDay dt) && Qltb (hourOfDay dt) (inject_Z LUNCH_START_HOUR)
  = (28800 <=? secondOfDay dt) && (secondOfDay dt <? 43200).
Proof. now rewrite Qleb_hourOfDay, Qltb_hourOfDay. Qed.

End ClockFacts.

(** ** Normalizer *)

Module Normalizer.
Import Luxon Business Reference Samples.
Import LoopFacts WorkingDayFacts DateTimeFacts SearchFacts ClockFacts.

Lemma setHour_atClock (h : Z) (dt : DateTime) :
  setHour h dt = atClock (dayNumber dt) h (offset dt).
Proof. reflexivity. Qed.

Lemma dayNumber_atClock (d h off : Z) : 0 <= h < 24 → dayNumber (atClock d h off) = d.
Proof. unfold atClock, clock. unfold_datetime. lia. Qed.

Lemma msOfDay_atClock (d h off : Z) : 0 <= h < 24 → msOfDay (atClock d h off) = clock h.
Proof. unfold atClock, clock. unfold_datetime. lia. Qed.

(* stepping back from [dt] until a working day is met, by either loop of
   the normalizer, ends at 17:00 of the previous working day *)
Lemma step_back_anchored (dt : DateTime) (h : gset string) :
  ∃ p, previousWorkingDay h (dayNumber dt) p
       ∧ while_loop (dayFuel h) (fun d => negb (isWorkingDay d h))
           (fun d => Some (setHour WORK_END_HOUR (minusDays 1 d)))
           (setHour WORK_END_HOUR (minusDays 1 dt))
         = Some (atClock p WORK_END_HOUR (offset dt)).
Proof.
  destruct (day_search h (fun d => setHour WORK_END_HOUR (minusDays 1 d))
              (fun k => setHour WORK_END_HOUR (minusDays (Z.of_nat (S k)) dt))
              (dayNumber dt - 1) (-1)) as (k & Hrun & Hw & Hbefore).
  - now right.
  - intros k. rewrite setHour_minusDays, setHour_setHour by (unfold WORK_END_HOUR; lia).
    rewrite <- setHour_minusDays, minusDays_minusDays. do 2 f_equal. lia.
  - intros k. rewrite dayNumber_setHour, dayNumber_minusDays by (unfold WORK_END_HOUR; lia). lia.
  - exists (dayNumber dt - Z.of_nat (S k)). split.
    + split; [lia|]. split.
      * rewrite isWorkingDay_dayNumber, dayNumber_setHour, dayNumber_minusDays in Hw
          by (unfold WORK_END_HOUR; lia). exact Hw.
      * intros q Hq. specialize (Hbefore (Z.to_nat (dayNumber dt - 1 - q)) ltac:(lia)).
        rewrite isWorkingDay_dayNumber, dayNumber_setHour, dayNumber_minusDays in Hbefore
          by (unfold WORK_END_HOUR; lia).
        replace (dayNumber dt - Z.of_nat (S (Z.to_nat (dayNumber dt - 1 - q)))) with q
          in Hbefore by lia. exact Hbefore.
    + change (Z.of_nat 1) with 1 in Hrun. rewrite Hrun.
      now rewrite setHour_atClock, dayNumber_minusDays.
Qed.

Lemma step_back_plain (dt : DateTime) (h : gset string) :
  ∃ p, previousWorkingDay h (dayNumber dt) p
       ∧ ∃ prev, while_loop (dayFuel h) (fun d => negb (isWorkingDay d h))
                   (fun d => Some (minusDays 1 d)) (minusDays 1 dt) = Some prev
                 ∧ setHour WORK_END_HOUR prev = atClock p WORK_END_HOUR (offset dt).
Proof.
  destruct (day_search h (minusDays 1) (fun k => minusDays (Z.of_nat (S k)) dt)
              (dayNumber dt - 1) (-1)) as (k & Hrun & Hw & Hbefore).
  - now right.
  - intros k. rewrite minusDays_minusDays. f_equal. lia.
  - intros k. rewrite dayNumber_minusDays. lia.
  - exists (dayNumber dt - Z.of_nat (S k)). split.
    + split; [lia|]. split.
      * rewrite isWorkingDay_dayNumber, dayNumber_minusDays in Hw. exact Hw.
      * intros q Hq. specialize (Hbefore (Z.to_nat (dayNumber dt - 1 - q)) ltac:(lia)).
        rewrite isWorkingDay_dayNumber, dayNumber_minusDays in Hbefore.
        replace (dayNumber dt - Z.of_nat (S (Z.to_nat (dayNumber dt - 1 - q)))) with q
          in Hbefore by lia. exact Hbefore.
    + exists (minusDays (Z.of_nat (S k)) dt). change (Z.of_nat 1) with 1 in Hrun.
      split; [exact Hrun|]. now rewrite setHour_atClock, dayNumber_minusDays.
Qed.

Lemma previousWorkingDay_unique (h : gset string) (d p1 p2 : Z) :
  previousWorkingDay h d p1 → previousWorkingDay h d p2 → p1 = p2.
Proof.
  intros (H1 & W1 & B1) (H2 & W2 & B2).
  destruct (Z.lt_trichotomy p1 p2) as [Hlt|[Heq|Hgt]]; [|exact Heq|].
  - specialize (B1 p2 ltac:(lia)). congruence.
  - specialize (B2 p1 ltac:(lia)). congruence.
Qed.

(* the tests of the code, read on the millisecond clock *)
Lemma lunch_test (dt : DateTime) :
  Qleb (inject_Z LUNCH_START_HOUR) (hourOfDay dt) && Qltb (hourOfDay dt) (inject_Z LUNCH_END_HOUR)
  = true ↔ clock LUNCH_START_HOUR <= msOfDay dt < clock LUNCH_END_HOUR.
Proof.
  rewrite Qleb_hourOfDay, Qltb_hourOfDay, andb_true_iff, Z.leb_le, Z.ltb_lt.
  unfold secondOfDay, clock, LUNCH_START_HOUR, LUNCH_END_HOUR. lia.
Qed.

Lemma close_test (dt : DateTime) :
  Qleb (inject_Z WORK_END_HOUR) (hourOfDay dt) = true ↔ clock WORK_END_HOUR <= msOfDay dt.
Proof.
  rewrite Qleb_hourOfDay, Z.leb_le. unfold secondOfDay, clock, WORK_END_HOUR. lia.
Qed.

Lemma open_test (dt : DateTime) :
  Qltb (hourOfDay dt) (inject_Z WORK_START_HOUR) = true ↔ msOfDay dt < clock WORK_START_HOUR.
Proof.
  rewrite Qltb_hourOfDay, Z.ltb_lt. unfold secondOfDay, clock, WORK_START_HOUR. lia.
Qed.

(* the code takes the branch of the rule whose guard holds *)
Lemma normalize_by_rule (dt : DateTime) (h : gset string) :
  ∃ rule r, guard rule dt h ∧ outcome rule dt h r
            ∧ normalizeBackwardToWorkingSlot dt h = Some r.
Proof.
  unfold normalizeBackwardToWorkingSlot.
  destruct (isWorkingDay dt h) eqn:Ew; cbn [negb].
  2:{ destruct (step_back_anchored dt h) as (p & Hp & Hrun).
      exists NotWorkingDay, (atClock p WORK_END_HOUR (offset dt)).
      split; [exact Ew|]. split; [exists p; auto|exact Hrun]. }
  destruct (_ && _) eqn:El.
  { apply lunch_test in El. exists LunchBreak, (atClock (dayNumber dt) LUNCH_START_HOUR (offset dt)).
    repeat split; auto; apply El. }
  assert (Hl : ¬ (clock LUNCH_START_HOUR <= msOfDay dt < clock LUNCH_END_HOUR)).
  { intros Hl. apply lunch_test in Hl. congruence. }
  destruct (Qleb (inject_Z WORK_END_HOUR) (hourOfDay dt)) eqn:Ec.
  { apply close_test in Ec. exists AtOrAfterClose, (atClock (dayNumber dt) WORK_END_HOUR (offset dt)).
    repeat split; auto. }
  assert (Hc : ¬ (clock WORK_END_HOUR <= msOfDay dt)).
  { intros Hc. apply close_test in Hc. congruence. }
  destruct (Qltb (hourOfDay dt) (inject_Z WORK_START_HOUR)) eqn:Eo.
  { apply open_test in Eo. destruct (step_back_plain dt h) as (p & Hp & prev & Hrun & Hprev).
    exists BeforeOpen, (atClock p WORK_END_HOUR (offset dt)).
    split; [split; assumption|]. split; [exists p; auto|].
    rewrite Hrun. now rewrite Hprev. }
  assert (Ho : ¬ (msOfDay dt < clock WORK_START_HOUR)).
  { intros Ho. apply open_test in Ho. congruence. }
  exists InsideSegment, dt. split; [|split; reflexivity].
  split; [exact Ew|].
  unfold clock, LUNCH_START_HOUR, LUNCH_END_HOUR, WORK_END_HOUR, WORK_START_HOUR in *. lia.
Qed.

Lemma guard_exclusive (dt : DateTime) (h : gset string) (r1 r2 : Rule) :
  guard r1 dt h → guard r2 dt h → r1 = r2.
Proof.
  unfold guard, clock, LUNCH_START_HOUR, LUNCH_END_HOUR, WORK_END_HOUR, WORK_START_HOUR.
  cbv zeta.
  destruct r1, r2; intros H1 H2; try reflexivity; exfalso;
    repeat match goal with H : _ ∧ _ |- _ => destruct H end;
    try congruence; lia.
Qed.

Lemma outcome_functional (rule : Rule) (dt : DateTime) (h : gset string) (r1 r2 : DateTime) :
  outcome rule dt h r1 → outcome rule dt h r2 → r1 = r2.
Proof.
  destruct rule; cbn; try congruence;
    intros (p1 & Hp1 & ->) (p2 & Hp2 & ->);
    now rewrite (previousWorkingDay_unique _ _ _ _ Hp1 Hp2).
Qed.

(** C2: the code of [normalizeBackwardToWorkingSlot] computes the five-rule
    decision list of the specification.  For every instant and holiday set
    exactly one rule has its guard satisfied (the rules are mutually
    exclusive and exhaustive), the code returns an instant, that instant is
    the outcome the applicable rule prescribes, and the rules prescribe no
    other. *)
Theorem normalizeBackwardToWorkingSlot_refines_rules
    (dt : DateTime) (holidays : gset string) :
  (∃ rule, guard rule dt holidays ∧ ∀ rule', guard rule' dt holidays → rule' = rule)
  ∧ ∃ r, normalizeBackwardToWorkingSlot dt holidays = Some r
         ∧ normalizes dt holidays r
         ∧ ∀ r', normalizes dt holidays r' → r' = r.
Proof.
  destruct (normalize_by_rule dt holidays) as (rule & r & Hg & Ho & Hrun).
  split.
  - exists rule. split; [exact Hg|]. intros rule' Hg'. eapply guard_exclusive; eauto.
  - exists r. split; [exact Hrun|]. split; [exists rule; auto|].
    intros r' (rule' & Hg' & Ho').
    rewrite (guard_exclusive _ _ _ _ Hg' Hg) in Ho'.
    eapply outcome_functional; eauto.
Qed.

(* an instant the rules leave at 12:00 or 17:00 of a working day is mapped
   to itself *)
Lemma normalize_anchor_fixed (d hh off : Z) (h : gset string) :
  workingDayNumber d h = true → hh = LUNCH_START_HOUR ∨ hh = WORK_END_HOUR →
  normalizeBackwardToWorkingSlot (atClock d hh off) h = Some (atClock d hh off).
Proof.
  intros Hw Hh.
  assert (Hr : 0 <= hh < 24) by (unfold LUNCH_START_HOUR, WORK_END_HOUR in Hh; lia).
  set (r := atClock d hh off).
  assert (Hwr : isWorkingDay r h = true).
  { unfold r. now rewrite isWorkingDay_dayNumber, dayNumber_atClock. }
  destruct (normalize_by_rule r h) as (rule & r' & Hg & Ho & Hrun).
  rewrite Hrun. f_equal.
  assert (Hms : msOfDay r = clock hh) by (apply msOfDay_atClock, Hr).
  destruct Hh as [-> | ->].
  - assert (Hg' : guard LunchBreak r h).
    { split; [exact Hwr|]. rewrite Hms. unfold clock, LUNCH_START_HOUR, LUNCH_END_HOUR. lia. }
    rewrite (guard_exclusive _ _ _ _ Hg Hg') in Ho. cbn in Ho. subst r'.
    unfold r at 1 2. now rewrite dayNumber_atClock.
  - assert (Hg' : guard AtOrAfterClose r h).
    { split; [exact Hwr|]. rewrite Hms. lia. }
    rewrite (guard_exclusive _ _ _ _ Hg Hg') in Ho. cbn in Ho. subst r'.
    unfold r at 1 2. now rewrite dayNumber_atClock.
Qed.

(** C3: [normalizeBackwardToWorkingSlot] is idempotent.  For every instant
    and holiday set it returns an instant, and normalizing that instant
    again returns it unchanged. *)
Theorem normalizeBackwardToWorkingSlot_idempotent (dt : DateTime) (holidays : gset string) :
  ∃ r, normalizeBackwardToWorkingSlot dt holidays = Some r
       ∧ normalizeBackwardToWorkingSlot r holidays = Some r.
Proof.
  destruct (normalize_by_rule dt holidays) as (rule & r & Hg & Ho & Hrun).
  exists r. split; [exact Hrun|].
  destruct rule; cbn in Ho.
  - destruct Ho as (p & (_ & Hw & _) & ->). apply normalize_anchor_fixed; auto.
  - subst r. destruct Hg as [Hw _]. rewrite isWorkingDay_dayNumber in Hw.
    apply normalize_anchor_fixed; auto.
  - subst r. destruct Hg as [Hw _]. rewrite isWorkingDay_dayNumber in Hw.
    apply normalize_anchor_fixed; auto.
  - destruct Ho as (p & (_ & Hw & _) & ->). apply normalize_anchor_fixed; auto.
  - now subst r.
Qed.

Example normalize_saturday :
  normalizeBackwardToWorkingSlot (bogota (2025, 10, 4) 14 0 0 0) ∅
  = Some (bogota (2025, 10, 3) 17 0 0 0).
Proof. vm_compute. reflexivity. Qed.

Example normalize_lunch :
  normalizeBackwardToWorkingSlot (bogota (2025, 10, 6) 12 30 15 250) ∅
  = Some (bogota (2025, 10, 6) 12 0 0 0).
Proof. vm_compute. reflexivity. Qed.

Example normalize_early_monday_after_holiday_friday :
  normalizeBackwardToWorkingSlot (bogota (2025, 10, 6) 7 59 59 999) {[ "2025-10-03"%string ]}
  = Some (bogota (2025, 10, 2) 17 0 0 0).
Proof. vm_compute. reflexivity. Qed.

End Normalizer.

(** ** Hour accumulator *)

Module HourAccumulator.
Import Luxon Business Samples.
Import LoopFacts WorkingDayFacts DateTimeFacts SearchFacts ClockFacts.

Lemma secondOfDay_setHour (H : Z) (dt : DateTime) :
  0 <= H < 24 → secondOfDay (setHour H dt) = H * 3600.
Proof. intros HH. unfold secondOfDay. rewrite msOfDay_setHour by exact HH. lia. Qed.

Lemma isWorkingDay_setHour (H : Z) (dt : DateTime) (h : gset string) :
  0 <= H < 24 → isWorkingDay (setHour H dt) h = isWorkingDay dt h.
Proof. intros HH. apply isWorkingDay_same_day, dayNumber_setHour, HH. Qed.

Lemma inSegment_setHour (H : Z) (dt : DateTime) (h : gset string) :
  H = WORK_START_HOUR ∨ H = LUNCH_END_HOUR → isWorkingDay dt h = true →
  inSegment (setHour H dt) h = true.
Proof.
  intros HH Hw. unfold inSegment.
  assert (0 <= H < 24) by (unfold WORK_START_HOUR, LUNCH_END_HOUR in HH; lia).
  rewrite isWorkingDay_setHour, Hw, secondOfDay_setHour by assumption.
  destruct HH as [-> | ->]; reflexivity.
Qed.

(* a pass outside a working segment leaves [remaining] alone and lands at the
   start of a working segment *)
Lemma skip_pass (h : gset string) (dt : DateTime) (remaining : Q) :
  inSegment dt h = false →
  ∃ dt', addBusinessHours_body h (dt, remaining) = Some (dt', remaining)
         ∧ inSegment dt' h = true.
Proof.
  intros Hout. unfold addBusinessHours_body.
  destruct (isWorkingDay dt h) eqn:Ew; cbn [negb].
  - rewrite before_open_test, in_lunch_test, after_close_test.
    destruct (secondOfDay dt <? 28800) eqn:E1.
    { eexists. split; [reflexivity|]. apply inSegment_setHour; auto. }
    destruct ((43200 <=? secondOfDay dt) && (secondOfDay dt <? 46800)) eqn:E2.
    { eexists. split; [reflexivity|]. apply inSegment_setHour; auto. }
    destruct (61200 <=? secondOfDay dt) eqn:E3.
    { destruct (skipToWorkingDay_spec (plusDays 1 dt) h) as (k & Hrun & Hw & _).
      rewrite Hrun. eexists. split; [reflexivity|]. apply inSegment_setHour; auto. }
    exfalso. unfold inSegment in Hout. rewrite Ew in Hout. cbn [andb] in Hout. lia.
  - destruct (skipToWorkingDay_spec (setHour WORK_START_HOUR (plusDays 1 dt)) h)
      as (k & Hrun & Hw & _).
    rewrite Hrun. eexists. split; [reflexivity|].
    apply inSegment_setHour; auto.
Qed.

Lemma dayNumber_plusMinutes (m : Z) (dt : DateTime) :
  0 <= m * 60000 + msOfDay dt < 86400000 →
  dayNumber (plusMinutes m dt) = dayNumber dt.
Proof. unfold_datetime. lia. Qed.

(* the clock advance of a pass inside a segment stays within the day *)
Lemma segment_advance (dt : DateTime) (E : Z) (take : Q) :
  (0 <= take)%Q → (take <= inject_Z E - hourOfDay dt)%Q → E <= 17 →
  0 <= Math_round (take * 60) * 60000 + msOfDay dt < 86400000.
Proof.
  intros H0 Hle HE. unfold Math_round.
  set (M := Qfloor (take * 60 + (1 # 2))).
  assert (HM0 : 0 <= M).
  { change 0 with (Qfloor (inject_Z 0)). apply Qfloor_resp_le.
    change (inject_Z 0) with 0%Q. lra. }
  assert (HMq : (inject_Z M <= (inject_Z E - inject_Z (secondOfDay dt) * (1 # 3600)) * 60 + (1 # 2))%Q).
  { pose proof (Qfloor_le (take * 60 + (1 # 2))) as Hf. fold M in Hf.
    rewrite hourOfDay_seconds in Hle. lra. }
  assert (HMz : M * 60 + secondOfDay dt <= E * 3600 + 30).
  { revert HMq. unfold Qle, Qplus, Qminus, Qopp, Qmult, Qdiv, Qinv, inject_Z. cbn. lia. }
  pose proof (msOfDay_range dt). unfold secondOfDay in HMz. lia.
Qed.

(* the end of the segment an instant lies in, as the code picks it *)
Lemma segment_end (dt : DateTime) (h : gset string) :
  inSegment dt h = true →
  let E := if (28800 <=? secondOfDay dt) && (secondOfDay dt <? 43200)
           then LUNCH_START_HOUR else WORK_END_HOUR in
  secondOfDay dt + 1 <= E * 3600 ∧ E <= 17.
Proof.
  unfold inSegment, LUNCH_START_HOUR, WORK_END_HOUR. intros [_ Hs]%andb_prop.
  destruct ((28800 <=? secondOfDay dt) && (secondOfDay dt <? 43200)) eqn:E1; cbv zeta; lia.
Qed.

Lemma available_positive (dt : DateTime) (E : Z) :
  secondOfDay dt + 1 <= E * 3600 → (1 # 3600 <= inject_Z E - hourOfDay dt)%Q.
Proof.
  intros HE. rewrite hourOfDay_seconds.
  rewrite Zle_Qle, inject_Z_plus, inject_Z_mult in HE.
  change (inject_Z 1) with 1%Q in HE. change (inject_Z 3600) with 3600%Q in HE.
  lra.
Qed.

(* Math.min(available, remaining) and what is left after taking it *)
Lemma take_bounds (available remaining : Q) :
  (1 # 3600 <= available)%Q → (0 < remaining)%Q →
  let take := Math_min available remaining in
  (0 <= take)%Q ∧ (take <= available)%Q ∧ (remaining - take < remaining)%Q
  ∧ ((remaining - take <= 0)%Q ∨ ((remaining - take) * 3600 <= remaining * 3600 - 1)%Q).
Proof.
  intros Hav Hpos. cbv zeta. unfold Math_min.
  destruct (Qle_bool available remaining) eqn:Em.
  - repeat split; (lra || (right; lra)).
  - assert (¬ (available <= remaining)%Q) by (rewrite <- Qle_bool_iff; congruence).
    repeat split; (lra || (left; lra)).
Qed.

(* a pass inside a working segment keeps the date and takes at least one
   second off [remaining], or all of it *)
Lemma segment_pass (h : gset string) (dt : DateTime) (remaining : Q) :
  inSegment dt h = true → (0 < remaining)%Q →
  ∃ dt' remaining', addBusinessHours_body h (dt, remaining) = Some (dt', remaining')
    ∧ isWorkingDay dt' h = true
    ∧ (remaining' < remaining)%Q
    ∧ ((remaining' <= 0)%Q ∨ (remaining' * 3600 <= remaining * 3600 - 1)%Q).
Proof.
  intros Hin Hpos. pose proof (segment_end dt h Hin) as HE. cbv zeta in HE.
  unfold addBusinessHours_body.
  assert (Ew : isWorkingDay dt h = true).
  { unfold inSegment in Hin. now apply andb_prop in Hin as [Ew _]. }
  assert (Hs : (secondOfDay dt <? 28800) = false
               ∧ (43200 <=? secondOfDay dt) && (secondOfDay dt <? 46800) = false
               ∧ (61200 <=? secondOfDay dt) = false).
  { unfold inSegment in Hin. apply andb_prop in Hin as [_ Hs]. lia. }
  destruct Hs as (E1 & E2 & E3).
  rewrite Ew. cbn [negb].
  rewrite before_open_test, in_lunch_test, after_close_test, morning_test, E1, E2, E3.
  remember (if (28800 <=? secondOfDay dt) && (secondOfDay dt <? 43200)
            then LUNCH_START_HOUR else WORK_END_HOUR) as E eqn:HeqE.
  clear HeqE. destruct HE as [HE1 HE2].
  pose proof (available_positive dt E HE1) as Hav.
  pose proof (take_bounds _ remaining Hav Hpos) as Htake. cbv zeta in Htake.
  destruct Htake as (Ht0 & Htle & Hlt & Hdec).
  eexists _, _. split; [reflexivity|]. rewrite !Qred_correct.
  split; [|split; assumption].
  rewrite <- Ew. apply isWorkingDay_same_day, dayNumber_plusMinutes.
  now apply (segment_advance dt E).
Qed.

Lemma Qltb_0_true (x : Q) : (0 < x)%Q → Qltb 0 x = true.
Proof.
  intros H. unfold Qltb. apply negb_true_iff. apply not_true_is_false.
  rewrite Qle_bool_iff. lra.
Qed.

Lemma Qltb_0_false (x : Q) : (x <= 0)%Q → Qltb 0 x = false.
Proof. intros H. unfold Qltb. apply negb_false_iff. now apply Qle_bool_iff. Qed.

Lemma hours_loop_exit (h : gset string) (fuel : nat) (dt : DateTime) (remaining : Q) :
  (remaining <= 0)%Q →
  while_loop (S fuel) (fun st : DateTime * Q => Qltb 0 (snd st))
    (addBusinessHours_body h) (dt, remaining) = Some (dt, remaining).
Proof. intros H. rewrite while_loop_step. cbn [snd]. now rewrite Qltb_0_false. Qed.

(* [n] bounds the seconds still to add; a start inside a segment needs
   [2 n] units of fuel, any other start one more *)
Lemma hours_loop_terminates (h : gset string) (n : nat) :
  ∀ (dt : DateTime) (remaining : Q) (fuel : nat),
    (0 < remaining)%Q → (remaining * 3600 <= inject_Z (Z.of_nat n))%Q →
    ((if inSegment dt h then 2 * n else 2 * n + 1) <= fuel)%nat →
    ∃ dt' remaining',
      while_loop fuel (fun st : DateTime * Q => Qltb 0 (snd st))
        (addBusinessHours_body h) (dt, remaining) = Some (dt', remaining')
      ∧ isWorkingDay dt' h = true ∧ (remaining' <= 0)%Q.
Proof.
  induction n as [|n IH]; intros dt remaining fuel Hpos Hn Hfuel.
  { exfalso. change (inject_Z (Z.of_nat 0)) with 0%Q in Hn. lra. }
  assert (Hseg : ∀ dt fuel, inSegment dt h = true → (2 * S n <= fuel)%nat →
            ∃ dt' remaining',
              while_loop fuel (fun st : DateTime * Q => Qltb 0 (snd st))
                (addBusinessHours_body h) (dt, remaining) = Some (dt', remaining')
              ∧ isWorkingDay dt' h = true ∧ (remaining' <= 0)%Q).
  { clear dt fuel Hfuel. intros dt fuel Hin Hfuel.
    destruct fuel as [|[|fuel]]; [lia|lia|].
    destruct (segment_pass h dt remaining Hin Hpos) as (dt' & rem' & Hbody & Hw & _ & Hdec).
    rewrite while_loop_step. cbn [snd]. rewrite (Qltb_0_true _ Hpos), Hbody.
    destruct (Qlt_le_dec 0 rem') as [Hpos'|Hdone].
    - destruct Hdec as [Hdec|Hdec]; [lra|].
      apply IH; [exact Hpos'| |destruct (inSegment dt' h); lia].
      rewrite Nat2Z.inj_succ, <- Z.add_1_r, inject_Z_plus in Hn.
      change (inject_Z 1) with 1%Q in Hn. lra.
    - exists dt', rem'. split; [now apply hours_loop_exit|]. split; assumption. }
  destruct (inSegment dt h) eqn:Ein; [now apply Hseg|].
  destruct fuel as [|fuel]; [lia|].
  destruct (skip_pass h dt remaining Ein) as (dt1 & Hbody & Hin1).
  rewrite while_loop_step. cbn [snd]. rewrite (Qltb_0_true _ Hpos), Hbody.
  apply Hseg; [exact Hin1|lia].
Qed.

Lemma hoursFuel_bound (hours : Q) :
  (0 < hours)%Q →
  (hours * 3600 <= inject_Z (Z.of_nat (Z.to_nat (Qceiling (hours * 3600)))))%Q.
Proof.
  intros Hpos. pose proof (Qle_ceiling (hours * 3600)) as Hc.
  destruct (Z_le_gt_dec 0 (Qceiling (hours * 3600))) as [Hge|Hlt].
  - now rewrite Z2Nat.id by exact Hge.
  - exfalso. assert (Hz : Qceiling (hours * 3600) <= 0) by lia.
    rewrite Zle_Qle in Hz. change (inject_Z 0) with 0%Q in Hz. lra.
Qed.

Lemma addBusinessHours_returns (start : DateTime) (hours : Q) (h : gset string) :
  ∃ r, addBusinessHours start hours h = Some r.
Proof.
  unfold addBusinessHours, addBusinessHours_fuel.
  destruct (Qle_bool hours 0) eqn:Hb; [now exists start|].
  assert (Hpos : (0 < hours)%Q).
  { apply Qnot_le_lt. rewrite <- Qle_bool_iff. congruence. }
  destruct (hours_loop_terminates h (Z.to_nat (Qceiling (hours * 3600)))
              start hours (hoursFuel hours) Hpos (hoursFuel_bound hours Hpos))
    as (dt & rem & Hrun & _).
  { unfold hoursFuel. destruct (inSegment start h); lia. }
  rewrite Hrun. now exists dt.
Qed.

(** C10: for every start instant, every holiday set and every [hours > 0],
    [addBusinessHours] returns an instant on a working day: its calendar
    date is neither a Saturday, nor a Sunday, nor a member of the holiday
    set. *)
Theorem addBusinessHours_lands_on_working_day
    (start : DateTime) (hours : Q) (holidays : gset string) :
  (0 < hours)%Q →
  ∃ r, addBusinessHours start hours holidays = Some r
       ∧ isWeekend r = false ∧ toYMD r ∉ holidays.
Proof.
  intros Hpos.
  destruct (hours_loop_terminates holidays (Z.to_nat (Qceiling (hours * 3600)))
              start hours (hoursFuel hours) Hpos (hoursFuel_bound hours Hpos))
    as (dt & rem & Hrun & Hw & _).
  { unfold hoursFuel. destruct (inSegment start holidays); lia. }
  exists dt. split; [|now apply isWorkingDay_true].
  assert (Hb : Qle_bool hours 0 = false).
  { apply not_true_is_false. rewrite Qle_bool_iff. lra. }
  unfold addBusinessHours, addBusinessHours_fuel. now rewrite Hb, Hrun.
Qed.

Lemma addBusinessHours_lands_on_working_day_witness :
  ∃ r, addBusinessHours (bogota (2025, 10, 3) 16 30 0 0) 1 {[ "2025-10-06"%string ]} = Some r
       ∧ isWeekend r = false ∧ toYMD r ∉ ({[ "2025-10-06"%string ]} : gset string).
Proof. apply addBusinessHours_lands_on_working_day. reflexivity. Defined.

Example addBusinessHours_friday_afternoon :
  addBusinessHours (bogota (2025, 10, 3) 16 30 0 0) 1 {[ "2025-10-06"%string ]}
  = Some (bogota (2025, 10, 7) 8 30 0 0).
Proof. vm_compute. reflexivity. Qed.

End HourAccumulator.

(** ** Hour accumulator: the stall before the end of a segment *)

Module HourAccumulatorDefect.
Import Luxon Business Reference Samples.

Example businessMinutes_full_day :
  businessMinutesBetween ∅ (bogota (2025, 10, 6) 8 0 0 0) (bogota (2025, 10, 6) 17 0 0 0)
  = 480%Q.
Proof. vm_compute. reflexivity. Qed.

Example businessMinutes_over_weekend :
  businessMinutesBetween ∅ (bogota (2025, 10, 3) 16 30 0 0) (bogota (2025, 10, 6) 8 30 0 0)
  = 60%Q.
Proof. vm_compute. reflexivity. Qed.

Example addBusinessHours_eight_hours :
  addBusinessHours (bogota (2025, 10, 6) 8 0 0 0) 8 ∅
  = Some (bogota (2025, 10, 6) 17 0 0 0).
Proof. vm_compute. reflexivity. Qed.

(** C4 fails on the code.  From Monday 2025-10-06 11:59:40 (Bogota), 20
    seconds before the lunch break, with no holidays, one business hour is
    asked for: 60 business minutes should elapse.  [addBusinessHours] returns
    the start instant itself, so none elapses.  (Each pass finds 20 seconds
    available, rounds them to 0 minutes, leaves the clock where it is and
    still takes the 20 seconds off [remaining].)  From 08:00:40 with eight
    hours asked for it stops at 11:59:40 the same day, after 239 business
    minutes instead of 480. *)
Theorem addBusinessHours_stalls_before_segment_end :
  addBusinessHours (bogota (2025, 10, 6) 11 59 40 0) 1 ∅
    = Some (bogota (2025, 10, 6) 11 59 40 0)
  ∧ businessMinutesBetween ∅ (bogota (2025, 10, 6) 11 59 40 0)
      (bogota (2025, 10, 6) 11 59 40 0) = 0%Q
  ∧ Math_round (1 * 60) = 60
  ∧ addBusinessHours (bogota (2025, 10, 6) 8 0 40 0) 8 ∅
    = Some (bogota (2025, 10, 6) 11 59 40 0)
  ∧ businessMinutesBetween ∅ (bogota (2025, 10, 6) 8 0 40 0)
      (bogota (2025, 10, 6) 11 59 40 0) = 239%Q
  ∧ Math_round (8 * 60) = 480.
Proof. repeat split; vm_compute; reflexivity. Qed.

End HourAccumulatorDefect.

(** ** The hour accumulator on doubles *)

Module HourLoop64.
Import Luxon Business Samples Business64 LoopFacts.
Import PrimFloat.

(* on whole hours from a whole minute the doubles give what the exact
   numbers give *)
Example addBusinessHours64_friday_close :
  addBusinessHours64 4 friday17 1 ∅ = Some monday09
  ∧ addBusinessHours friday17 1 ∅ = Some monday09.
Proof. split; vm_compute; reflexivity. Qed.

(* the stall of C4, on doubles: after 180 passes of 20 seconds each the
   start is returned *)
Example addBusinessHours64_stalls :
  addBusinessHours64 200 monday115940 1 ∅ = Some monday115940.
Proof. vm_compute. reflexivity. Qed.

(* where half a minute is left in the segment the two part: the double
   (17 - h) * 60 falls just short of 0.5 and no minute is added, so the
   start comes back; on exact numbers the half minute rounds up *)
Example addBusinessHours64_half_minute :
  addBusinessHours64 400 (bogota (2025, 10, 3) 16 59 30 999) 1 ∅
    = Some (bogota (2025, 10, 3) 16 59 30 999)
  ∧ addBusinessHours (bogota (2025, 10, 3) 16 59 30 999) 1 ∅ = Some monday09.
Proof. split; vm_compute; reflexivity. Qed.

(* a state the body maps to itself, with the loop condition true, is never left *)
Lemma while_loop_stuck {S : Type} (c : S → bool) (b : S → option S) (s : S) :
  c s = true → b s = Some s → ∀ fuel, while_loop fuel c b s = None.
Proof.
  intros Hc Hb. induction fuel as [|fuel IH]; [reflexivity|].
  now rewrite while_loop_step, Hc, Hb.
Qed.

(** C9 fails on the code.  From Monday 2025-10-06 11:59:40 (Bogota), 20
    seconds before the lunch break, with no holidays and
    [hours = 100000000000000]: a pass finds 20 seconds available, rounds
    them to 0 minutes and leaves the clock where it is, as in C4; and on
    doubles [remaining - take] is [remaining] again, since 20 seconds are
    less than half the spacing of doubles near 10^14.  The pass returns the
    state it was given, [remaining] does not decrease, and the loop does not
    exit, whatever number of passes it is given. *)
Theorem addBusinessHours_never_exits_when_stalled :
  ltb 0 100000000000000 = true
  ∧ addBusinessHours_body64 ∅ (monday115940, 100000000000000%float)
    = Some (monday115940, 100000000000000%float)
  ∧ ∀ fuel, addBusinessHours64 fuel monday115940 100000000000000 ∅ = None.
Proof.
  assert (Hc : ltb 0 100000000000000 = true) by (vm_compute; reflexivity).
  assert (Hb : addBusinessHours_body64 ∅ (monday115940, 100000000000000%float)
               = Some (monday115940, 100000000000000%float)) by (vm_compute; reflexivity).
  split; [exact Hc|]. split; [exact Hb|]. intros fuel.
  unfold addBusinessHours64.
  replace (leb 100000000000000 0) with false by (vm_compute; reflexivity).
  now rewrite (while_loop_stuck (fun st : DateTime * float => ltb 0 (snd st))
                 (addBusinessHours_body64 ∅) (monday115940, 100000000000000%float)
                 Hc Hb fuel).
Qed.

End HourLoop64.

(** ** Holiday provider *)

Module HolidayProvider.
Import Luxon Business.

Lemma cacheHit_None (now : Z) (w : World) :
  cacheHit now w = None ↔
  ∀ c, holidayCache w = Some c → HOLIDAY_CACHE_TTL_MS <= now - ts c.
Proof.
  unfold cacheHit, cacheFresh. destruct (holidayCache w) as [c|]; [|intuition congruence].
  destruct (now - ts c <? HOLIDAY_CACHE_TTL_MS) eqn:E.
  - apply Z.ltb_lt in E. split; [discriminate|]. intros H. specialize (H c eq_refl). lia.
  - apply Z.ltb_ge in E. split; [|reflexivity]. intros _ c' [= <-]. exact E.
Qed.

(** C7, as amended: [fetchHolidays] returns the cached set unchanged, with no
    request sent, whenever a cache entry less than one hour old exists.
    When there is none it sends one request, and it raises a condition
    exactly when the request is rejected, or the transport reports a
    non-success status, or the body of a successful response does not
    decode as JSON; the cache entry is then left as it was and no set is
    returned.  On a successful response with a decodable body, even one
    that parses to the empty set, it stores the parsed set as the new cache
    entry stamped with the current time and returns it. *)
Theorem fetchHolidays_contract (now : Z) (net : FetchResult) (w : World) :
  (∀ c, holidayCache w = Some c → now - ts c < HOLIDAY_CACHE_TTL_MS →
        fetchHolidays now net w = (Returned (holidays c), w))
  ∧ ((∀ c, holidayCache w = Some c → HOLIDAY_CACHE_TTL_MS <= now - ts c) →
     match net with
     | FetchResponse true _ (Some json) =>
         fetchHolidays now net w
         = (Returned (parseHolidays json),
            mkWorld (Some (mkHolidayCache now (parseHolidays json))) (S (fetches w)))
     | _ =>
         ∃ e, fetchHolidays now net w
              = (Thrown e, mkWorld (holidayCache w) (S (fetches w)))
     end).
Proof.
  split.
  - intros c Hc Hfresh. unfold fetchHolidays, cacheHit, cacheFresh. rewrite Hc.
    now replace (now - ts c <? HOLIDAY_CACHE_TTL_MS) with true by (symmetry; apply Z.ltb_lt; lia).
  - intros Hstale. apply cacheHit_None in Hstale. unfold fetchHolidays. rewrite Hstale.
    destruct net as [|[|] status [json|]]; cbn; eauto.
Qed.

Lemma fetchHolidays_contract_witness :
  fetchHolidays 1000 FetchRejected
    (mkWorld (Some (mkHolidayCache 0 {[ "2025-10-13"%string ]})) 0)
  = (Returned {[ "2025-10-13"%string ]},
     mkWorld (Some (mkHolidayCache 0 {[ "2025-10-13"%string ]})) 0).
Proof.
  exact (proj1 (fetchHolidays_contract 1000 FetchRejected
                  (mkWorld (Some (mkHolidayCache 0 {[ "2025-10-13"%string ]})) 0))
           (mkHolidayCache 0 {[ "2025-10-13"%string ]}) eq_refl eq_refl).
Defined.

(** C7, as stated, fails: with no cache entry, a response with the success
    status 200 whose body is not JSON makes [fetchHolidays] raise, although the
    transport reported no non-success status. *)
Lemma fetchHolidays_raises_on_success_status :
  fetchHolidays 0 (FetchResponse true 200 None) (mkWorld None 0)
  = (Thrown InvalidJson, mkWorld None 1).
Proof. reflexivity. Qed.

Lemma fetchHolidays_never_InvalidDate (now : Z) (net : FetchResult) (w : World) :
  fst (fetchHolidays now net w) ≠ Thrown InvalidDate
  ∧ fst (fetchHolidays now net w) ≠ OutOfFuel.
Proof.
  unfold fetchHolidays. destruct (cacheHit now w); [cbn; split; discriminate|].
  destruct net as [|[|] status [json|]]; cbn; split; discriminate.
Qed.

Example parse_array_of_strings_and_objects :
  parseHolidays (JArray [JString "2025-04-17T00:00:00";
                         JObject {[ "fecha"%string := JString "2025-04-18" ]};
                         JNumber 3; JNull])
  = {[ "2025-04-17"%string; "2025-04-18"%string ]}.
Proof. vm_compute. reflexivity. Qed.

Example fetch_empty_document_is_cached :
  fetchHolidays 5 (FetchResponse true 200 (Some (JObject ∅))) (mkWorld None 0)
  = (Returned ∅, mkWorld (Some (mkHolidayCache 5 ∅)) 1).
Proof. vm_compute. reflexivity. Qed.

End HolidayProvider.

(** ** Orchestrator *)

Module Orchestrator.
Import Luxon Business Reference Samples IsoReader.
Import LoopFacts WorkingDayFacts DateTimeFacts SearchFacts ClockFacts.

Lemma mbind_Returned {A B : Type} (a : A) (k : A → Outcome B) : (Returned a ≫= k) = k a.
Proof. reflexivity. Qed.

Lemma mbind_Thrown {A B : Type} (e : Exn) (k : A → Outcome B) : (Thrown e ≫= k) = Thrown e.
Proof. reflexivity. Qed.

Ltac unfold_outcome :=
  unfold mbind, mret, Outcome_bind, Outcome_ret in *; cbn [bindO ofOption] in *.

(* steps 3 to 6 always produce an instant *)
Lemma accumulation_returns (h : gset string) (startCol : DateTime) (days : Z) (hours : Q) :
  ∃ r,
    (normalized ← ofOption (normalizeBackwardToWorkingSlot startCol h);
     afterDays ← (if 0 <? days then ofOption (addBusinessDays normalized days h)
                  else Returned normalized);
     afterHours ← (if Qltb 0 hours then ofOption (addBusinessHours afterDays hours h)
                   else Returned afterDays);
     mret (setZone UTC_ZONE afterHours)) = Returned r.
Proof.
  destruct (Normalizer.normalize_by_rule startCol h) as (_ & n & _ & _ & ->). unfold_outcome.
  destruct (DayAccumulator.addBusinessDays_returns n days h) as (d & Hd).
  assert (Hdays : ∃ d', (if 0 <? days then ofOption (addBusinessDays n days h)
                         else Returned n) = Returned d').
  { destruct (0 <? days); [rewrite Hd|]; eauto. }
  destruct Hdays as (d' & ->). unfold_outcome.
  destruct (HourAccumulator.addBusinessHours_returns d' hours h) as (r & Hr).
  destruct (Qltb 0 hours); [rewrite Hr|]; unfold_outcome; eauto.
Qed.

Lemma computeBusinessDate_fetch_failure (env : Env) (startUtcIso : option string)
    (days : Z) (hours : Q) (w w' : World) (e : Exn) :
  fetchHolidays (dateNow env) (transport env) w = (Thrown e, w') →
  computeBusinessDate env startUtcIso days hours w = (Thrown e, w').
Proof. intros H. unfold computeBusinessDate. now rewrite H. Qed.

(* once the start is resolved nothing is thrown any more *)
Lemma accumulation_never_throws (h : gset string) (startCol : DateTime) (days : Z) (hours : Q)
    (e : Exn) :
  (normalized ← ofOption (normalizeBackwardToWorkingSlot startCol h);
   afterDays ← (if 0 <? days then ofOption (addBusinessDays normalized days h)
                else Returned normalized);
   afterHours ← (if Qltb 0 hours then ofOption (addBusinessHours afterDays hours h)
                 else Returned afterDays);
   mret (setZone UTC_ZONE afterHours)) ≠ Thrown e.
Proof.
  destruct (normalizeBackwardToWorkingSlot startCol h) as [n|]; unfold_outcome; [|discriminate].
  destruct (0 <? days); [destruct (addBusinessDays n days h) as [d|]|];
    unfold_outcome; try discriminate;
    (destruct (Qltb 0 hours); [destruct (addBusinessHours _ hours h) as [r|]|]);
    unfold_outcome; discriminate.
Qed.

(** C6, as amended: once the holiday set has been obtained, and for
    [startUtc] absent or a non-empty string, [computeBusinessDate] raises
    [InvalidDate] if and only if [startUtc] is given and does not parse as
    an instant.  When [startUtc] is absent it never raises [InvalidDate] and
    behaves exactly as for a start that parses to the current time.  (What
    the empty string does is left out.) *)
Theorem computeBusinessDate_InvalidDate_iff (env : Env) (startUtcIso : option string)
    (days : Z) (hours : Q) (w w' : World) (holidays : gset string) :
  fetchHolidays (dateNow env) (transport env) w = (Returned holidays, w') →
  startUtcIso ≠ Some ""%string →
  (fst (computeBusinessDate env startUtcIso days hours w) = Thrown InvalidDate
   ↔ ∃ iso, startUtcIso = Some iso ∧ fromISO env iso = None)
  ∧ (startUtcIso = None →
     fst (computeBusinessDate env startUtcIso days hours w) ≠ Thrown InvalidDate
     ∧ computeBusinessDate env startUtcIso days hours w
       = computeBusinessDate
           (mkEnv (dateNow env) (transport env)
              (fun _ => Some (mkDateTime (dateTimeNow env) UTC_ZONE)) (dateTimeNow env))
           (Some "now"%string) days hours w).
Proof.
  intros Hfetch Hnonempty. unfold computeBusinessDate.
  cbn [dateNow transport fromISO dateTimeNow].
  rewrite Hfetch. cbn [fst]. rewrite mbind_Returned.
  split.
  - destruct startUtcIso as [iso|].
    + assert (Et : truthy (Some iso) = Some iso).
      { destruct iso; [congruence|reflexivity]. }
      rewrite Et.
      destruct (fromISO env iso) as [parsed|] eqn:Ep;
        rewrite ?mbind_Returned, ?mbind_Thrown.
      * split.
        -- intros H. now apply accumulation_never_throws in H.
        -- intros (iso' & [= <-] & Hnone). congruence.
      * split; [|reflexivity]. intros _. exists iso. auto.
    + cbn [truthy]. rewrite mbind_Returned. split.
      * intros H. now apply accumulation_never_throws in H.
      * intros (iso & [=] & _).
  - intros ->. cbn [truthy]. rewrite mbind_Returned. split; [|reflexivity].
    apply accumulation_never_throws.
Qed.

Lemma computeBusinessDate_InvalidDate_iff_witness :
  fst (computeBusinessDate (mkEnv 0 (FetchResponse true 200 (Some (JArray []))) readInstant 0)
         (Some "2025-13-45T99:00:00Z"%string) 1 0 (mkWorld None 0))
  = Thrown InvalidDate.
Proof.
  apply (proj2 (proj1 (computeBusinessDate_InvalidDate_iff
                         (mkEnv 0 (FetchResponse true 200 (Some (JArray []))) readInstant 0)
                         (Some "2025-13-45T99:00:00Z"%string) 1 0 (mkWorld None 0)
                         (mkWorld (Some (mkHolidayCache 0 ∅)) 1) ∅ eq_refl
                         ltac:(discriminate)))).
  exists "2025-13-45T99:00:00Z"%string. split; reflexivity.
Defined.

(** C6, as stated, fails in two ways.  A start instant that is given and
    does not parse raises the failure of the holiday source, not
    [InvalidDate], when the holidays cannot be fetched (they are fetched
    first).  And the empty string, which does not parse, is taken as absent:
    the current time is used and a result is returned. *)
Lemma computeBusinessDate_InvalidDate_not_raised :
  readInstant "not-a-date" = None
  ∧ fst (computeBusinessDate (mkEnv 0 (FetchResponse false 503 None) readInstant 0)
           (Some "not-a-date"%string) 1 0 (mkWorld None 0))
    = Thrown (FailedToFetchHolidays 503)
  ∧ readInstant "" = None
  ∧ fst (computeBusinessDate
           (mkEnv 0 (FetchResponse true 200 (Some (JArray []))) readInstant
              (toMillis (bogota (2025, 10, 6) 9 0 0 0)))
           (Some ""%string) 1 0 (mkWorld None 0))
    = Returned (utc (2025, 10, 7) 14 0 0 0).
Proof. repeat split; vm_compute; reflexivity. Qed.

End Orchestrator.

(** ** End to end: Friday 17:00 plus one business hour *)

Module FridayClose.
Import Luxon Business Reference Samples IsoReader.
Import LoopFacts WorkingDayFacts DateTimeFacts SearchFacts ClockFacts Orchestrator.

Lemma isWorkingDay_weekend (dt : DateTime) (h : gset string) :
  isWeekend dt = true → isWorkingDay dt h = false.
Proof. intros H. unfold isWorkingDay. now rewrite H. Qed.

(* the search stops at the first working day *)
Lemma skipToWorkingDay_found (dt : DateTime) (h : gset string) (k : nat) :
  (∀ j, (j < k)%nat → isWorkingDay (plusDays (Z.of_nat j) dt) h = false) →
  isWorkingDay (plusDays (Z.of_nat k) dt) h = true →
  skipToWorkingDay dt h = Some (plusDays (Z.of_nat k) dt).
Proof.
  intros Hbefore Hk.
  destruct (skipToWorkingDay_spec dt h) as (k' & Hrun & Hw & Hb).
  destruct (lt_eq_lt_dec k k') as [[Hlt | ->] | Hgt]; [|exact Hrun|].
  - specialize (Hb k Hlt). congruence.
  - specialize (Hbefore k' Hgt). congruence.
Qed.

(* the branches of one pass, by the test that selects them *)
Lemma body_after_close (h : gset string) (dt : DateTime) (remaining : Q) :
  isWorkingDay dt h = true → (secondOfDay dt <? 28800) = false →
  (43200 <=? secondOfDay dt) && (secondOfDay dt <? 46800) = false →
  (61200 <=? secondOfDay dt) = true →
  addBusinessHours_body h (dt, remaining)
  = match skipToWorkingDay (plusDays 1 dt) h with
    | Some dt' => Some (setHour WORK_START_HOUR dt', remaining)
    | None => None
    end.
Proof.
  intros Hw H1 H2 H3. unfold addBusinessHours_body. rewrite Hw. cbn [negb].
  now rewrite before_open_test, in_lunch_test, after_close_test, H1, H2, H3.
Qed.

Lemma body_in_segment (h : gset string) (dt : DateTime) (remaining : Q) :
  isWorkingDay dt h = true → (secondOfDay dt <? 28800) = false →
  (43200 <=? secondOfDay dt) && (secondOfDay dt <? 46800) = false →
  (61200 <=? secondOfDay dt) = false →
  addBusinessHours_body h (dt, remaining)
  = let segmentEnd := if (28800 <=? secondOfDay dt) && (secondOfDay dt <? 43200)
                      then LUNCH_START_HOUR else WORK_END_HOUR in
    let take := Math_min (inject_Z segmentEnd - hourOfDay dt) remaining in
    Some (plusMinutes (Math_round (take * 60)) dt, Qred (remaining - take)).
Proof.
  intros Hw H1 H2 H3. unfold addBusinessHours_body. rewrite Hw. cbn [negb].
  now rewrite before_open_test, in_lunch_test, after_close_test, morning_test, H1, H2, H3.
Qed.

Section Holidays.
Variable holidays : gset string.
Hypothesis friday_open : "2025-10-03"%string ∉ holidays.
Hypothesis monday_open : "2025-10-06"%string ∉ holidays.

Lemma friday_is_working : isWorkingDay friday17 holidays = true.
Proof. apply isWorkingDay_true. split; [reflexivity|exact friday_open]. Qed.

Lemma monday_is_working : isWorkingDay monday08 holidays = true.
Proof. apply isWorkingDay_true. split; [reflexivity|exact monday_open]. Qed.

Lemma normalize_friday_close :
  normalizeBackwardToWorkingSlot friday17 holidays = Some friday17.
Proof.
  change friday17 with (atClock 20364 WORK_END_HOUR COLOMBIA_ZONE).
  apply Normalizer.normalize_anchor_fixed; [|now right].
  pose proof friday_is_working as H. now rewrite isWorkingDay_dayNumber in H.
Qed.

Lemma skip_weekend :
  skipToWorkingDay (plusDays 1 friday17) holidays
  = Some (plusDays 2 (plusDays 1 friday17)).
Proof.
  apply (skipToWorkingDay_found _ _ 2).
  - intros [|[|j]] Hj; [| |lia]; now apply isWorkingDay_weekend.
  - rewrite <- monday_is_working. now apply isWorkingDay_same_day.
Qed.

Lemma addBusinessHours_friday_close :
  addBusinessHours friday17 1 holidays = Some monday09.
Proof.
  unfold addBusinessHours, addBusinessHours_fuel.
  change (Qle_bool 1 0) with false. cbv iota.
  assert (Hrun : while_loop 3 (fun st : DateTime * Q => Qltb 0 (snd st))
                   (addBusinessHours_body holidays) (friday17, 1%Q)
                 = Some (monday09, 0%Q)).
  { rewrite while_loop_step. cbn [snd]. change (Qltb 0 1) with true. cbv iota.
    rewrite body_after_close by (try apply friday_is_working; reflexivity).
    rewrite skip_weekend.
    change (setHour WORK_START_HOUR (plusDays 2 (plusDays 1 friday17))) with monday08.
    rewrite while_loop_step. cbn [snd]. change (Qltb 0 1) with true. cbv iota.
    rewrite body_in_segment by (try apply monday_is_working; reflexivity).
    reflexivity. }
  rewrite (while_loop_mono _ _ 3 (hoursFuel 1) _ _ Hrun); [reflexivity|].
  apply Nat.leb_le. vm_compute. reflexivity.
Qed.
End Holidays.

(** C5: for every holiday set that contains none of the dates 2025-10-03 to
    2025-10-06, [computeBusinessDate] with that holiday set, the start
    2025-10-03T22:00:00Z (Friday 17:00 in Bogota), [days = 0] and [hours = 1]
    returns the instant 2025-10-06T14:00:00Z (Monday 09:00 in Bogota), which
    the response serializes as that string. *)
Theorem friday_close_plus_one_hour (env : Env) (w w' : World) (holidays : gset string)
    (parsed : DateTime) :
  fetchHolidays (dateNow env) (transport env) w = (Returned holidays, w') →
  fromISO env "2025-10-03T22:00:00Z" = Some parsed →
  toMillis parsed = toMillis (utc (2025, 10, 3) 22 0 0 0) →
  "2025-10-03"%string ∉ holidays → "2025-10-04"%string ∉ holidays →
  "2025-10-05"%string ∉ holidays → "2025-10-06"%string ∉ holidays →
  computeBusinessDate env (Some "2025-10-03T22:00:00Z"%string) 0 1 w
    = (Returned (utc (2025, 10, 6) 14 0 0 0), w')
  ∧ toISO true (utc (2025, 10, 6) 14 0 0 0) = "2025-10-06T14:00:00Z"%string.
Proof.
  intros Hfetch Hparse Hms H3 _ _ H6. split; [|vm_compute; reflexivity].
  unfold computeBusinessDate. rewrite Hfetch. cbn [truthy]. rewrite Hparse.
  rewrite !mbind_Returned.
  replace (setZone COLOMBIA_ZONE parsed) with friday17
    by (unfold setZone; rewrite Hms; reflexivity).
  rewrite (normalize_friday_close holidays H3). cbn [ofOption].
  rewrite mbind_Returned. change (0 <? 0) with false. cbv iota.
  rewrite mbind_Returned. change (Qltb 0 1) with true. cbv iota.
  rewrite (addBusinessHours_friday_close holidays H3 H6). cbn [ofOption].
  now rewrite mbind_Returned.
Qed.

Lemma friday_close_plus_one_hour_witness :
  computeBusinessDate
    (mkEnv 1000 FetchRejected readInstant 0)
    (Some "2025-10-03T22:00:00Z"%string) 0 1
    (mkWorld (Some (mkHolidayCache 0 {[ "2025-10-13"%string ]})) 0)
    = (Returned (utc (2025, 10, 6) 14 0 0 0),
       mkWorld (Some (mkHolidayCache 0 {[ "2025-10-13"%string ]})) 0)
  ∧ toISO true (utc (2025, 10, 6) 14 0 0 0) = "2025-10-06T14:00:00Z"%string.
Proof.
  apply (friday_close_plus_one_hour
           (mkEnv 1000 FetchRejected readInstant 0)
           (mkWorld (Some (mkHolidayCache 0 {[ "2025-10-13"%string ]})) 0)
           (mkWorld (Some (mkHolidayCache 0 {[ "2025-10-13"%string ]})) 0)
           {[ "2025-10-13"%string ]}
           (utc (2025, 10, 3) 22 0 0 0));
    try reflexivity;
    refine (bool_decide_eq_false_1 _ _); vm_compute; reflexivity.
Defined.

End FridayClose.

(** ** The response of GET /api/business-hours *)

Module Response.
Import Luxon Business Api Samples IsoReader.

Example response_without_fraction :
  fst (businessHoursDate (mkEnv 0 (FetchResponse true 200 (Some (JArray []))) readInstant 0)
         (Some "2025-10-06T15:00:00Z"%string) 0 1 (mkWorld None 0))
  = Returned "2025-10-06T16:00:00Z"%string
  ∧ secondPrecisionUtc "2025-10-06T16:00:00Z" = true.
Proof. split; vm_compute; reflexivity. Qed.

Example response_snapped_to_close :
  fst (businessHoursDate (mkEnv 0 (FetchResponse true 200 (Some (JArray []))) readInstant 0)
         (Some "2025-10-06T23:10:20.500Z"%string) 1 0 (mkWorld None 0))
  = Returned "2025-10-07T22:00:00Z"%string.
Proof. vm_compute. reflexivity. Qed.

(** C8 fails on the code.  The start 2025-10-06T15:00:00.500Z (Monday
    10:00:00.500 in Bogota) lies inside a working segment, so the normalizer
    returns it as it is, and one business hour later the instant still
    carries its 500 milliseconds.  [toISO] with [suppressMilliseconds] leaves
    milliseconds out only when they are 0: the response is
    2025-10-06T16:00:00.500Z, which is not of second precision. *)
Theorem businessHoursDate_keeps_fraction :
  fst (businessHoursDate (mkEnv 0 (FetchResponse true 200 (Some (JArray []))) readInstant 0)
         (Some "2025-10-06T15:00:00.500Z"%string) 0 1 (mkWorld None 0))
  = Returned "2025-10-06T16:00:00.500Z"%string
  ∧ secondPrecisionUtc "2025-10-06T16:00:00.500Z" = false.
Proof. split; vm_compute; reflexivity. Qed.

End Response.

(** ** The cases of scripts/test-examples.ts *)

Module TestExamples.
Import Luxon Business Api IsoReader TestCases.

Example ejemplo_1 : get "2025-10-03T22:00:00Z" 0 1 = Returned "2025-10-06T14:00:00Z"%string.
Proof. vm_compute. reflexivity. Qed.
Example ejemplo_2 : get "2025-10-04T19:00:00Z" 0 1 = Returned "2025-10-06T14:00:00Z"%string.
Proof. vm_compute. reflexivity. Qed.
Example ejemplo_3 : get "2025-10-07T20:00:00Z" 1 4 = Returned "2025-10-09T15:00:00Z"%string.
Proof. vm_compute. reflexivity. Qed.
Example ejemplo_4 : get "2025-10-05T23:00:00Z" 1 0 = Returned "2025-10-06T22:00:00Z"%string.
Proof. vm_compute. reflexivity. Qed.
Example ejemplo_5 : get "2025-10-06T13:00:00Z" 0 8 = Returned "2025-10-06T22:00:00Z"%string.
Proof. vm_compute. reflexivity. Qed.
Example ejemplo_6 : get "2025-10-06T13:00:00Z" 1 0 = Returned "2025-10-07T13:00:00Z"%string.
Proof. vm_compute. reflexivity. Qed.
Example ejemplo_7 : get "2025-10-06T17:30:00Z" 1 0 = Returned "2025-10-07T17:00:00Z"%string.
Proof. vm_compute. reflexivity. Qed.
Example ejemplo_8 : get "2025-10-06T16:30:00Z" 0 3 = Returned "2025-10-06T20:30:00Z"%string.
Proof. vm_compute. reflexivity. Qed.
Example ejemplo_9 : get "2025-04-10T15:00:00Z" 5 4 = Returned "2025-04-21T20:00:00Z"%string.
Proof. vm_compute. reflexivity. Qed.

End TestExamples.

(** ** The holiday document: which dates [fetchHolidays] reads out of it *)

Module HolidayDocument.
Import Luxon Business Schedule Samples CalendarFacts WorkingDayFacts.

Lemma scanItems_elem (items : list JSON) (out : gset string) (d : string) :
  d ∈ scanItems items out ↔ d ∈ out ∨ ∃ item, item ∈ items ∧ itemDate item = Some d.
Proof.
  unfold scanItems. revert out. induction items as [|x items IH]; intros out; cbn [fold_left].
  - split; [auto|]. intros [H|(item & Hin & _)]; [exact H|]. now apply elem_of_nil in Hin.
  - rewrite IH. split.
    + intros [H|(item & Hin & Hd)].
      * destruct (itemDate x) as [d'|] eqn:Ex.
        -- apply elem_of_union in H as [H|H]; [|now left].
           apply elem_of_singleton in H as ->. right. exists x. split; [left|exact Ex].
        -- now left.
      * right. exists item. split; [now right|exact Hd].
    + intros [H|(item & Hin & Hd)].
      * left. destruct (itemDate x); [apply elem_of_union; now right|exact H].
      * apply elem_of_cons in Hin as [->|Hin].
        -- left. rewrite Hd. apply elem_of_union. left. now apply elem_of_singleton.
        -- right. eauto.
Qed.

(** X1: the dates [fetchHolidays] reads out of a decoded body.  From an
    array: the date of each of its items.  From an object: the dates of the
    items of every array that is the value of one of its properties, and
    nothing nested deeper.  From any other value: nothing.  The date of an
    item is given by [itemDate]: of a string, its text before the first [T];
    of an object, the same of its string property [date], else of its
    string property [fecha]. *)
Theorem parseHolidays_elem (json : JSON) (d : string) :
  d ∈ parseHolidays json
  ↔ (∃ items item, json = JArray items ∧ item ∈ items ∧ itemDate item = Some d)
    ∨ (∃ obj k items item,
         json = JObject obj ∧ obj !! k = Some (JArray items)
         ∧ item ∈ items ∧ itemDate item = Some d).
Proof.
  destruct json as [| b | q | s | items | obj]; cbn [parseHolidays];
    try (split; [intros H; now apply not_elem_of_empty in H
                |intros [(? & ? & [=] & _)|(? & ? & ? & ? & [=] & _)]]).
  - rewrite scanItems_elem. split.
    + intros [H|(item & Hin & Hd)]; [now apply not_elem_of_empty in H|].
      left. exists items, item. auto.
    + intros [(items' & item & [= <-] & Hin & Hd)|(? & ? & ? & ? & [=] & _)].
      right. eauto.
  - transitivity (∃ k items item, obj !! k = Some (JArray items)
                                  ∧ item ∈ items ∧ itemDate item = Some d).
    2:{ split.
        - intros (k & items & item & H). right. exists obj, k, items, item. tauto.
        - intros [(? & ? & [=] & _)|(obj' & k & items & item & [= <-] & H)]. eauto. }
    revert d.
    apply (map_fold_weak_ind
             (fun (r : gset string) (m : gmap string JSON) =>
                ∀ d, d ∈ r ↔ ∃ k items item, m !! k = Some (JArray items)
                                             ∧ item ∈ items ∧ itemDate item = Some d)).
    + intros d. split; [intros H; now apply not_elem_of_empty in H|].
      intros (k & items & item & Hk & _). now rewrite lookup_empty in Hk.
    + intros i x m r Hi IH d.
      assert (Hrest : (∃ k items item, m !! k = Some (JArray items)
                                       ∧ item ∈ items ∧ itemDate item = Some d)
                      → ∃ k items item, <[i:=x]> m !! k = Some (JArray items)
                                        ∧ item ∈ items ∧ itemDate item = Some d).
      { intros (k & items & item & Hk & H). exists k, items, item. split; [|exact H].
        rewrite lookup_insert_ne; [exact Hk|]. intros ->. congruence. }
      assert (Hsplit : (∃ k items item, <[i:=x]> m !! k = Some (JArray items)
                                        ∧ item ∈ items ∧ itemDate item = Some d)
                       → (∃ items item, x = JArray items ∧ item ∈ items
                                        ∧ itemDate item = Some d)
                         ∨ ∃ k items item, m !! k = Some (JArray items)
                                           ∧ item ∈ items ∧ itemDate item = Some d).
      { intros (k & items & item & Hk & H).
        apply lookup_insert_Some in Hk as [[<- ->]|[Hne Hk]]; [left|right]; eauto. }
      destruct x as [| b | q | s | items | obj'];
        try (rewrite IH; split; [exact Hrest|];
             intros H; apply Hsplit in H as [(? & ? & [=] & _)|H]; exact H).
      rewrite scanItems_elem, IH. split.
      * intros [H|(item & Hin & Hd)]; [now apply Hrest|].
        exists i, items, item. rewrite lookup_insert_eq. auto.
      * intros H. apply Hsplit in H as [(items' & item & [= <-] & H)|H]; [right|left; exact H].
        exists item. exact H.
Qed.

Lemma occurs_append (c : ascii) (a b : string) :
  occurs c (a +:+ b) = occurs c a || occurs c b.
Proof.
  induction a as [|x a IH]; [now rewrite append_nil_l|].
  rewrite append_cons. cbn [occurs]. now rewrite IH, orb_assoc.
Qed.

Lemma digit_cases (z : Z) (P : ascii → Prop) :
  0 <= z < 10 →
  P "0"%char → P "1"%char → P "2"%char → P "3"%char → P "4"%char →
  P "5"%char → P "6"%char → P "7"%char → P "8"%char → P "9"%char →
  P (digit z).
Proof.
  intros Hz.
  assert (H : z = 0 ∨ z = 1 ∨ z = 2 ∨ z = 3 ∨ z = 4 ∨ z = 5 ∨ z = 6 ∨ z = 7 ∨ z = 8 ∨ z = 9)
    by lia.
  repeat destruct H as [->|H]; try subst z; intros; assumption.
Qed.

Lemma occurs_T_dec (k : nat) (n : Z) : occurs "T" (dec k n) = false.
Proof.
  revert n. induction k as [|k IH]; intros n; [reflexivity|].
  cbn [dec]. rewrite occurs_append, IH. cbn [occurs orb].
  apply (digit_cases (n mod 10) (fun a => Ascii.eqb a "T" || false = false));
    [lia|reflexivity..].
Qed.

Lemma occurs_T_toYMD (dt : DateTime) : occurs "T" (toYMD dt) = false.
Proof.
  unfold toYMD, toISODate, isoDate.
  destruct (civil_from_days (dayNumber dt)) as [[y m] d].
  unfold isoYear, padStart.
  destruct ((0 <=? y) && (y <=? 9999)); [|destruct (0 <=? y)];
    rewrite !occurs_append, !occurs_T_dec; reflexivity.
Qed.

Lemma splitT0_append (a rest : string) :
  occurs "T" a = false → splitT0 (a +:+ String "T" rest) = a.
Proof.
  induction a as [|x a IH]; intros H.
  - now rewrite append_nil_l.
  - rewrite append_cons. cbn [occurs] in H. apply orb_false_iff in H as [Hx Ha].
    cbn [splitT0]. now rewrite Hx, IH.
Qed.

Lemma splitT0_plain (a : string) : occurs "T" a = false → splitT0 a = a.
Proof.
  induction a as [|x a IH]; intros H; [reflexivity|].
  cbn [occurs] in H. apply orb_false_iff in H as [Hx Ha].
  cbn [splitT0]. now rewrite Hx, IH.
Qed.

(** X2: a day listed in the holiday document blocks that day whether it is
    written as the bare date [YYYY-MM-DD] or as a timestamp, the date
    followed by [T] and anything: as a string item, as the [date] property
    of an object item, or as its [fecha] property when it has no [date]. *)
Theorem listed_timestamp_blocks_day
    (dt : DateTime) (rest text : string) (items : list JSON) :
  text = toYMD dt ∨ text = toYMD dt +:+ String "T" rest →
  JString text ∈ items
  ∨ (∃ props, JObject props ∈ items ∧ props !! "date"%string = Some (JString text))
  ∨ (∃ props, JObject props ∈ items ∧ props !! "date"%string = None
              ∧ props !! "fecha"%string = Some (JString text)) →
  isWorkingDay dt (parseHolidays (JArray items)) = false.
Proof.
  intros Htext Hlisted.
  assert (Hsplit : splitT0 text = toYMD dt).
  { destruct Htext as [-> | ->].
    - apply splitT0_plain, occurs_T_toYMD.
    - apply splitT0_append, occurs_T_toYMD. }
  apply not_true_is_false. rewrite isWorkingDay_true. intros [_ Hnot]. apply Hnot.
  cbn [parseHolidays]. apply scanItems_elem. right.
  destruct Hlisted as [Hin|[(props & Hin & Hd)|(props & Hin & Hd & Hf)]].
  - exists (JString text). split; [exact Hin|]. cbn [itemDate]. now rewrite Hsplit.
  - exists (JObject props). split; [exact Hin|]. cbn [itemDate]. now rewrite Hd, Hsplit.
  - exists (JObject props). split; [exact Hin|]. cbn [itemDate]. now rewrite Hd, Hf, Hsplit.
Qed.

Lemma listed_timestamp_blocks_day_witness :
  isWorkingDay (bogota (2025, 4, 17) 9 0 0 0)
    (parseHolidays (JArray [JString "2025-04-17T00:00:00.000Z"])) = false.
Proof.
  apply (listed_timestamp_blocks_day (bogota (2025, 4, 17) 9 0 0 0) "00:00:00.000Z"
           "2025-04-17T00:00:00.000Z").
  - right. reflexivity.
  - left. apply list_elem_of_singleton. reflexivity.
Defined.

(** X3: a holiday blocks its own calendar date and no other.  Adding the
    date string of one day to a holiday set leaves the answer of
    [isWorkingDay] as it was for every instant of any other day, and makes
    it false for every instant of that day. *)
Theorem holiday_blocks_its_date_only (d0 dt : DateTime) (holidays : gset string) :
  isWorkingDay dt ({[ toYMD d0 ]} ∪ holidays)
  = isWorkingDay dt holidays && negb (dayNumber dt =? dayNumber d0).
Proof.
  unfold isWorkingDay. destruct (isWeekend dt); [reflexivity|].
  destruct (Z.eqb_spec (dayNumber dt) (dayNumber d0)) as [Heq|Hne].
  - assert (Hs : toYMD dt = toYMD d0).
    { change (dateString (dayNumber dt) = dateString (dayNumber d0)). now rewrite Heq. }
    rewrite andb_false_r, Hs. apply negb_false_iff, bool_decide_eq_true_2.
    apply elem_of_union. left. now apply elem_of_singleton.
  - rewrite andb_true_r. f_equal. apply bool_decide_ext.
    rewrite elem_of_union, elem_of_singleton. split; [|auto].
    intros [H|H]; [|exact H]. apply toYMD_inj in H. contradiction.
Qed.

End HolidayDocument.

(** ** The holiday cache across calls *)

Module HolidayCacheFacts.
Import Luxon Business.

(** X4: the cache entry written by a successful fetch serves every later
    call made less than one hour after it: such a call returns the same set
    and sends no request, whatever the holiday source would answer.  A call
    made one hour or more after it sends a request again. *)
Theorem fetchHolidays_reuses_entry_within_ttl
    (now1 now2 status : Z) (json : JSON) (net2 : FetchResult) (w : World) :
  cacheHit now1 w = None →
  let w1 := snd (fetchHolidays now1 (FetchResponse true status (Some json)) w) in
  fetches w1 = S (fetches w)
  ∧ (now2 - now1 < HOLIDAY_CACHE_TTL_MS →
     fetchHolidays now2 net2 w1 = (Returned (parseHolidays json), w1))
  ∧ (HOLIDAY_CACHE_TTL_MS <= now2 - now1 →
     fetches (snd (fetchHolidays now2 net2 w1)) = S (S (fetches w))).
Proof.
  intros Hmiss. cbv zeta.
  assert (Hw1 : snd (fetchHolidays now1 (FetchResponse true status (Some json)) w)
                = mkWorld (Some (mkHolidayCache now1 (parseHolidays json))) (S (fetches w))).
  { unfold fetchHolidays. now rewrite Hmiss. }
  rewrite Hw1. split; [reflexivity|]. split; intros Hage.
  - unfold fetchHolidays, cacheHit, cacheFresh. cbn [holidayCache ts holidays].
    now replace (now2 - now1 <? HOLIDAY_CACHE_TTL_MS) with true by (symmetry; apply Z.ltb_lt; lia).
  - unfold fetchHolidays, cacheHit, cacheFresh. cbn [holidayCache ts holidays].
    replace (now2 - now1 <? HOLIDAY_CACHE_TTL_MS) with false by (symmetry; apply Z.ltb_ge; lia).
    destruct net2 as [|[|] status2 [json2|]]; reflexivity.
Qed.

Lemma fetchHolidays_reuses_entry_within_ttl_witness :
  fetchHolidays 3599999 FetchRejected
    (snd (fetchHolidays 0 (FetchResponse true 200 (Some (JArray [JString "2025-10-13"])))
            (mkWorld None 0)))
  = (Returned (parseHolidays (JArray [JString "2025-10-13"])),
     snd (fetchHolidays 0 (FetchResponse true 200 (Some (JArray [JString "2025-10-13"])))
            (mkWorld None 0))).
Proof.
  apply (fetchHolidays_reuses_entry_within_ttl 0 3599999 200
           (JArray [JString "2025-10-13"]) FetchRejected (mkWorld None 0) eq_refl).
  reflexivity.
Defined.

(** X5: a failed fetch is not remembered.  When a call of [fetchHolidays]
    that found no valid cache entry raises, a later call sends a request of
    its own and has the outcome it would have had if the failed call had
    not been made. *)
Theorem fetchHolidays_failure_not_cached
    (now1 now2 : Z) (net1 net2 : FetchResult) (w : World) (e : Exn) :
  cacheHit now1 w = None →
  fst (fetchHolidays now1 net1 w) = Thrown e →
  now1 <= now2 →
  let w1 := snd (fetchHolidays now1 net1 w) in
  fst (fetchHolidays now2 net2 w1) = fst (fetchHolidays now2 net2 w)
  ∧ fetches (snd (fetchHolidays now2 net2 w1)) = S (S (fetches w)).
Proof.
  intros Hmiss Hthrown Hlater.
  assert (Hw1 : snd (fetchHolidays now1 net1 w) = mkWorld (holidayCache w) (S (fetches w))).
  { revert Hthrown. unfold fetchHolidays. rewrite Hmiss.
    destruct net1 as [|[|] status1 [json1|]]; cbn; intros H; (reflexivity || discriminate). }
  cbv zeta. rewrite Hw1.
  assert (Hmiss2 : cacheHit now2 w = None).
  { rewrite HolidayProvider.cacheHit_None in Hmiss |- *.
    intros c Hc. specialize (Hmiss c Hc). lia. }
  unfold fetchHolidays, cacheHit in *. cbn [holidayCache fetches].
  destruct (holidayCache w) as [c|]; [destruct (cacheFresh now2 c); [discriminate|]|];
    destruct net2 as [|[|] status2 [json2|]]; split; reflexivity.
Qed.

Lemma fetchHolidays_failure_not_cached_witness :
  fst (fetchHolidays 10 (FetchResponse true 200 (Some (JArray [])))
         (snd (fetchHolidays 0 (FetchResponse false 500 None) (mkWorld None 0))))
  = fst (fetchHolidays 10 (FetchResponse true 200 (Some (JArray []))) (mkWorld None 0))
  ∧ fetches (snd (fetchHolidays 10 (FetchResponse true 200 (Some (JArray [])))
                    (snd (fetchHolidays 0 (FetchResponse false 500 None) (mkWorld None 0)))))
    = 2%nat.
Proof.
  apply (fetchHolidays_failure_not_cached 0 10 (FetchResponse false 500 None)
           (FetchResponse true 200 (Some (JArray []))) (mkWorld None 0)
           (FailedToFetchHolidays 500) eq_refl eq_refl).
  lia.
Defined.

End HolidayCacheFacts.

(** ** The normalizer picks the latest working instant *)

Module NormalizerFacts.
Import Luxon Business Reference Schedule Samples.
Import WorkingDayFacts DateTimeFacts Normalizer.

Lemma toMillis_split (dt : DateTime) :
  toMillis dt = dayNumber dt * 86400000 + msOfDay dt - offset dt * 60000.
Proof. unfold_datetime. lia. Qed.

Lemma toMillis_atClock (d hh off : Z) :
  toMillis (atClock d hh off) = d * 86400000 + hh * 3600000 - off * 60000.
Proof. reflexivity. Qed.

Ltac unfold_clock :=
  unfold clock, WORK_START_HOUR, LUNCH_START_HOUR, LUNCH_END_HOUR, WORK_END_HOUR in *.

Lemma workingInstant_atClock (d hh off : Z) (h : gset string) :
  workingDayNumber d h = true → hh = LUNCH_START_HOUR ∨ hh = WORK_END_HOUR →
  workingInstant (atClock d hh off) h.
Proof.
  intros Hw Hhh. unfold workingInstant.
  rewrite isWorkingDay_dayNumber, dayNumber_atClock, msOfDay_atClock
    by (destruct Hhh as [-> | ->]; unfold_clock; lia).
  split; [exact Hw|]. destruct Hhh as [-> | ->]; unfold_clock; lia.
Qed.

Lemma normalize_lands_on_working_instant (dt r : DateTime) (h : gset string) :
  normalizeBackwardToWorkingSlot dt h = Some r → workingInstant r h ∧ offset r = offset dt.
Proof.
  intros Hr. destruct (normalize_by_rule dt h) as (rule & r' & Hg & Ho & Hn).
  assert (r' = r) as -> by congruence. clear Hr Hn.
  destruct rule; cbn [guard outcome] in Hg, Ho.
  - destruct Ho as (p & (_ & Hp & _) & ->). split; [|reflexivity].
    apply workingInstant_atClock; auto.
  - subst r. split; [|reflexivity]. apply workingInstant_atClock; [|auto].
    rewrite <- isWorkingDay_dayNumber. tauto.
  - subst r. split; [|reflexivity]. apply workingInstant_atClock; [|auto].
    rewrite <- isWorkingDay_dayNumber. tauto.
  - destruct Ho as (p & (_ & Hp & _) & ->). split; [|reflexivity].
    apply workingInstant_atClock; auto.
  - subst r. split; [|reflexivity]. unfold workingInstant. split; [tauto|].
    destruct Hg as [_ Hg]. unfold_clock. lia.
Qed.

(** X6: [normalizeBackwardToWorkingSlot] returns the latest working instant
    that is not after its input.  The result keeps the zone, stands on a
    working day between 08:00 and 12:00 or between 13:00 and 17:00 (ends
    included), is not after the input, and no working instant of that kind
    lies after it and at or before the input. *)
Theorem normalize_returns_latest_working_instant (dt : DateTime) (holidays : gset string) :
  ∃ r, normalizeBackwardToWorkingSlot dt holidays = Some r
       ∧ offset r = offset dt
       ∧ workingInstant r holidays
       ∧ toMillis r <= toMillis dt
       ∧ ∀ v, offset v = offset dt → workingInstant v holidays →
              toMillis v <= toMillis dt → toMillis v <= toMillis r.
Proof.
  destruct (normalize_by_rule dt holidays) as (rule & r & Hg & Ho & Hn).
  exists r. split; [exact Hn|].
  destruct (normalize_lands_on_working_instant dt r holidays Hn) as [Hwi Hoff].
  split; [exact Hoff|]. split; [exact Hwi|].
  pose proof (toMillis_split dt) as Hdt. pose proof (msOfDay_range dt) as Rdt.
  assert (Hback : ∀ p, previousWorkingDay holidays (dayNumber dt) p →
            r = atClock p WORK_END_HOUR (offset dt) →
            (isWorkingDay dt holidays = false ∨ msOfDay dt < clock WORK_START_HOUR) →
            toMillis r <= toMillis dt
            ∧ ∀ v, offset v = offset dt → workingInstant v holidays →
                   toMillis v <= toMillis dt → toMillis v <= toMillis r).
  { intros p (Hlt & Hp & Hgap) -> Hwhy. rewrite toMillis_atClock. unfold_clock.
    split; [lia|]. intros v Hv [Hvw Hvt] Hle.
    pose proof (toMillis_split v) as Hvs. pose proof (msOfDay_range v) as Rv.
    rewrite isWorkingDay_dayNumber in Hvw. unfold_clock.
    assert (Hday : dayNumber v <= dayNumber dt) by lia.
    assert (Hne : dayNumber v ≠ dayNumber dt).
    { intros Heq. destruct Hwhy as [Hnw|Hearly].
      - rewrite isWorkingDay_dayNumber, <- Heq in Hnw. congruence.
      - lia. }
    destruct (Z_lt_le_dec p (dayNumber v)) as [Hbetween|Hbefore].
    - specialize (Hgap (dayNumber v)). rewrite Hgap in Hvw by lia. discriminate.
    - lia. }
  destruct rule; cbn [guard outcome] in Hg, Ho.
  - destruct Ho as (p & Hp & Hr). apply (Hback p); auto.
  - subst r. rewrite toMillis_atClock. unfold_clock. split; [lia|].
    intros v Hv [_ Hvt] Hle.
    pose proof (toMillis_split v) as Hvs. pose proof (msOfDay_range v) as Rv.
    unfold_clock. lia.
  - subst r. rewrite toMillis_atClock. unfold_clock. split; [lia|].
    intros v Hv [_ Hvt] Hle.
    pose proof (toMillis_split v) as Hvs. pose proof (msOfDay_range v) as Rv.
    unfold_clock. lia.
  - destruct Ho as (p & Hp & Hr). apply (Hback p); tauto.
  - subst r. split; [lia|]. auto.
Qed.

(** X7: the instants the normalizer leaves unchanged are exactly the working
    instants: those on a working day whose time of day lies between 08:00
    and 12:00 or between 13:00 and 17:00, ends included. *)
Theorem normalize_fixed_points (dt : DateTime) (holidays : gset string) :
  normalizeBackwardToWorkingSlot dt holidays = Some dt ↔ workingInstant dt holidays.
Proof.
  split.
  - intros H. now apply normalize_lands_on_working_instant in H.
  - intros [Hw Ht]. destruct (normalize_by_rule dt holidays) as (rule & r & Hg & Ho & ->).
    f_equal. pose proof (msOfDay_range dt) as Rdt.
    destruct rule; cbn [guard outcome] in Hg, Ho.
    + congruence.
    + subst r. apply DateTime_eq; [reflexivity| |].
      * apply dayNumber_atClock. unfold_clock. lia.
      * rewrite msOfDay_atClock by (unfold_clock; lia). unfold_clock. lia.
    + subst r. apply DateTime_eq; [reflexivity| |].
      * apply dayNumber_atClock. unfold_clock. lia.
      * rewrite msOfDay_atClock by (unfold_clock; lia). unfold_clock. lia.
    + unfold_clock. lia.
    + exact Ho.
Qed.

End NormalizerFacts.

(** ** The day accumulator counts working days *)

Module DayCount.
Import Luxon Business Reference Schedule Samples.
Import LoopFacts WorkingDayFacts DateTimeFacts SearchFacts NormalizerFacts.

Lemma workingDaysBetween_step (h : gset string) (a b : Z) :
  a <= b →
  workingDaysBetween h a (b + 1)
  = (workingDaysBetween h a b + (if workingDayNumber (b + 1) h then 1 else 0))%nat.
Proof.
  intros Hab. unfold workingDaysBetween.
  replace (b + 1 - a) with ((b - a) + 1) by lia.
  rewrite seqZ_app by lia. rewrite filter_app, length_app. f_equal.
  replace (a + 1 + (b - a)) with (b + 1) by lia.
  change (seqZ (b + 1) 1) with [b + 1]. rewrite filter_cons, filter_nil.
  destruct (decide (workingDayNumber (b + 1) h = true)) as [E|E].
  - now rewrite E.
  - apply not_true_is_false in E. now rewrite E.
Qed.

Lemma workingDaysBetween_refl (h : gset string) (a : Z) : workingDaysBetween h a a = 0%nat.
Proof. unfold workingDaysBetween. now rewrite Z.sub_diag. Qed.

Lemma workingDaysBetween_add (h : gset string) (a b : Z) (n : nat) :
  a <= b →
  workingDaysBetween h a (b + Z.of_nat n)
  = (workingDaysBetween h a b + workingDaysBetween h b (b + Z.of_nat n))%nat.
Proof.
  intros Hab. induction n as [|n IH].
  - rewrite Z.add_0_r, workingDaysBetween_refl. lia.
  - replace (b + Z.of_nat (S n)) with (b + Z.of_nat n + 1) by lia.
    rewrite !workingDaysBetween_step by lia. rewrite IH. lia.
Qed.

Lemma workingDaysBetween_split (h : gset string) (a b c : Z) :
  a <= b → b <= c →
  workingDaysBetween h a c = (workingDaysBetween h a b + workingDaysBetween h b c)%nat.
Proof.
  intros Hab Hbc. replace c with (b + Z.of_nat (Z.to_nat (c - b))) by lia.
  now apply workingDaysBetween_add.
Qed.

Lemma workingDaysBetween_none (h : gset string) (a : Z) (n : nat) :
  (∀ q, a < q <= a + Z.of_nat n → workingDayNumber q h = false) →
  workingDaysBetween h a (a + Z.of_nat n) = 0%nat.
Proof.
  induction n as [|n IH]; intros Hgap.
  - now rewrite Z.add_0_r, workingDaysBetween_refl.
  - replace (a + Z.of_nat (S n)) with (a + Z.of_nat n + 1) by lia.
    rewrite workingDaysBetween_step by lia.
    rewrite IH by (intros q Hq; apply Hgap; lia).
    rewrite Hgap by lia. reflexivity.
Qed.

Lemma workingDaysBetween_positive (h : gset string) (a b : Z) :
  a < b → workingDayNumber b h = true → (1 <= workingDaysBetween h a b)%nat.
Proof.
  intros Hab Hb. replace b with (b - 1 + 1) by lia.
  rewrite workingDaysBetween_step by lia.
  replace (b - 1 + 1) with b by lia. rewrite Hb. lia.
Qed.

(* the n-th working day after a day is unique *)
Lemma nth_working_day_unique (h : gset string) (d x y : Z) :
  d <= x → d <= y →
  workingDaysBetween h d x = workingDaysBetween h d y →
  (d < x → workingDayNumber x h = true) → (d < y → workingDayNumber y h = true) →
  x = y.
Proof.
  intros Hx Hy Hcount Hwx Hwy.
  destruct (Z.lt_trichotomy x y) as [Hlt|[Heq|Hgt]]; [|exact Heq|].
  - rewrite (workingDaysBetween_split h d x y) in Hcount by lia.
    pose proof (workingDaysBetween_positive h x y Hlt (Hwy ltac:(lia))). lia.
  - rewrite (workingDaysBetween_split h d y x) in Hcount by lia.
    pose proof (workingDaysBetween_positive h y x ltac:(lia) (Hwx ltac:(lia))). lia.
Qed.

(* one pass of the outer loop: on to the next working day *)
Lemma next_working_day (dt : DateTime) (h : gset string) :
  ∃ r, skipToWorkingDay (plusDays 1 dt) h = Some r
       ∧ msOfDay r = msOfDay dt ∧ offset r = offset dt
       ∧ dayNumber dt < dayNumber r
       ∧ isWorkingDay r h = true
       ∧ workingDaysBetween h (dayNumber dt) (dayNumber r) = 1%nat.
Proof.
  destruct (skipToWorkingDay_spec (plusDays 1 dt) h) as (k & Hskip & Hw & Hgap).
  exists (plusDays (Z.of_nat k) (plusDays 1 dt)). split; [exact Hskip|].
  rewrite !msOfDay_plusDays, !dayNumber_plusDays. split; [reflexivity|].
  split; [reflexivity|]. split; [lia|]. split; [exact Hw|].
  replace (dayNumber dt + 1 + Z.of_nat k) with (dayNumber dt + Z.of_nat k + 1) by lia.
  rewrite workingDaysBetween_step by lia.
  rewrite workingDaysBetween_none.
  - rewrite isWorkingDay_dayNumber, !dayNumber_plusDays in Hw.
    replace (dayNumber dt + Z.of_nat k + 1) with (dayNumber dt + 1 + Z.of_nat k) by lia.
    now rewrite Hw.
  - intros q Hq. specialize (Hgap (Z.to_nat (q - dayNumber dt - 1)) ltac:(lia)).
    rewrite isWorkingDay_dayNumber, !dayNumber_plusDays in Hgap.
    now replace (dayNumber dt + 1 + Z.of_nat (Z.to_nat (q - dayNumber dt - 1))) with q
      in Hgap by lia.
Qed.

Lemma days_loop_counts (h : gset string) (n : nat) :
  ∀ dt, ∃ r,
    while_loop (S n) (fun st : DateTime * Z => 0 <? snd st)
      (fun st => let '(dt, remaining) := st in
                 match skipToWorkingDay (plusDays 1 dt) h with
                 | Some dt' => Some (dt', remaining - 1)
                 | None => None
                 end) (dt, Z.of_nat n) = Some (r, 0)
    ∧ msOfDay r = msOfDay dt ∧ offset r = offset dt
    ∧ dayNumber dt <= dayNumber r
    ∧ workingDaysBetween h (dayNumber dt) (dayNumber r) = n
    ∧ ((0 < n)%nat → dayNumber dt < dayNumber r ∧ isWorkingDay r h = true)
    ∧ (n = 0%nat → r = dt).
Proof.
  induction n as [|n IH]; intros dt.
  - exists dt. rewrite while_loop_step. cbn [snd Z.of_nat Z.ltb Z.compare].
    rewrite workingDaysBetween_refl. repeat split; try lia; reflexivity.
  - destruct (next_working_day dt h) as (d1 & Hskip & Hms & Hoff & Hlt & Hw & Hone).
    destruct (IH d1) as (r & Hrun & Hms' & Hoff' & Hle & Hcount & Hpos & Hzero).
    exists r. rewrite while_loop_step. cbn [snd].
    replace (0 <? Z.of_nat (S n)) with true by (symmetry; apply Z.ltb_lt; lia).
    rewrite Hskip. replace (Z.of_nat (S n) - 1) with (Z.of_nat n) by lia.
    split; [exact Hrun|]. split; [congruence|]. split; [congruence|]. split; [lia|].
    split; [|split; [|discriminate]].
    + rewrite (workingDaysBetween_split h _ (dayNumber d1)) by lia. lia.
    + intros _. split; [lia|]. destruct n as [|n]; [now rewrite Hzero|apply Hpos; lia].
Qed.

Lemma addBusinessDays_nth (start : DateTime) (days : Z) (h : gset string) :
  0 <= days →
  ∃ r, addBusinessDays start days h = Some r
       ∧ offset r = offset start ∧ msOfDay r = msOfDay start
       ∧ dayNumber start <= dayNumber r
       ∧ Z.of_nat (workingDaysBetween h (dayNumber start) (dayNumber r)) = days
       ∧ (0 < days → dayNumber start < dayNumber r ∧ isWorkingDay r h = true)
       ∧ (days = 0 → r = start).
Proof.
  intros Hdays. unfold addBusinessDays.
  destruct (Z.leb_spec days 0) as [Hz|Hpos].
  - assert (days = 0) as -> by lia. exists start.
    rewrite workingDaysBetween_refl. repeat split; try lia; reflexivity.
  - destruct (days_loop_counts h (Z.to_nat days) start)
      as (r & Hrun & Hms & Hoff & Hle & Hcount & Hw & _).
    rewrite Z2Nat.id in Hrun by lia. rewrite Hrun. exists r.
    repeat split; try assumption; try lia; apply Hw; lia.
Qed.

(* a search for a working day moves by less than [dayFuel] days *)
Lemma skipToWorkingDay_near (dt r : DateTime) (h : gset string) :
  skipToWorkingDay dt h = Some r →
  dayNumber dt <= dayNumber r < dayNumber dt + Z.of_nat (dayFuel h).
Proof.
  intros Hr. destruct (skipToWorkingDay_spec dt h) as (k & Hs & _ & Hgap).
  rewrite Hs in Hr. injection Hr as <-. rewrite dayNumber_plusDays.
  destruct (working_day_within h (dayNumber dt) 1 (or_introl eq_refl)) as (k0 & Hk0 & Hw0).
  assert (Hk : (k <= k0)%nat).
  { destruct (le_lt_dec k k0) as [?|Hlt]; [assumption|]. exfalso.
    specialize (Hgap k0 Hlt). rewrite isWorkingDay_dayNumber, dayNumber_plusDays in Hgap.
    replace (dayNumber dt + 1 * Z.of_nat k0) with (dayNumber dt + Z.of_nat k0) in Hw0 by lia.
    congruence. }
  unfold dayFuel. lia.
Qed.

Lemma days_loop_near (h : gset string) (n : nat) :
  ∀ dt r c,
    while_loop (S n) (fun st : DateTime * Z => 0 <? snd st)
      (fun st => let '(dt, remaining) := st in
                 match skipToWorkingDay (plusDays 1 dt) h with
                 | Some dt' => Some (dt', remaining - 1)
                 | None => None
                 end) (dt, Z.of_nat n) = Some (r, c) →
    dayNumber r <= dayNumber dt + Z.of_nat n * Z.of_nat (dayFuel h).
Proof.
  induction n as [|n IH]; intros dt r c Hrun; rewrite while_loop_step in Hrun; cbn [snd] in Hrun.
  - cbn in Hrun. injection Hrun as <- _. lia.
  - replace (0 <? Z.of_nat (S n)) with true in Hrun by (symmetry; apply Z.ltb_lt; lia).
    destruct (skipToWorkingDay (plusDays 1 dt) h) as [d1|] eqn:Hskip; [|discriminate].
    apply skipToWorkingDay_near in Hskip. rewrite dayNumber_plusDays in Hskip.
    replace (Z.of_nat (S n) - 1) with (Z.of_nat n) in Hrun by lia.
    apply IH in Hrun. lia.
Qed.

Lemma addBusinessDays_near (start r : DateTime) (days : Z) (h : gset string) :
  0 <= days → addBusinessDays start days h = Some r →
  dayNumber r <= dayNumber start + days * Z.of_nat (dayFuel h).
Proof.
  intros Hdays. unfold addBusinessDays. destruct (Z.leb_spec days 0) as [Hz|Hpos].
  - intros [= <-]. assert (days = 0) as -> by lia. lia.
  - destruct (while_loop _ _ _ _) as [[r' c]|] eqn:Hrun; [|discriminate]. intros [= <-].
    rewrite <- (Z2Nat.id days) in Hrun at 2 by lia.
    apply days_loop_near in Hrun. lia.
Qed.

(** X8: [addBusinessDays] moves to the [days]-th working day after the start
    and keeps the time of day.  For [days >= 0], from a start inside Luxon's
    range and with the bound on the result below inside it too (which also
    keeps [days] far below 2^53): the result has the zone and the time of
    day of the start, is not earlier, exactly [days] working days lie after
    the start's date up to and including the result's date, for
    [days >= 1] the result's date is itself a working day, and the result
    is inside Luxon's range. *)
Theorem addBusinessDays_counts_working_days
    (start : DateTime) (days : Z) (holidays : gset string) :
  0 <= days →
  - LUXON_MAX_MS <= toMillis start →
  toMillis start + days * Z.of_nat (dayFuel holidays) * MS_PER_DAY <= LUXON_MAX_MS →
  ∃ r, addBusinessDays start days holidays = Some r
       ∧ offset r = offset start ∧ msOfDay r = msOfDay start
       ∧ dayNumber start <= dayNumber r
       ∧ Z.of_nat (workingDaysBetween holidays (dayNumber start) (dayNumber r)) = days
       ∧ (0 < days → isWorkingDay r holidays = true)
       ∧ toMillis start <= toMillis r
       ∧ - LUXON_MAX_MS <= toMillis r <= LUXON_MAX_MS.
Proof.
  intros Hdays Hlow Hhigh.
  destruct (addBusinessDays_nth start days holidays Hdays)
    as (r & Hr & Hoff & Hms & Hle & Hcount & Hw & _).
  pose proof (addBusinessDays_near start r days holidays Hdays Hr) as Hnear.
  exists r. repeat split; try assumption.
  - intros Hpos. now apply Hw.
  - rewrite (toMillis_split r), (toMillis_split start), Hoff, Hms. lia.
  - rewrite (toMillis_split r), (toMillis_split start), Hoff, Hms in *. lia.
  - revert Hhigh. rewrite (toMillis_split r), (toMillis_split start), Hoff, Hms.
    unfold MS_PER_DAY. lia.
Qed.

Lemma addBusinessDays_counts_working_days_witness :
  ∃ r, addBusinessDays (bogota (2025, 4, 16) 15 30 0 0) 2
         {[ "2025-04-17"%string; "2025-04-18"%string ]} = Some r
       ∧ offset r = offset (bogota (2025, 4, 16) 15 30 0 0)
       ∧ msOfDay r = msOfDay (bogota (2025, 4, 16) 15 30 0 0)
       ∧ dayNumber (bogota (2025, 4, 16) 15 30 0 0) <= dayNumber r
       ∧ Z.of_nat (workingDaysBetween {[ "2025-04-17"%string; "2025-04-18"%string ]}
                     (dayNumber (bogota (2025, 4, 16) 15 30 0 0)) (dayNumber r)) = 2
       ∧ (0 < 2 → isWorkingDay r {[ "2025-04-17"%string; "2025-04-18"%string ]} = true)
       ∧ toMillis (bogota (2025, 4, 16) 15 30 0 0) <= toMillis r
       ∧ - LUXON_MAX_MS <= toMillis r <= LUXON_MAX_MS.
Proof.
  apply addBusinessDays_counts_working_days; [lia| |];
    apply Z.leb_le; vm_compute; reflexivity.
Defined.

(** X9: business days add up.  For [a, b >= 0], adding [a + b] business
    days gives the same instant as adding [a] business days and then [b]
    business days to the result. *)
Theorem addBusinessDays_additive (start : DateTime) (a b : Z) (holidays : gset string) :
  0 <= a → 0 <= b →
  addBusinessDays start (a + b) holidays
  = (r ← addBusinessDays start a holidays; addBusinessDays r b holidays).
Proof.
  intros Ha Hb.
  destruct (addBusinessDays_nth start a holidays Ha)
    as (ra & Hra & Hoffa & Hmsa & Hlea & Hcounta & Hwa & Hza).
  destruct (addBusinessDays_nth ra b holidays Hb)
    as (rb & Hrb & Hoffb & Hmsb & Hleb & Hcountb & Hwb & Hzb).
  destruct (addBusinessDays_nth start (a + b) holidays ltac:(lia))
    as (r & Hr & Hoff & Hms & Hle & Hcount & Hw & Hz).
  rewrite Hra. cbn [mbind option_bind]. rewrite Hrb, Hr. f_equal.
  apply DateTime_eq; [congruence| |congruence].
  apply (nth_working_day_unique holidays (dayNumber start)); [lia|lia| | |].
  - rewrite (workingDaysBetween_split holidays _ (dayNumber ra) (dayNumber rb)) by lia. lia.
  - intros Hlt. rewrite <- isWorkingDay_dayNumber. apply Hw.
    destruct (Z.eq_dec (a + b) 0) as [E|E]; [|lia]. rewrite (Hz E) in Hlt. lia.
  - intros Hlt. rewrite <- isWorkingDay_dayNumber.
    destruct (Z.eq_dec b 0) as [E|E].
    + rewrite (Hzb E). apply Hwa.
      destruct (Z.eq_dec a 0) as [E'|E']; [|lia]. rewrite (Hzb E), (Hza E') in Hlt. lia.
    + apply Hwb. lia.
Qed.

Lemma addBusinessDays_additive_witness :
  addBusinessDays (bogota (2025, 4, 16) 15 30 0 0) (1 + 2)
    {[ "2025-04-17"%string; "2025-04-18"%string ]}
  = (r ← addBusinessDays (bogota (2025, 4, 16) 15 30 0 0) 1
           {[ "2025-04-17"%string; "2025-04-18"%string ]};
     addBusinessDays r 2 {[ "2025-04-17"%string; "2025-04-18"%string ]}).
Proof. apply addBusinessDays_additive; lia. Defined.

End DayCount.

(** ** The hour accumulator: where it lands and how much time it adds *)

Module HourCount.
Import Luxon Business Reference Schedule Samples.
Import LoopFacts WorkingDayFacts DateTimeFacts SearchFacts ClockFacts.
Import HourAccumulator NormalizerFacts DayCount.

Lemma while_loop_invariant {S : Type} (I : S → Prop) (c : S → bool) (b : S → option S) :
  (∀ s s', I s → c s = true → b s = Some s' → I s') →
  ∀ n s r, I s → while_loop n c b s = Some r → I r ∧ c r = false.
Proof.
  intros Hstep. induction n as [|n IH]; intros s r Hs Hrun; [discriminate|].
  rewrite while_loop_step in Hrun. destruct (c s) eqn:Ec.
  - destruct (b s) as [s'|] eqn:Eb; [|discriminate]. eapply IH; [|exact Hrun]. eauto.
  - injection Hrun as <-. auto.
Qed.

Lemma msOfDay_seconds (dt : DateTime) :
  secondOfDay dt * 1000 <= msOfDay dt <= secondOfDay dt * 1000 + 999.
Proof. unfold secondOfDay. lia. Qed.

Lemma msOfDay_plusMinutes (m : Z) (dt : DateTime) :
  0 <= m * 60000 + msOfDay dt < 86400000 →
  msOfDay (plusMinutes m dt) = msOfDay dt + m * 60000.
Proof. unfold_datetime. lia. Qed.

(* a pass outside the working segments: on to the start of the next one *)
Lemma skip_pass_lands (h : gset string) (dt : DateTime) (remaining : Q) :
  inSegment dt h = false →
  ∃ dt', addBusinessHours_body h (dt, remaining) = Some (dt', remaining)
    ∧ offset dt' = offset dt ∧ isWorkingDay dt' h = true
    ∧ ((dayNumber dt' = dayNumber dt ∧ isWorkingDay dt h = true
        ∧ ((msOfDay dt < 28800000 ∧ msOfDay dt' = 28800000)
           ∨ (43200000 <= msOfDay dt < 46800000 ∧ msOfDay dt' = 46800000)))
       ∨ (dayNumber dt < dayNumber dt' ∧ msOfDay dt' = 28800000
          ∧ (isWorkingDay dt h = true → 61200000 <= msOfDay dt)
          ∧ ∀ q, dayNumber dt < q < dayNumber dt' → workingDayNumber q h = false)).
Proof.
  intros Hout. unfold addBusinessHours_body.
  pose proof (msOfDay_seconds dt) as Hms.
  assert (Hjump : ∀ d0 k, offset d0 = offset dt → dayNumber d0 = dayNumber dt + 1 →
            isWorkingDay (plusDays (Z.of_nat k) d0) h = true →
            (∀ j, (j < k)%nat → isWorkingDay (plusDays (Z.of_nat j) d0) h = false) →
            (isWorkingDay dt h = true → 61200000 <= msOfDay dt) →
            let dt' := setHour WORK_START_HOUR (plusDays (Z.of_nat k) d0) in
            offset dt' = offset dt ∧ isWorkingDay dt' h = true
            ∧ ((dayNumber dt' = dayNumber dt ∧ isWorkingDay dt h = true
                ∧ ((msOfDay dt < 28800000 ∧ msOfDay dt' = 28800000)
                   ∨ (43200000 <= msOfDay dt < 46800000 ∧ msOfDay dt' = 46800000)))
               ∨ (dayNumber dt < dayNumber dt' ∧ msOfDay dt' = 28800000
                  ∧ (isWorkingDay dt h = true → 61200000 <= msOfDay dt)
                  ∧ ∀ q, dayNumber dt < q < dayNumber dt' → workingDayNumber q h = false))).
  { intros d0 k Hoff Hday Hw Hgap Hlate. cbv zeta.
    split; [exact Hoff|]. split; [now rewrite isWorkingDay_setHour by (cbv; split; congruence)|].
    right. rewrite dayNumber_setHour, msOfDay_setHour, dayNumber_plusDays, Hday
      by (cbv; split; congruence).
    split; [lia|]. split; [reflexivity|]. split; [exact Hlate|].
    intros q Hq. specialize (Hgap (Z.to_nat (q - dayNumber dt - 1)) ltac:(lia)).
    rewrite isWorkingDay_dayNumber, dayNumber_plusDays, Hday in Hgap.
    now replace (dayNumber dt + 1 + Z.of_nat (Z.to_nat (q - dayNumber dt - 1))) with q
      in Hgap by lia. }
  destruct (isWorkingDay dt h) eqn:Ew; cbn [negb].
  - rewrite before_open_test, in_lunch_test, after_close_test.
    destruct (secondOfDay dt <? 28800) eqn:E1.
    { eexists. split; [reflexivity|]. split; [reflexivity|].
      rewrite isWorkingDay_setHour, dayNumber_setHour, msOfDay_setHour by (cbv; split; congruence).
      split; [exact Ew|]. left. split; [reflexivity|]. split; [reflexivity|]. left.
      unfold WORK_START_HOUR. lia. }
    destruct ((43200 <=? secondOfDay dt) && (secondOfDay dt <? 46800)) eqn:E2.
    { eexists. split; [reflexivity|]. split; [reflexivity|].
      rewrite isWorkingDay_setHour, dayNumber_setHour, msOfDay_setHour by (cbv; split; congruence).
      split; [exact Ew|]. left. split; [reflexivity|]. split; [reflexivity|]. right.
      unfold LUNCH_END_HOUR. lia. }
    destruct (61200 <=? secondOfDay dt) eqn:E3.
    { destruct (skipToWorkingDay_spec (plusDays 1 dt) h) as (k & Hrun & Hw & Hgap).
      rewrite Hrun. eexists. split; [reflexivity|].
      apply (Hjump (plusDays 1 dt) k); auto using dayNumber_plusDays. intros _. lia. }
    exfalso. unfold inSegment in Hout. rewrite Ew in Hout. cbn [andb] in Hout. lia.
  - destruct (skipToWorkingDay_spec (setHour WORK_START_HOUR (plusDays 1 dt)) h)
      as (k & Hrun & Hw & Hgap).
    rewrite Hrun. eexists. split; [reflexivity|].
    apply (Hjump (setHour WORK_START_HOUR (plusDays 1 dt)) k); auto; [|discriminate].
    rewrite dayNumber_setHour by (cbv; split; congruence). apply dayNumber_plusDays.
Qed.

(* the minutes added by a pass inside a segment: at most up to half a minute
   past the end of the segment *)
Lemma segment_round_bound (dt : DateTime) (E : Z) (take : Q) :
  (0 <= take)%Q → (take <= inject_Z E - hourOfDay dt)%Q →
  0 <= Math_round (take * 60)
  ∧ Math_round (take * 60) * 60 + secondOfDay dt <= E * 3600 + 30.
Proof.
  intros H0 Hle. unfold Math_round.
  set (M := Qfloor (take * 60 + (1 # 2))).
  assert (HM0 : 0 <= M).
  { change 0 with (Qfloor (inject_Z 0)). apply Qfloor_resp_le.
    change (inject_Z 0) with 0%Q. lra. }
  split; [exact HM0|].
  assert (HMq : (inject_Z M <= (inject_Z E - inject_Z (secondOfDay dt) * (1 # 3600)) * 60 + (1 # 2))%Q).
  { pose proof (Qfloor_le (take * 60 + (1 # 2))) as Hf. fold M in Hf.
    rewrite hourOfDay_seconds in Hle. lra. }
  revert HMq. unfold Qle, Qplus, Qminus, Qopp, Qmult, Qdiv, Qinv, inject_Z. cbn. lia.
Qed.

Lemma Math_min_le_r (a b : Q) : (Math_min a b <= b)%Q.
Proof.
  unfold Math_min. destruct (Qle_bool a b) eqn:E; [now apply Qle_bool_iff|lra].
Qed.

(* a pass inside a working segment *)
Lemma segment_pass_lands (h : gset string) (dt : DateTime) (remaining : Q) :
  inSegment dt h = true → (0 < remaining)%Q →
  ∃ E take M,
    (E = LUNCH_START_HOUR ∧ 28800 <= secondOfDay dt < 43200
     ∨ E = WORK_END_HOUR ∧ 46800 <= secondOfDay dt < 61200)
    ∧ take = Math_min (inject_Z E - hourOfDay dt) remaining
    ∧ M = Math_round (take * 60)
    ∧ addBusinessHours_body h (dt, remaining)
      = Some (plusMinutes M dt, Qred (remaining - take))
    ∧ isWorkingDay dt h = true
    ∧ (0 <= take)%Q ∧ (take <= remaining)%Q
    ∧ 0 <= M ∧ M * 60 + secondOfDay dt <= E * 3600 + 30
    ∧ dayNumber (plusMinutes M dt) = dayNumber dt
    ∧ msOfDay (plusMinutes M dt) = msOfDay dt + M * 60000.
Proof.
  intros Hin Hpos. pose proof (segment_end dt h Hin) as HE. cbv zeta in HE.
  assert (Ew : isWorkingDay dt h = true).
  { unfold inSegment in Hin. now apply andb_prop in Hin as [Ew _]. }
  assert (Hs : (secondOfDay dt <? 28800) = false
               ∧ (43200 <=? secondOfDay dt) && (secondOfDay dt <? 46800) = false
               ∧ (61200 <=? secondOfDay dt) = false).
  { unfold inSegment in Hin. apply andb_prop in Hin as [_ Hs]. lia. }
  destruct Hs as (E1 & E2 & E3).
  rewrite (FridayClose.body_in_segment h dt remaining Ew E1 E2 E3). cbv zeta.
  assert (Hwhich : ((if (28800 <=? secondOfDay dt) && (secondOfDay dt <? 43200)
                     then LUNCH_START_HOUR else WORK_END_HOUR) = LUNCH_START_HOUR
                    ∧ 28800 <= secondOfDay dt < 43200)
                   ∨ ((if (28800 <=? secondOfDay dt) && (secondOfDay dt <? 43200)
                       then LUNCH_START_HOUR else WORK_END_HOUR) = WORK_END_HOUR
                      ∧ 46800 <= secondOfDay dt < 61200)).
  { unfold inSegment in Hin. apply andb_prop in Hin as [_ Hs].
    destruct ((28800 <=? secondOfDay dt) && (secondOfDay dt <? 43200)) eqn:E4; [left|right];
      (split; [reflexivity|lia]). }
  remember (if (28800 <=? secondOfDay dt) && (secondOfDay dt <? 43200)
            then LUNCH_START_HOUR else WORK_END_HOUR) as E eqn:HeqE.
  clear HeqE. destruct HE as [HE1 HE2].
  pose proof (available_positive dt E HE1) as Hav.
  pose proof (take_bounds _ remaining Hav Hpos) as Htake. cbv zeta in Htake.
  destruct Htake as (Ht0 & Htle & Hlt & Hdec).
  destruct (segment_round_bound dt E _ Ht0 Htle) as [HM0 HM].
  pose proof (segment_advance dt E _ Ht0 Htle HE2) as Hrange.
  exists E, (Math_min (inject_Z E - hourOfDay dt) remaining),
    (Math_round (Math_min (inject_Z E - hourOfDay dt) remaining * 60)).
  split; [exact Hwhich|]. do 3 (split; [reflexivity|]). split; [exact Ew|].
  split; [exact Ht0|]. split; [apply Math_min_le_r|]. split; [exact HM0|]. split; [exact HM|].
  split; [now apply dayNumber_plusMinutes|now apply msOfDay_plusMinutes].
Qed.

Lemma addBusinessHours_run (start : DateTime) (hours : Q) (h : gset string) :
  (0 < hours)%Q →
  ∃ dt remaining,
    while_loop (hoursFuel hours) (fun st : DateTime * Q => Qltb 0 (snd st))
      (addBusinessHours_body h) (start, hours) = Some (dt, remaining)
    ∧ addBusinessHours start hours h = Some dt.
Proof.
  intros Hpos.
  destruct (hours_loop_terminates h (Z.to_nat (Qceiling (hours * 3600)))
              start hours (hoursFuel hours) Hpos (hoursFuel_bound hours Hpos))
    as (dt & rem & Hrun & _).
  { unfold hoursFuel. destruct (inSegment start h); lia. }
  exists dt, rem. split; [exact Hrun|].
  assert (Hb : Qle_bool hours 0 = false).
  { apply not_true_is_false. rewrite Qle_bool_iff. lra. }
  unfold addBusinessHours, addBusinessHours_fuel. now rewrite Hb, Hrun.
Qed.

Lemma Qltb_0_inv (x : Q) : Qltb 0 x = true → (0 < x)%Q.
Proof.
  unfold Qltb. intros H. apply negb_true_iff in H. apply Qnot_le_lt.
  rewrite <- Qle_bool_iff. congruence.
Qed.

(* what one pass of the loop does to the instant *)
Lemma pass_lands (h : gset string) (dt dt' : DateTime) (rem rem' : Q) :
  (0 < rem)%Q → addBusinessHours_body h (dt, rem) = Some (dt', rem') →
  offset dt' = offset dt
  ∧ toMillis dt <= toMillis dt'
  ∧ (msOfDay dt' mod 60000 = 0 ∨ msOfDay dt' mod 60000 = msOfDay dt mod 60000)
  ∧ isWorkingDay dt' h = true
  ∧ 28800000 <= msOfDay dt' <= 61230999.
Proof.
  intros Hpos Hbody.
  pose proof (toMillis_split dt) as Hdt. pose proof (toMillis_split dt') as Hdt'.
  pose proof (msOfDay_range dt) as Rdt. pose proof (msOfDay_seconds dt) as Sdt.
  destruct (inSegment dt h) eqn:Ein.
  - destruct (segment_pass_lands h dt rem Ein Hpos)
      as (E & take & M & HE & _ & _ & Hb & Hw & _ & _ & HM0 & HM & Hday & Hms).
    rewrite Hb in Hbody. injection Hbody as <- <-.
    rewrite Hday, Hms in Hdt'. rewrite Hms.
    assert (HE17 : E <= 17)
      by (destruct HE as [[-> _]|[-> _]]; unfold LUNCH_START_HOUR, WORK_END_HOUR; lia).
    assert (HS : 28800 <= secondOfDay dt) by (destruct HE as [[_ ?]|[_ ?]]; lia).
    split; [reflexivity|]. cbn [offset plusMinutes] in Hdt'. split; [lia|].
    split; [right; lia|]. split; [|lia].
    rewrite <- Hw. now apply isWorkingDay_same_day.
  - destruct (skip_pass_lands h dt rem Ein) as (dt1 & Hb & Hoff1 & Hw1 & Hshape).
    rewrite Hb in Hbody. injection Hbody as <- <-.
    pose proof (msOfDay_range dt1) as Rdt1.
    split; [exact Hoff1|]. rewrite Hoff1 in Hdt'.
    destruct Hshape as [(Hday & _ & [[? Hms]|[? Hms]])|(Hday & Hms & _)];
      rewrite Hms in *; (split; [lia|]); (split; [left; reflexivity|]);
      (split; [exact Hw1|lia]).
Qed.

(* what the loop as a whole does to the instant; the first pass is named
   so that its result can be compared with instants before the start *)
Lemma hours_loop_lands (h : gset string) (start r : DateTime) (hours rem : Q) (n : nat) :
  (0 < hours)%Q →
  while_loop n (fun st : DateTime * Q => Qltb 0 (snd st))
    (addBusinessHours_body h) (start, hours) = Some (r, rem) →
  offset r = offset start
  ∧ toMillis start <= toMillis r
  ∧ (msOfDay r mod 60000 = 0 ∨ msOfDay r mod 60000 = msOfDay start mod 60000)
  ∧ isWorkingDay r h = true
  ∧ 28800000 <= msOfDay r <= 61230999
  ∧ ∃ dt1 rem1, addBusinessHours_body h (start, hours) = Some (dt1, rem1)
                ∧ toMillis dt1 <= toMillis r.
Proof.
  intros Hpos Hrun.
  pose (I := fun st : DateTime * Q =>
               offset (fst st) = offset start
               ∧ toMillis start <= toMillis (fst st)
               ∧ (msOfDay (fst st) mod 60000 = 0
                  ∨ msOfDay (fst st) mod 60000 = msOfDay start mod 60000)
               ∧ (st = (start, hours)
                  ∨ isWorkingDay (fst st) h = true
                    ∧ 28800000 <= msOfDay (fst st) <= 61230999
                    ∧ ∃ dt1 rem1, addBusinessHours_body h (start, hours) = Some (dt1, rem1)
                                  ∧ toMillis dt1 <= toMillis (fst st))).
  assert (Hexit : I (r, rem) ∧ Qltb 0 (snd (r, rem)) = false).
  { apply (while_loop_invariant I (fun st : DateTime * Q => Qltb 0 (snd st))
             (addBusinessHours_body h))
      with (n := n) (s := (start, hours));
      [|unfold I; cbn [fst]; auto with zarith|exact Hrun].
    clear r rem Hrun. intros [dt rem] [dt' rem'] (Hoff & Hle & Hmod & Hfirst) Hcond Hbody.
    cbn [fst snd] in *. apply Qltb_0_inv in Hcond.
    destruct (pass_lands h dt dt' rem rem' Hcond Hbody) as (Hoff' & Hle' & Hmod' & Hw & Hwin).
    unfold I. cbn [fst].
    split; [congruence|]. split; [lia|]. split; [destruct Hmod' as [?|?]; [auto|]; destruct Hmod; [left|right]; congruence|].
    right. split; [exact Hw|]. split; [exact Hwin|].
    destruct Hfirst as [[= -> ->]|(_ & _ & dt1 & rem1 & Hb1 & Hle1)].
    - exists dt', rem'. split; [exact Hbody|lia].
    - exists dt1, rem1. split; [exact Hb1|lia]. }
  destruct Hexit as [(Hoff & Hle & Hmod & Hwin) Hcond]. cbn [fst snd] in *.
  split; [exact Hoff|]. split; [exact Hle|]. split; [exact Hmod|].
  destruct Hwin as [[= -> ->]|(Hw & Hwin & Hfirst)].
  - rewrite (Qltb_0_true _ Hpos) in Hcond. discriminate.
  - auto.
Qed.

(** Business time in closed form: whole working days in between, plus the
    part of the last day, minus the part of the first. *)

Lemma workingDaysBetween_first (h : gset string) (x y : Z) :
  x <= y →
  workingDaysBetween h (x - 1) y
  = ((if workingDayNumber x h then 1 else 0) + workingDaysBetween h x y)%nat.
Proof.
  intros Hxy. rewrite (workingDaysBetween_split h (x - 1) x y) by lia. f_equal.
  replace x with (x - 1 + 1) at 2 3 by lia.
  rewrite workingDaysBetween_step, workingDaysBetween_refl by lia.
  now replace (x - 1 + 1) with x by lia.
Qed.



Lemma Qfloor_half (M : Z) : Qfloor (inject_Z M + (1 # 2)) = M.
Proof. unfold Qfloor, Qplus, inject_Z. cbn. lia. Qed.

(* from an instant on a whole minute, with a whole number of minutes left,
   a pass takes a whole number of minutes and the rounding is exact *)
Lemma aligned_take (dt : DateTime) (E R : Z) (remaining : Q) :
  msOfDay dt mod 60000 = 0 → (remaining * 60 == inject_Z R)%Q →
  let A := E * 60 - msOfDay dt / 60000 in
  let take := Math_min (inject_Z E - hourOfDay dt) remaining in
  (take * 60 == inject_Z (Z.min A R))%Q ∧ Math_round (take * 60) = Z.min A R.
Proof.
  intros Hal Hrem A take.
  assert (Hsec : secondOfDay dt = 60 * (msOfDay dt / 60000)) by (unfold secondOfDay; lia).
  assert (Hav : ((inject_Z E - hourOfDay dt) * 60 == inject_Z A)%Q).
  { rewrite hourOfDay_seconds, Hsec. unfold A.
    unfold Z.sub. rewrite inject_Z_plus, inject_Z_opp, !inject_Z_mult.
    change (inject_Z 60) with 60%Q. lra. }
  assert (Htake : (take * 60 == inject_Z (Z.min A R))%Q).
  { unfold take, Math_min.
    destruct (Qle_bool (inject_Z E - hourOfDay dt) remaining) eqn:Em.
    - apply Qle_bool_iff in Em.
      assert (HAR : A <= R) by (rewrite Zle_Qle; lra).
      now rewrite Z.min_l by exact HAR.
    - assert (Hnot : ¬ (inject_Z E - hourOfDay dt <= remaining)%Q)
        by (rewrite <- Qle_bool_iff; congruence).
      assert (HAR : R <= A) by (rewrite Zle_Qle; lra).
      now rewrite Z.min_r by exact HAR. }
  split; [exact Htake|].
  unfold Math_round.
  assert (Heq : (take * 60 + (1 # 2) == inject_Z (Z.min A R) + (1 # 2))%Q) by (rewrite Htake; reflexivity).
  rewrite (Qfloor_comp _ _ Heq). apply Qfloor_half.
Qed.

(* the loop from a whole minute with a whole number of minutes to add: the
   instant stays on whole minutes and the business time added so far and
   the minutes left add up to the minutes asked for *)
Lemma hours_loop_exact (holidays : gset string) (start r : DateTime) (m : Z)
    (hours rem : Q) (n : nat) :
  msOfDay start mod 60000 = 0 → 0 < m → (hours * 60 == inject_Z m)%Q →
  while_loop n (fun st : DateTime * Q => Qltb 0 (snd st))
    (addBusinessHours_body holidays) (start, hours) = Some (r, rem) →
  offset r = offset start
  ∧ dayNumber start <= dayNumber r
  ∧ toMillis start <= toMillis r
  ∧ msOfDay r mod 60000 = 0
  ∧ workingInstant r holidays
  ∧ 28800000 * Z.of_nat (workingDaysBetween holidays (dayNumber start - 1) (dayNumber r - 1))
    + workedToday holidays r - workedToday holidays start = m * 60000.
Proof.
  intros Hal Hm Hhours Hrun.
  assert (Hpos : (0 < hours)%Q).
  { rewrite Zlt_Qlt in Hm. change (inject_Z 0) with 0%Q in Hm. lra. }
  pose (I := fun st : DateTime * Q =>
               offset (fst st) = offset start
               ∧ dayNumber start <= dayNumber (fst st)
               ∧ toMillis start <= toMillis (fst st)
               ∧ msOfDay (fst st) mod 60000 = 0
               ∧ (∃ R, 0 <= R ∧ (snd st * 60 == inject_Z R)%Q
                       ∧ 28800000 * Z.of_nat (workingDaysBetween holidays
                                                (dayNumber start - 1) (dayNumber (fst st) - 1))
                         + workedToday holidays (fst st) - workedToday holidays start
                         = (m - R) * 60000)
               ∧ (st = (start, hours) ∨ workingInstant (fst st) holidays)).
  assert (Hexit : I (r, rem) ∧ Qltb 0 (snd (r, rem)) = false).
  { apply (while_loop_invariant I (fun st : DateTime * Q => Qltb 0 (snd st))
             (addBusinessHours_body holidays))
      with (n := n) (s := (start, hours)); [| |exact Hrun].
    2:{ unfold I. cbn [fst snd]. repeat split; try lia; try assumption; [|now left].
        exists m. split; [lia|]. split; [exact Hhours|].
        rewrite workingDaysBetween_refl. lia. }
    clear r rem Hrun.
    intros [dt rem] [dt' rem'] (Hoff & Hday & Hle & Hmin & (R & HR0 & HR & Hsum) & _) Hcond Hbody.
    cbn [fst snd] in *. apply Qltb_0_inv in Hcond.
    pose proof (toMillis_split dt) as Hdt. pose proof (toMillis_split dt') as Hdt'.
    pose proof (msOfDay_range dt) as Rdt. pose proof (msOfDay_seconds dt) as Sdt.
    unfold I. cbn [fst snd].
    destruct (inSegment dt holidays) eqn:Ein.
    - destruct (segment_pass_lands holidays dt rem Ein Hcond)
        as (E & take & M & HE & Htake & HM & Hb & Hw & _ & _ & _ & _ & Hday' & Hms).
      rewrite Hb in Hbody. injection Hbody as <- <-.
      destruct (aligned_take dt E R rem Hmin HR) as [Htq HMz]. cbv zeta in Htq, HMz.
      rewrite <- Htake in Htq, HMz. rewrite <- HM in HMz.
      assert (HR1 : 1 <= R).
      { assert (0 < R); [|lia]. rewrite Zlt_Qlt. change (inject_Z 0) with 0%Q. lra. }
      assert (Hw' : isWorkingDay (plusMinutes M dt) holidays = true).
      { rewrite <- Hw. now apply isWorkingDay_same_day. }
      rewrite Hday', Hms in Hdt'. cbn [offset plusMinutes] in Hdt'.
      unfold workedToday in *. rewrite Hw', Hday', Hms. rewrite Hw in Hsum.
      assert (HEb : (E = 12 ∧ 28800000 <= msOfDay dt < 43200000)
                    ∨ (E = 17 ∧ 46800000 <= msOfDay dt < 61200000)).
      { destruct HE as [[-> ?]|[-> ?]]; [left|right];
          unfold LUNCH_START_HOUR, WORK_END_HOUR; lia. }
      clear HE.
      split; [exact Hoff|]. split; [exact Hday|]. split; [lia|]. split; [lia|].
      split.
      + exists (R - M). split; [lia|]. split.
        * rewrite Qred_correct. unfold Z.sub at 1. rewrite inject_Z_plus, inject_Z_opp.
          rewrite HMz at 1. lra.
        * unfold workedBefore, clock, WORK_START_HOUR, LUNCH_START_HOUR, LUNCH_END_HOUR,
            WORK_END_HOUR in *. lia.
      + right. split; [exact Hw'|]. rewrite Hms. unfold_clock. lia.
    - destruct (skip_pass_lands holidays dt rem Ein) as (dt1 & Hb & Hoff1 & Hw1 & Hshape).
      rewrite Hb in Hbody. injection Hbody as <- <-.
      pose proof (msOfDay_range dt1) as Rdt1. rewrite Hoff1 in Hdt'.
      assert (Hwi : ∀ t, msOfDay dt1 = t → t = 28800000 ∨ t = 46800000 →
                workingInstant dt1 holidays).
      { intros t Ht Hor. split; [exact Hw1|]. rewrite Ht. unfold_clock. lia. }
      unfold workedToday in *. rewrite Hw1.
      destruct Hshape as [(Hday1 & Hw & Hcase)|(Hday1 & Hms & Hlate & Hgap)].
      + rewrite Hw in Hsum. rewrite Hday1.
        split; [congruence|]. split; [exact Hday|].
        destruct Hcase as [[Hearly Hms]|[Hlunch Hms]]; rewrite Hms.
        * split; [lia|]. split; [reflexivity|]. split; [|right; eapply Hwi; eauto].
          exists R. split; [exact HR0|]. split; [exact HR|].
          unfold workedBefore, clock, WORK_START_HOUR, LUNCH_START_HOUR, LUNCH_END_HOUR,
            WORK_END_HOUR in *. lia.
        * split; [lia|]. split; [reflexivity|]. split; [|right; eapply Hwi; eauto].
          exists R. split; [exact HR0|]. split; [exact HR|].
          unfold workedBefore, clock, WORK_START_HOUR, LUNCH_START_HOUR, LUNCH_END_HOUR,
            WORK_END_HOUR in *. lia.
      + rewrite Hms. split; [congruence|]. split; [lia|]. split; [lia|].
        split; [reflexivity|]. split; [|right; eapply Hwi; eauto].
        exists R. split; [exact HR0|]. split; [exact HR|].
        rewrite (workingDaysBetween_split holidays _ (dayNumber dt - 1) (dayNumber dt1 - 1))
          by lia.
        rewrite (workingDaysBetween_first holidays (dayNumber dt)) by lia.
        assert (Hz : workingDaysBetween holidays (dayNumber dt) (dayNumber dt1 - 1) = 0%nat).
        { replace (dayNumber dt1 - 1)
            with (dayNumber dt + Z.of_nat (Z.to_nat (dayNumber dt1 - 1 - dayNumber dt))) by lia.
          apply workingDaysBetween_none. intros q Hq. apply Hgap. lia. }
        rewrite Hz.
        rewrite isWorkingDay_dayNumber in Hsum, Hlate.
        destruct (workingDayNumber (dayNumber dt) holidays).
        * specialize (Hlate eq_refl).
          unfold workedBefore, clock, WORK_START_HOUR, LUNCH_START_HOUR, LUNCH_END_HOUR,
            WORK_END_HOUR in *. lia.
        * unfold workedBefore, clock, WORK_START_HOUR, LUNCH_START_HOUR, LUNCH_END_HOUR,
            WORK_END_HOUR in *. lia. }
  destruct Hexit as [(Hoff & Hday & Hle & Hmin & (R & HR0 & HR & Hsum) & Hwi) Hcond].
  cbn [fst snd] in *.
  split; [exact Hoff|]. split; [exact Hday|]. split; [exact Hle|]. split; [exact Hmin|].
  split.
  - destruct Hwi as [[= -> ->]|Hwi]; [|exact Hwi].
    rewrite (Qltb_0_true _ Hpos) in Hcond. discriminate.
  - assert (R = 0); [|subst R; lia].
    assert (Hrem : (rem <= 0)%Q).
    { apply Qnot_lt_le. intros Hlt. rewrite (Qltb_0_true _ Hlt) in Hcond. discriminate. }
    assert (R <= 0); [|lia]. rewrite Zle_Qle. change (inject_Z 0) with 0%Q. lra.
Qed.




(* two days are at most [dayFuel] days apart for every working day between
   them, and [dayFuel] more *)
Lemma days_between_bound (h : gset string) (n : nat) :
  ∀ a b, (Z.to_nat (b - a) <= n)%nat → a <= b →
    b - a <= Z.of_nat (dayFuel h) * (Z.of_nat (workingDaysBetween h a b) + 1).
Proof.
  induction n as [|n IH]; intros a b Hn Hab.
  - assert (b = a) as -> by lia. rewrite workingDaysBetween_refl. lia.
  - destruct (working_day_within h (a + 1) 1 (or_introl eq_refl)) as (k0 & Hk0 & Hw0).
    replace (a + 1 + 1 * Z.of_nat k0) with (a + 1 + Z.of_nat k0) in Hw0 by lia.
    fold (dayFuel h) in Hk0.
    destruct (Z_lt_le_dec b (a + 1 + Z.of_nat k0)) as [Hlt|Hle].
    + assert (0 <= Z.of_nat (dayFuel h) * Z.of_nat (workingDaysBetween h a b)) by lia. lia.
    + rewrite (workingDaysBetween_split h a (a + 1 + Z.of_nat k0) b) by lia.
      pose proof (workingDaysBetween_positive h a (a + 1 + Z.of_nat k0) ltac:(lia) Hw0) as H1.
      specialize (IH (a + 1 + Z.of_nat k0) b ltac:(lia) Hle). nia.
Qed.

Lemma workedToday_range (h : gset string) (dt : DateTime) :
  0 <= workedToday h dt <= 28800000.
Proof.
  unfold workedToday, workedBefore, clock, WORK_START_HOUR, LUNCH_START_HOUR,
    LUNCH_END_HOUR, WORK_END_HOUR.
  destruct (isWorkingDay dt h); lia.
Qed.

(* [k] whole hours end at most [dayFuel * (k + 2)] days later *)
Lemma hours_loop_near (h : gset string) (start r : DateTime) (k : Z)
    (hours rem : Q) (n : nat) :
  msOfDay start mod 60000 = 0 → 0 < k → (hours == inject_Z k)%Q →
  while_loop n (fun st : DateTime * Q => Qltb 0 (snd st))
    (addBusinessHours_body h) (start, hours) = Some (r, rem) →
  dayNumber r <= dayNumber start + Z.of_nat (dayFuel h) * (k + 2).
Proof.
  intros Hal Hk Hhours Hrun.
  assert (Hm : (hours * 60 == inject_Z (k * 60))%Q).
  { rewrite inject_Z_mult, Hhours. reflexivity. }
  destruct (hours_loop_exact h start r (k * 60) hours rem n Hal ltac:(lia) Hm Hrun)
    as (_ & Hday & _ & _ & _ & Hsum).
  pose proof (workedToday_range h r). pose proof (workedToday_range h start).
  pose proof (days_between_bound h (Z.to_nat (dayNumber r - dayNumber start))
                (dayNumber start - 1) (dayNumber r - 1) ltac:(lia) ltac:(lia)) as Hgap.
  assert (HW : Z.of_nat (workingDaysBetween h (dayNumber start - 1) (dayNumber r - 1)) <= k + 1)
    by lia.
  assert (0 <= Z.of_nat (dayFuel h)) by lia. nia.
Qed.

End HourCount.

(** ** The whole computation: normalize, add days, add hours *)

Module Pipeline.
Import Luxon Business Reference Schedule Samples IsoReader.
Import LoopFacts WorkingDayFacts DateTimeFacts SearchFacts ClockFacts.
Import Normalizer HourAccumulator NormalizerFacts DayCount HourCount Orchestrator.

Lemma inSegment_atClock (d hh off : Z) (h : gset string) :
  hh = LUNCH_START_HOUR ∨ hh = WORK_END_HOUR → inSegment (atClock d hh off) h = false.
Proof.
  intros Hhh. unfold inSegment, secondOfDay.
  rewrite msOfDay_atClock by (destruct Hhh as [-> | ->]; unfold_clock; lia).
  destruct Hhh as [-> | ->]; unfold_clock; apply andb_false_r.
Qed.

(* the first working day after the normalized instant is not before the
   instant that was normalized *)
Lemma later_working_day_after_start (rule : Rule) (s n d : DateTime) (h : gset string) :
  guard rule s h → outcome rule s h n →
  dayNumber n < dayNumber d → isWorkingDay d h = true →
  msOfDay d = msOfDay n → offset d = offset s →
  toMillis s <= toMillis d.
Proof.
  intros Hg Ho Hlt Hw Hms Hoff.
  pose proof (toMillis_split s) as Hs. pose proof (toMillis_split d) as Hd.
  pose proof (msOfDay_range s) as Rs. pose proof (msOfDay_range d) as Rd.
  rewrite isWorkingDay_dayNumber in Hw. rewrite Hoff in Hd.
  destruct rule; cbn [guard outcome] in Hg, Ho.
  - destruct Ho as (p & (Hp & _ & Hgap) & ->).
    rewrite dayNumber_atClock in Hlt by (unfold_clock; lia).
    rewrite isWorkingDay_dayNumber in Hg.
    destruct (Z_lt_le_dec (dayNumber s) (dayNumber d)) as [?|Hle]; [lia|].
    destruct (Z.eq_dec (dayNumber d) (dayNumber s)) as [Heq|Hne]; [congruence|].
    rewrite Hgap in Hw by lia. discriminate.
  - subst n. rewrite dayNumber_atClock in Hlt by (unfold_clock; lia). lia.
  - subst n. rewrite dayNumber_atClock in Hlt by (unfold_clock; lia). lia.
  - destruct Ho as (p & (Hp & _ & Hgap) & ->).
    rewrite dayNumber_atClock in Hlt by (unfold_clock; lia).
    rewrite msOfDay_atClock in Hms by (unfold_clock; lia).
    destruct (Z_lt_le_dec (dayNumber d) (dayNumber s)) as [Hbefore|?].
    + rewrite Hgap in Hw by lia. discriminate.
    + unfold_clock. lia.
  - subst n. lia.
Qed.

(* the first pass of the hour loop from the normalized instant does not end
   before the instant that was normalized *)
Lemma first_pass_after_start (rule : Rule) (s n dt1 : DateTime) (h : gset string)
    (rem rem1 : Q) :
  guard rule s h → outcome rule s h n → (0 < rem)%Q →
  addBusinessHours_body h (n, rem) = Some (dt1, rem1) →
  toMillis s <= toMillis dt1.
Proof.
  intros Hg Ho Hpos Hbody.
  assert (Hanchor : ∀ d hh, n = atClock d hh (offset s) →
            hh = LUNCH_START_HOUR ∨ hh = WORK_END_HOUR →
            offset dt1 = offset s ∧ isWorkingDay dt1 h = true
            ∧ ((dayNumber dt1 = d ∧ hh = LUNCH_START_HOUR ∧ msOfDay dt1 = 46800000)
               ∨ (d < dayNumber dt1 ∧ msOfDay dt1 = 28800000
                  ∧ (workingDayNumber d h = true → hh = WORK_END_HOUR)
                  ∧ ∀ q, d < q < dayNumber dt1 → workingDayNumber q h = false))).
  { intros d hh -> Hhh.
    destruct (skip_pass_lands h _ rem (inSegment_atClock d hh (offset s) h Hhh))
      as (dt' & Hb & Hoff & Hw & Hshape).
    rewrite Hb in Hbody. injection Hbody as <- <-.
    rewrite isWorkingDay_dayNumber, dayNumber_atClock, msOfDay_atClock in Hshape
      by (destruct Hhh as [-> | ->]; unfold_clock; lia).
    split; [exact Hoff|]. split; [exact Hw|].
    destruct Hshape as [(Hday & _ & Hcase)|(Hday & Hms & Hlate & Hgap)].
    - left. split; [exact Hday|].
      destruct Hhh as [-> | ->]; unfold_clock; lia.
    - right. split; [exact Hday|]. split; [exact Hms|]. split; [|exact Hgap].
      intros Hwd. specialize (Hlate Hwd). destruct Hhh as [-> | ->]; [|reflexivity].
      unfold_clock. lia. }
  pose proof (toMillis_split s) as Hs. pose proof (toMillis_split dt1) as Hd.
  pose proof (msOfDay_range s) as Rs. pose proof (msOfDay_range dt1) as Rd.
  destruct rule; cbn [guard outcome] in Hg, Ho.
  - destruct Ho as (p & (Hp & Hwp & Hgap) & Hn).
    destruct (Hanchor p WORK_END_HOUR Hn ltac:(auto)) as (Hoff & Hw & Hshape).
    rewrite Hoff in Hd. rewrite isWorkingDay_dayNumber in Hw, Hg.
    destruct Hshape as [(_ & [=] & _)|(Hday & Hms & _ & _)].
    destruct (Z_lt_le_dec (dayNumber s) (dayNumber dt1)) as [?|Hle]; [lia|].
    destruct (Z.eq_dec (dayNumber dt1) (dayNumber s)) as [Heq|Hne]; [congruence|].
    rewrite Hgap in Hw by lia. discriminate.
  - destruct (Hanchor (dayNumber s) LUNCH_START_HOUR Ho ltac:(auto)) as (Hoff & Hw & Hshape).
    rewrite Hoff in Hd. destruct Hg as [Hws Hg]. rewrite isWorkingDay_dayNumber in Hws.
    destruct Hshape as [(Hday & _ & Hms)|(Hday & Hms & Hlate & _)].
    + unfold_clock. lia.
    + specialize (Hlate Hws). discriminate.
  - destruct (Hanchor (dayNumber s) WORK_END_HOUR Ho ltac:(auto)) as (Hoff & Hw & Hshape).
    rewrite Hoff in Hd.
    destruct Hshape as [(_ & [=] & _)|(Hday & Hms & _ & _)]. lia.
  - destruct Ho as (p & (Hp & Hwp & Hgap) & Hn).
    destruct (Hanchor p WORK_END_HOUR Hn ltac:(auto)) as (Hoff & Hw & Hshape).
    rewrite Hoff in Hd. rewrite isWorkingDay_dayNumber in Hw.
    destruct Hshape as [(_ & [=] & _)|(Hday & Hms & _ & _)].
    destruct (Z_lt_le_dec (dayNumber dt1) (dayNumber s)) as [Hbefore|?].
    + rewrite Hgap in Hw by lia. discriminate.
    + unfold_clock. lia.
  - subst n. now destruct (pass_lands h s dt1 rem rem1 Hpos Hbody) as (_ & Hle & _).
Qed.

(* stepping back to the previous working day moves by at most [dayFuel] days *)
Lemma previous_working_day_near (h : gset string) (d p : Z) :
  previousWorkingDay h d p → d - Z.of_nat (dayFuel h) <= p.
Proof.
  intros (_ & _ & Hgap).
  destruct (working_day_within h (d - 1) (-1) (or_intror eq_refl)) as (k0 & Hk0 & Hw0).
  fold (dayFuel h) in Hk0.
  destruct (Z_lt_le_dec p (d - 1 + -1 * Z.of_nat k0)) as [Hlt|Hle]; [|lia].
  rewrite Hgap in Hw0 by lia. discriminate.
Qed.

Lemma normalize_near (dt n : DateTime) (h : gset string) :
  normalizeBackwardToWorkingSlot dt h = Some n →
  toMillis dt - (Z.of_nat (dayFuel h) + 1) * MS_PER_DAY <= toMillis n <= toMillis dt.
Proof.
  intros Hn. destruct (normalize_by_rule dt h) as (rule & n' & Hg & Ho & Hn').
  assert (n' = n) as -> by congruence.
  pose proof (toMillis_split dt) as Hs. pose proof (msOfDay_range dt) as Rs.
  unfold MS_PER_DAY.
  destruct rule; cbn [guard outcome] in Hg, Ho;
    try (destruct Ho as (p & Hp & ->);
         pose proof (previous_working_day_near h _ p Hp); destruct Hp as (Hp & _));
    try subst n; rewrite ?toMillis_atClock; unfold_clock; lia.
Qed.

(* steps 3 to 6 of the orchestrator, from a start on a whole minute and for
   whole numbers of days and hours *)
Lemma accumulation_exact (h : gset string) (startCol : DateTime) (days k : Z) (hours : Q) :
  msOfDay startCol mod 60000 = 0 → 0 <= days → 0 <= k → (hours == inject_Z k)%Q →
  ∃ n r,
    normalizeBackwardToWorkingSlot startCol h = Some n
    ∧ (normalized ← ofOption (normalizeBackwardToWorkingSlot startCol h);
       afterDays ← (if 0 <? days then ofOption (addBusinessDays normalized days h)
                    else Returned normalized);
       afterHours ← (if Qltb 0 hours then ofOption (addBusinessHours afterDays hours h)
                     else Returned afterDays);
       mret (setZone UTC_ZONE afterHours)) = Returned (setZone UTC_ZONE r)
    ∧ offset r = offset startCol
    ∧ workingInstant r h
    ∧ msOfDay r mod 60000 = 0
    ∧ toMillis startCol - (Z.of_nat (dayFuel h) + 1) * MS_PER_DAY <= toMillis n
    ∧ toMillis n <= toMillis r
    ∧ toMillis r <= toMillis startCol + Z.of_nat (dayFuel h) * (days + k + 3) * MS_PER_DAY
    ∧ (0 < days ∨ (0 < hours)%Q → toMillis startCol <= toMillis r)
    ∧ (days <= 0 → (hours <= 0)%Q → r = n ∧ toMillis r <= toMillis startCol).
Proof.
  intros Hal Hdays Hk Hhours.
  destruct (normalize_by_rule startCol h) as (rule & n & Hg & Ho & Hn).
  destruct (normalize_lands_on_working_instant startCol n h Hn) as [[Hwn Htn] Hoffn].
  pose proof (normalize_near startCol n h Hn) as [Hnlow Hnhigh].
  exists n. rewrite Hn. unfold_outcome.
  assert (HF : 1 <= Z.of_nat (dayFuel h)) by (unfold dayFuel; lia).
  assert (Hmodn : msOfDay n mod 60000 = 0).
  { destruct rule; cbn [outcome] in Ho;
      try (destruct Ho as (p & _ & ->)); try subst n;
      try (rewrite msOfDay_atClock by (unfold_clock; lia); unfold_clock; reflexivity).
    exact Hal. }
  assert (Hdaystep : ∃ d, (if 0 <? days then ofOption (addBusinessDays n days h)
                           else Returned n) = Returned d
                          ∧ offset d = offset n ∧ msOfDay d = msOfDay n
                          ∧ isWorkingDay d h = true
                          ∧ dayNumber n <= dayNumber d
                            <= dayNumber n + days * Z.of_nat (dayFuel h)
                          ∧ (0 < days → toMillis startCol <= toMillis d)
                          ∧ (days <= 0 → d = n)).
  { destruct (Z.ltb_spec 0 days) as [Hpos|Hnot].
    - destruct (addBusinessDays_nth n days h ltac:(lia))
        as (d & Hd & Hoff & Hms & Hle & _ & Hw & _).
      destruct (Hw Hpos) as [Hlt Hwd].
      pose proof (addBusinessDays_near n d days h ltac:(lia) Hd) as Hnear.
      exists d. rewrite Hd. cbn [ofOption]. repeat split; try assumption; [|lia].
      intros _. apply (later_working_day_after_start rule startCol n d h); auto. congruence.
    - exists n. repeat split; try assumption; lia. }
  destruct Hdaystep as (d & -> & Hoffd & Hmsd & Hwd & Hdd & Hafterd & Hsamed).
  unfold_outcome.
  pose proof (toMillis_split n) as Sn. pose proof (toMillis_split d) as Sd.
  pose proof (msOfDay_range n) as Rn.
  rewrite Hoffd, Hmsd in Sd.
  assert (Hwid : workingInstant d h) by (split; [exact Hwd|now rewrite Hmsd]).
  destruct (Qltb 0 hours) eqn:Eh.
  - apply Qltb_0_inv in Eh.
    assert (Hkpos : 0 < k).
    { rewrite Zlt_Qlt. change (inject_Z 0) with 0%Q. lra. }
    destruct (addBusinessHours_run d hours h Eh) as (r & rem & Hrun & Hr).
    destruct (hours_loop_lands h d r hours rem _ Eh Hrun)
      as (Hoff & Hle & _ & _ & _ & dt1 & rem1 & Hfirst & Hle1).
    assert (Hm : (hours * 60 == inject_Z (k * 60))%Q).
    { rewrite inject_Z_mult, Hhours. reflexivity. }
    destruct (hours_loop_exact h d r (k * 60) hours rem _ ltac:(congruence) ltac:(lia) Hm Hrun)
      as (_ & _ & _ & Hmin & Hwi & _).
    pose proof (hours_loop_near h d r k hours rem _ ltac:(congruence) Hkpos Hhours Hrun)
      as Hnear.
    pose proof (toMillis_split r) as Sr. pose proof (msOfDay_range r) as Rr.
    rewrite Hoff, Hoffd in Sr.
    exists r. rewrite Hr. cbn [ofOption]. split; [reflexivity|]. split; [reflexivity|].
    split; [congruence|]. split; [exact Hwi|]. split; [exact Hmin|].
    split; [exact Hnlow|]. split; [lia|]. split; [unfold MS_PER_DAY; nia|].
    split; [|intros _ Hle0; lra].
    intros _. destruct (Z_lt_le_dec 0 days) as [Hpos|Hnot].
    + specialize (Hafterd Hpos). lia.
    + rewrite (Hsamed Hnot) in Hfirst.
      pose proof (first_pass_after_start rule startCol n dt1 h hours rem1 Hg Ho Eh Hfirst). lia.
  - exists d. split; [reflexivity|]. split; [reflexivity|]. split; [congruence|].
    split; [exact Hwid|]. split; [congruence|]. split; [exact Hnlow|]. split; [lia|].
    split; [unfold MS_PER_DAY; nia|]. split.
    + intros [Hpos|Hpos]; [auto|]. rewrite (Qltb_0_true _ Hpos) in Eh. discriminate.
    + intros Hle _. rewrite (Hsamed Hle). auto.
Qed.

Lemma computeBusinessDate_resolved (env : Env) (startUtcIso : option string)
    (days : Z) (hours : Q) (w w' : World) (h : gset string) (startCol : DateTime) :
  fetchHolidays (dateNow env) (transport env) w = (Returned h, w') →
  match truthy startUtcIso with
  | Some iso => setZone COLOMBIA_ZONE <$> fromISO env iso
  | None => Some (mkDateTime (dateTimeNow env) COLOMBIA_ZONE)
  end = Some startCol →
  offset startCol = COLOMBIA_ZONE
  ∧ computeBusinessDate env startUtcIso days hours w
    = (normalized ← ofOption (normalizeBackwardToWorkingSlot startCol h);
       afterDays ← (if 0 <? days then ofOption (addBusinessDays normalized days h)
                    else Returned normalized);
       afterHours ← (if Qltb 0 hours then ofOption (addBusinessHours afterDays hours h)
                     else Returned afterDays);
       mret (setZone UTC_ZONE afterHours), w').
Proof.
  intros Hfetch Hstart. unfold computeBusinessDate. rewrite Hfetch, mbind_Returned.
  destruct (truthy startUtcIso) as [iso|].
  - destruct (fromISO env iso) as [parsed|]; [|discriminate].
    injection Hstart as <-. rewrite mbind_Returned. split; reflexivity.
  - injection Hstart as <-. rewrite mbind_Returned. split; reflexivity.
Qed.

Lemma setZone_back (r : DateTime) (off : Z) :
  offset r = COLOMBIA_ZONE → setZone COLOMBIA_ZONE (setZone off r) = r.
Proof. destruct r as [t o]. cbn. now intros ->. Qed.

Lemma exactDomain_hours (h : gset string) (startCol : DateTime) (days : Z) (hours : Q) :
  exactDomain h startCol days hours →
  0 <= Qfloor hours ∧ (hours == inject_Z (Qfloor hours))%Q.
Proof.
  intros (_ & _ & (n & Hn & Hh) & _).
  assert (Qfloor hours = n) as -> by (rewrite (Qfloor_comp _ _ Hh); apply Qfloor_Z).
  auto.
Qed.

(** X12: a computed date is a working instant.  On the calls of
    [exactDomain] (start on a whole minute, whole [days] and [hours], all
    instants within reach where the zone is at UTC-05:00 and inside Luxon's
    range), once the holidays are obtained and the start is resolved,
    [computeBusinessDate] returns a UTC instant that in the business zone
    stands on a working day between 08:00 and 12:00 or between 13:00 and
    17:00 (ends included), on a whole minute, and that lies where the zone
    is at UTC-05:00 and inside Luxon's range. *)
Theorem computeBusinessDate_lands_in_working_window
    (env : Env) (startUtcIso : option string) (days : Z) (hours : Q)
    (w w' : World) (holidays : gset string) (startCol : DateTime) :
  fetchHolidays (dateNow env) (transport env) w = (Returned holidays, w') →
  match truthy startUtcIso with
  | Some iso => setZone COLOMBIA_ZONE <$> fromISO env iso
  | None => Some (mkDateTime (dateTimeNow env) COLOMBIA_ZONE)
  end = Some startCol →
  exactDomain holidays startCol days hours →
  ∃ r, computeBusinessDate env startUtcIso days hours w = (Returned r, w')
       ∧ offset r = UTC_ZONE
       ∧ workingInstant (setZone COLOMBIA_ZONE r) holidays
       ∧ toMillis r mod 60000 = 0
       ∧ BOGOTA_UTC5_SINCE <= toMillis r <= LUXON_MAX_MS.
Proof.
  intros Hfetch Hstart Hdom.
  destruct (computeBusinessDate_resolved env startUtcIso days hours w w' holidays startCol
              Hfetch Hstart) as [Hzone ->].
  destruct (exactDomain_hours _ _ _ _ Hdom) as [Hk Hh].
  destruct Hdom as (Hal & Hdays & _ & Hera & Hrange).
  destruct (accumulation_exact holidays startCol days (Qfloor hours) hours Hal Hdays Hk Hh)
    as (n & r & _ & -> & Hoff & Hwi & Hmin & Hnlow & Hnr & Hrhigh & _).
  exists (setZone UTC_ZONE r). split; [reflexivity|]. split; [reflexivity|].
  rewrite setZone_back by congruence. split; [exact Hwi|].
  cbn [toMillis setZone]. split; [|lia].
  revert Hmin. unfold msOfDay, localMs, MS_PER_DAY.
  rewrite Hoff, Hzone. unfold COLOMBIA_ZONE. lia.
Qed.

Lemma computeBusinessDate_lands_in_working_window_witness :
  ∃ r, computeBusinessDate (mkEnv 0 TestCases.source readInstant 0)
         (Some "2025-10-04T19:00:00Z"%string) 0 1 (mkWorld None 0)
       = (Returned r,
          mkWorld (Some (mkHolidayCache 0 {[ "2025-04-17"%string; "2025-04-18"%string ]})) 1)
       ∧ offset r = UTC_ZONE
       ∧ workingInstant (setZone COLOMBIA_ZONE r)
           {[ "2025-04-17"%string; "2025-04-18"%string ]}
       ∧ toMillis r mod 60000 = 0
       ∧ BOGOTA_UTC5_SINCE <= toMillis r <= LUXON_MAX_MS.
Proof.
  apply (computeBusinessDate_lands_in_working_window
           (mkEnv 0 TestCases.source readInstant 0) (Some "2025-10-04T19:00:00Z"%string) 0 1
           (mkWorld None 0) _ _ (setZone COLOMBIA_ZONE (utc (2025, 10, 4) 19 0 0 0)));
    [reflexivity|reflexivity|].
  split; [reflexivity|]. split; [lia|]. split; [exists 1; split; [lia|reflexivity]|].
  split; apply Z.leb_le; vm_compute; reflexivity.
Defined.

(** X13: a computed date is not before the start, unless nothing is added.
    On the calls of [exactDomain], once the holidays are obtained and the
    start is resolved: when [days >= 1] or [hours >= 1] the instant returned
    by [computeBusinessDate] is at or after the start; when both are 0 it is
    the normalized start, which is at or before the start. *)
Theorem computeBusinessDate_not_before_start
    (env : Env) (startUtcIso : option string) (days : Z) (hours : Q)
    (w w' : World) (holidays : gset string) (startCol : DateTime) :
  fetchHolidays (dateNow env) (transport env) w = (Returned holidays, w') →
  match truthy startUtcIso with
  | Some iso => setZone COLOMBIA_ZONE <$> fromISO env iso
  | None => Some (mkDateTime (dateTimeNow env) COLOMBIA_ZONE)
  end = Some startCol →
  exactDomain holidays startCol days hours →
  ∃ r, computeBusinessDate env startUtcIso days hours w = (Returned r, w')
       ∧ (0 < days ∨ (0 < hours)%Q → toMillis startCol <= toMillis r)
       ∧ (days <= 0 → (hours <= 0)%Q →
          normalizeBackwardToWorkingSlot startCol holidays = Some (setZone COLOMBIA_ZONE r)
          ∧ toMillis r <= toMillis startCol).
Proof.
  intros Hfetch Hstart Hdom.
  destruct (computeBusinessDate_resolved env startUtcIso days hours w w' holidays startCol
              Hfetch Hstart) as [Hzone ->].
  destruct (exactDomain_hours _ _ _ _ Hdom) as [Hk Hh].
  destruct Hdom as (Hal & Hdays & _ & Hera & Hrange).
  destruct (accumulation_exact holidays startCol days (Qfloor hours) hours Hal Hdays Hk Hh)
    as (n & r & Hn & -> & Hoff & _ & _ & _ & _ & _ & Hafter & Hsame).
  exists (setZone UTC_ZONE r). split; [reflexivity|]. split; [exact Hafter|].
  intros Hd Hle. rewrite setZone_back by congruence.
  destruct (Hsame Hd Hle) as [-> Hbefore]. auto.
Qed.

Lemma computeBusinessDate_not_before_start_witness :
  ∃ r, computeBusinessDate (mkEnv 0 TestCases.source readInstant 0)
         (Some "2025-10-04T19:00:00Z"%string) 0 1 (mkWorld None 0)
       = (Returned r,
          mkWorld (Some (mkHolidayCache 0 {[ "2025-04-17"%string; "2025-04-18"%string ]})) 1)
       ∧ (0 < 0 ∨ (0 < 1)%Q
          → toMillis (setZone COLOMBIA_ZONE (utc (2025, 10, 4) 19 0 0 0)) <= toMillis r)
       ∧ (0 <= 0 → (1 <= 0)%Q →
          normalizeBackwardToWorkingSlot (setZone COLOMBIA_ZONE (utc (2025, 10, 4) 19 0 0 0))
            {[ "2025-04-17"%string; "2025-04-18"%string ]}
          = Some (setZone COLOMBIA_ZONE r)
          ∧ toMillis r <= toMillis (setZone COLOMBIA_ZONE (utc (2025, 10, 4) 19 0 0 0))).
Proof.
  apply (computeBusinessDate_not_before_start
           (mkEnv 0 TestCases.source readInstant 0) (Some "2025-10-04T19:00:00Z"%string) 0 1
           (mkWorld None 0) _ _ (setZone COLOMBIA_ZONE (utc (2025, 10, 4) 19 0 0 0)));
    [reflexivity|reflexivity|].
  split; [reflexivity|]. split; [lia|]. split; [exists 1; split; [lia|reflexivity]|].
  split; apply Z.leb_le; vm_compute; reflexivity.
Defined.

End Pipeline.

(** ** The text of a response date *)

Module ResponseFormat.
Import Luxon Business Api Schedule Samples CalendarFacts DateTimeFacts HolidayDocument.

Lemma append_assoc (a b c : string) : (a +:+ b) +:+ c = a +:+ (b +:+ c).
Proof.
  induction a as [|x a IH]; [now rewrite !append_nil_l|].
  now rewrite !append_cons, IH.
Qed.

Lemma matchesPattern_length (p s : string) :
  matchesPattern p s = true → String.length s = String.length p.
Proof.
  revert s. induction p as [|c p IH]; intros [|x s] H; cbn in *; try discriminate; auto.
  apply andb_prop in H as [_ H]. f_equal. now apply IH.
Qed.

Lemma matchesPattern_append (p1 p2 s1 s2 : string) :
  matchesPattern p1 s1 = true → matchesPattern p2 s2 = true →
  matchesPattern (p1 +:+ p2) (s1 +:+ s2) = true.
Proof.
  revert s1. induction p1 as [|c p1 IH]; intros [|x s1] H1 H2; cbn in H1; try discriminate.
  - now rewrite !append_nil_l.
  - rewrite !append_cons. cbn [matchesPattern].
    apply andb_prop in H1 as [Hc H1]. rewrite Hc. cbn [andb]. now apply IH.
Qed.

Lemma isDigit_digit (z : Z) : 0 <= z < 10 → isDigit (digit z) = true.
Proof. intros Hz. apply (digit_cases z (fun a => isDigit a = true) Hz); reflexivity. Qed.

Lemma matchesPattern_dec2 (n : Z) : matchesPattern "dd" (dec 2 n) = true.
Proof.
  cbn [dec]. rewrite append_nil_l, append_cons, append_nil_l. cbn [matchesPattern].
  change (Ascii.eqb "d" "d") with true. cbv iota.
  rewrite !isDigit_digit by lia. reflexivity.
Qed.

Lemma matchesPattern_dec4 (n : Z) : matchesPattern "dddd" (dec 4 n) = true.
Proof.
  change (dec 4 n) with (dec 2 (n / 10 / 10) +:+ String (digit (n / 10 mod 10)) ""
                         +:+ String (digit (n mod 10)) "").
  change "dddd"%string with ("dd" +:+ "dd")%string.
  apply matchesPattern_append; [apply matchesPattern_dec2|].
  rewrite append_cons, append_nil_l. cbn [matchesPattern].
  change (Ascii.eqb "d" "d") with true. cbv iota.
  rewrite !isDigit_digit by lia. reflexivity.
Qed.

Lemma clock_fields_range (dt : DateTime) :
  0 <= hour dt < 24 ∧ 0 <= minute dt < 60 ∧ 0 <= second dt < 60 ∧ 0 <= millisecond dt < 1000.
Proof.
  pose proof (msOfDay_range dt). unfold hour, minute, second, millisecond. lia.
Qed.

(** X14: when a response date has second precision.  The text
    [toISO({ suppressMilliseconds: true })] has the shape
    [YYYY-MM-DDTHH:MM:SSZ] exactly when the instant has no milliseconds,
    is in UTC, and its year lies between 0 and 9999. *)
Theorem toISO_second_precision_iff (dt : DateTime) :
  secondPrecisionUtc (toISO true dt) = true
  ↔ millisecond dt = 0 ∧ offset dt = 0 ∧ 0 <= year dt <= 9999.
Proof.
  pose proof (civil_from_days_range (dayNumber dt)) as Hrange.
  pose proof (clock_fields_range dt) as (Hh & Hmi & Hs & Hms).
  unfold secondPrecisionUtc, toISO, toISODate, year, isoDate.
  destruct (civil_from_days (dayNumber dt)) as [[y m] d]. cbn [fst].
  destruct Hrange as [Hm Hd]. split.
  - intros H. apply matchesPattern_length in H.
    rewrite !length_append in H. cbn [String.length] in H.
    pose proof (padStart_length_ge 2 m). pose proof (padStart_length_ge 2 d).
    pose proof (padStart_length_ge 2 (hour dt)). pose proof (padStart_length_ge 2 (minute dt)).
    pose proof (padStart_length_ge 2 (second dt)).
    assert (Hy : (4 <= String.length (isoYear y))%nat
                 ∧ ((7 <= String.length (isoYear y))%nat ∨ 0 <= y <= 9999)).
    { unfold isoYear. destruct ((0 <=? y) && (y <=? 9999)) eqn:Ey.
      - pose proof (padStart_length_ge 4 y). split; [lia|right; lia].
      - pose proof (padStart_length_ge 6 (Z.abs y)).
        destruct (0 <=? y); rewrite length_append; cbn [String.length]; lia. }
    assert (Hz : (1 <= String.length (isoOffset (offset dt)))%nat
                 ∧ ((6 <= String.length (isoOffset (offset dt)))%nat ∨ offset dt = 0)).
    { unfold isoOffset. destruct (Z.eqb_spec (offset dt) 0) as [Ez|Ez].
      - cbn [String.length]. split; [lia|now right].
        - pose proof (padStart_length_ge 2 (Z.abs (offset dt) / 60)).
          pose proof (padStart_length_ge 2 (Z.abs (offset dt) mod 60)).
          destruct (0 <=? offset dt); rewrite !length_append; cbn [String.length]; lia. }
    cbn [andb] in H. destruct (Z.eqb_spec (millisecond dt) 0) as [E0|E0].
    + split; [exact E0|]. cbn [String.length] in H. lia.
    + exfalso. rewrite length_append in H. cbn [String.length] in H.
      pose proof (padStart_length_ge 3 (millisecond dt)). lia.
  - intros (E0 & Ez & Hy). rewrite E0, Ez. cbn [andb Z.eqb isoOffset].
    unfold isoYear. replace ((0 <=? y) && (y <=? 9999)) with true by lia.
    rewrite !padStart_small by (cbn; lia).
    rewrite !append_assoc, append_nil_l.
    change "dddd-dd-ddTdd:dd:ddZ"%string
      with ("dddd" +:+ "-" +:+ "dd" +:+ "-" +:+ "dd" +:+ "T" +:+ "dd" +:+ ":" +:+ "dd"
            +:+ ":" +:+ "dd" +:+ "Z")%string.
    refine (matchesPattern_append "dddd" _ (dec 4 y) _ (matchesPattern_dec4 y) _).
    refine (matchesPattern_append "-" _ "-" _ eq_refl _).
    refine (matchesPattern_append "dd" _ (dec 2 m) _ (matchesPattern_dec2 m) _).
    refine (matchesPattern_append "-" _ "-" _ eq_refl _).
    refine (matchesPattern_append "dd" _ (dec 2 d) _ (matchesPattern_dec2 d) _).
    refine (matchesPattern_append "T" _ "T" _ eq_refl _).
    refine (matchesPattern_append "dd" _ (dec 2 (hour dt)) _ (matchesPattern_dec2 _) _).
    refine (matchesPattern_append ":" _ ":" _ eq_refl _).
    refine (matchesPattern_append "dd" _ (dec 2 (minute dt)) _ (matchesPattern_dec2 _) _).
    refine (matchesPattern_append ":" _ ":" _ eq_refl _).
    exact (matchesPattern_append "dd" "Z" (dec 2 (second dt)) "Z" (matchesPattern_dec2 _) eq_refl).
Qed.

End ResponseFormat.

(** ** The request handler *)

Module HandlerFacts.
Import Luxon Business Api Handler Schedule Samples IsoReader.
Import CalendarFacts HolidayProvider Orchestrator Pipeline.

Lemma nonNegativeInteger_checks (x : JSNumber) :
  negb (Number_isInteger x) || ltZero x = false ↔ nonNegativeInteger x.
Proof.
  rewrite orb_false_iff, negb_false_iff. split.
  - intros [Hint Hneg]. destruct x as [|neg|y]; cbn in Hint; try discriminate.
    apply Qeq_bool_iff in Hint. exists y, (Qfloor y). split; [reflexivity|].
    split; [|exact Hint].
    cbn [ltZero] in Hneg. unfold Qltb in Hneg. apply negb_false_iff, Qle_bool_iff in Hneg.
    change 0 with (Qfloor (inject_Z 0)). apply Qfloor_resp_le. exact Hneg.
  - intros (y & n & -> & Hn & Hy). cbn [Number_isInteger ltZero]. split.
    + apply Qeq_bool_iff. rewrite (Qfloor_comp _ _ Hy), Qfloor_Z. exact Hy.
    + unfold Qltb. apply negb_false_iff, Qle_bool_iff. rewrite Hy.
      rewrite Zle_Qle in Hn. exact Hn.
Qed.

Lemma endsWith_spec (c : ascii) (s : string) :
  endsWith c s = true ↔ ∃ p, s = p +:+ String c "".
Proof.
  induction s as [|a s IH].
  - split; [discriminate|]. intros ([|x p] & Hp); [rewrite append_nil_l in Hp|
      rewrite append_cons in Hp]; discriminate.
  - destruct s as [|b s].
    + cbn [endsWith]. split.
      * intros ->%Ascii.eqb_eq. exists ""%string. now rewrite append_nil_l.
      * intros ([|x p] & Hp).
        -- rewrite append_nil_l in Hp. injection Hp as ->. apply Ascii.eqb_refl.
        -- rewrite append_cons in Hp. injection Hp as _ Hp. destruct p as [|y p];
             [rewrite append_nil_l in Hp|rewrite append_cons in Hp]; discriminate.
    + change (endsWith c (String a (String b s))) with (endsWith c (String b s)).
      rewrite IH. split.
      * intros (p & ->). exists (String a p). now rewrite append_cons.
      * intros ([|x p] & Hp).
        -- rewrite append_nil_l in Hp. discriminate.
        -- rewrite append_cons in Hp. injection Hp as _ Hp. eauto.
Qed.

Lemma missing_spec (raw : option string) :
  missing raw = false ↔ ∃ s, raw = Some s ∧ s ≠ ""%string.
Proof.
  destruct raw as [[|c r]|]; cbn; split; try discriminate.
  - intros (s & [= <-] & Hne). congruence.
  - intros _. eexists. split; [reflexivity|discriminate].
  - reflexivity.
  - intros (s & [=] & _).
Qed.

(* the four checks of the handler, together, against the documented shape *)
Lemma checks_pass_iff (Number : string → JSNumber) (q : Query) :
  let days := match rawDays q with Some s => Number s | None => JSFinite 0 end in
  let hours := match rawHours q with Some s => Number s | None => JSFinite 0 end in
  (missing (rawDays q) && missing (rawHours q) = false
   ∧ negb (Number_isInteger days) || ltZero days = false
   ∧ negb (Number_isInteger hours) || ltZero hours = false
   ∧ match rawDate q with
     | Some d => negb (endsWith "Z" d)
     | None => false
     end = false)
  ↔ wellFormed Number q.
Proof.
  cbv zeta. unfold wellFormed.
  rewrite andb_false_iff, !missing_spec, !nonNegativeInteger_checks.
  assert (Hzero : nonNegativeInteger (JSFinite 0)).
  { exists 0%Q, 0. split; [reflexivity|]. split; [lia|reflexivity]. }
  assert (Hnum : ∀ raw : option string,
            nonNegativeInteger (match raw with Some s => Number s | None => JSFinite 0 end)
            ↔ ∀ s, raw = Some s → nonNegativeInteger (Number s)).
  { intros [s|]; split; auto.
    - intros H s' [= <-]. exact H.
    - intros _ s [=]. }
  rewrite !Hnum.
  assert (Hdate : match rawDate q with
                  | Some d => negb (endsWith "Z" d)
                  | None => false
                  end = false
                  ↔ ∀ d, rawDate q = Some d → ∃ p, d = p +:+ "Z").
  { destruct (rawDate q) as [d|].
    - rewrite negb_false_iff, endsWith_spec. split; [intros H d' [= <-]; exact H|auto].
    - split; [intros _ d [=]|reflexivity]. }
  rewrite Hdate. tauto.
Qed.

Lemma handler_accepted (Number : string → JSNumber) (env : Env) (q : Query) (w : World) :
  wellFormed Number q →
  ∃ (days : Z) (hours : Q),
    handler Number env q w
    = (let '(result, w') := businessHoursDate env (rawDate q) days hours w in
       match result with
       | Returned dateIso => (Some (mkResponse 200 (SuccessResponse dateIso)), w')
       | Thrown InvalidDate => (Some (error400 "'date' no es un ISO UTC válido."), w')
       | Thrown _ =>
           (Some (error503 "No fue posible obtener el catálogo de días festivos."), w')
       | OutOfFuel => (None, w')
       end).
Proof.
  intros Hok. rewrite <- checks_pass_iff in Hok. cbv zeta in Hok.
  destruct Hok as (H1 & H2 & H3 & H4). unfold handler. rewrite H1, H2, H3, H4. eauto.
Qed.

(** X15: a request that does not have the documented shape is refused
    before anything else happens.  When [days] and [hours] are both absent
    or empty, or one of them is not a non-negative integer, or [date] is
    given without the suffix Z, the handler answers 400 InvalidParameters,
    sends no request to the holiday source and leaves the cache as it
    was. *)
Theorem handler_refuses_malformed_request
    (Number : string → JSNumber) (env : Env) (q : Query) (w : World) :
  ¬ wellFormed Number q →
  ∃ message, handler Number env q w
             = (Some (mkResponse 400 (ErrorResponse "InvalidParameters" message)), w).
Proof.
  intros Hbad. rewrite <- checks_pass_iff in Hbad. cbv zeta in Hbad. unfold handler, error400.
  destruct (missing (rawDays q) && missing (rawHours q)); [eauto|].
  destruct (negb (Number_isInteger _) || ltZero _); [eauto|].
  destruct (negb (Number_isInteger _) || ltZero _); [eauto|].
  destruct (match rawDate q with Some d => negb (endsWith "Z" d) | None => false end);
    [eauto|].
  exfalso. apply Hbad. auto.
Qed.

Lemma handler_refuses_malformed_request_witness :
  ∃ message,
    handler decimalNumber (mkEnv 0 TestCases.source readInstant 0)
      (mkQuery (Some "abc"%string) None (Some "2025-10-06T15:00:00Z"%string)) (mkWorld None 0)
    = (Some (mkResponse 400 (ErrorResponse "InvalidParameters" message)), mkWorld None 0).
Proof.
  apply handler_refuses_malformed_request.
  intros (_ & Hdays & _). destruct (Hdays "abc"%string eq_refl) as (y & n & Hy & _).
  vm_compute in Hy. discriminate.
Defined.

(* the request of the first repository example: hours=1 from a Friday 17:00 *)
Lemma example_request_wellFormed (date : string) :
  wellFormed decimalNumber (mkQuery None (Some "1"%string) (Some (date +:+ "Z"))).
Proof.
  split; [right; exists "1"%string; split; [reflexivity|discriminate]|].
  split; [intros s [=]|]. split.
  - intros s [= <-]. exists 1%Q, 1. split; [reflexivity|]. split; [lia|reflexivity].
  - intros d [= <-]. now exists date.
Qed.

(** X17: the holiday source failing means 503.  For a request of the
    documented shape, when [fetchHolidays] raises (request rejected,
    non-success status, body that is not JSON) the handler answers 503
    ServiceUnavailable, whether or not the date parses. *)
Theorem handler_unavailable_when_fetch_fails
    (Number : string → JSNumber) (env : Env) (q : Query) (w w' : World) (e : Exn) :
  wellFormed Number q →
  fetchHolidays (dateNow env) (transport env) w = (Thrown e, w') →
  handler Number env q w
  = (Some (mkResponse 503
             (ErrorResponse "ServiceUnavailable"
                "No fue posible obtener el catálogo de días festivos.")), w').
Proof.
  intros Hok Hfetch. destruct (handler_accepted Number env q w Hok) as (days & hours & ->).
  unfold businessHoursDate.
  rewrite (computeBusinessDate_fetch_failure env (rawDate q) days hours w w' e Hfetch).
  rewrite mbind_Thrown.
  pose proof (fetchHolidays_never_InvalidDate (dateNow env) (transport env) w) as [Hne _].
  rewrite Hfetch in Hne. cbn [fst] in Hne.
  destruct e; try reflexivity. congruence.
Qed.

Lemma handler_unavailable_when_fetch_fails_witness :
  handler decimalNumber (mkEnv 0 (FetchResponse false 500 None) readInstant 0)
    (mkQuery None (Some "1"%string) (Some ("not-a-date" +:+ "Z"))) (mkWorld None 0)
  = (Some (mkResponse 503
             (ErrorResponse "ServiceUnavailable"
                "No fue posible obtener el catálogo de días festivos.")), mkWorld None 1).
Proof.
  apply (handler_unavailable_when_fetch_fails decimalNumber
           (mkEnv 0 (FetchResponse false 500 None) readInstant 0) _ _ _
           (FailedToFetchHolidays 500) (example_request_wellFormed "not-a-date")).
  reflexivity.
Defined.

(** X18: a date that does not parse means 400, after the holidays were
    obtained.  For a request of the documented shape whose [date] ends in Z
    but is not read as an instant, the handler answers 400
    InvalidParameters once [fetchHolidays] has returned: the holiday source
    has been consulted, and its answer cached, before the date is
    looked at. *)
Theorem handler_refuses_unparseable_date
    (Number : string → JSNumber) (env : Env) (q : Query) (w w' : World)
    (holidays : gset string) (date : string) :
  wellFormed Number q →
  fetchHolidays (dateNow env) (transport env) w = (Returned holidays, w') →
  rawDate q = Some date → fromISO env date = None →
  handler Number env q w
  = (Some (mkResponse 400
             (ErrorResponse "InvalidParameters" "'date' no es un ISO UTC válido.")), w').
Proof.
  intros Hok Hfetch Hdate Hparse.
  destruct (handler_accepted Number env q w Hok) as (days & hours & ->).
  assert (Htruthy : truthy (Some date) = Some date).
  { destruct Hok as (_ & _ & _ & Hz). destruct (Hz date Hdate) as ([|c p] & ->);
      [rewrite append_nil_l|rewrite append_cons]; reflexivity. }
  unfold businessHoursDate, computeBusinessDate.
  rewrite Hfetch, Hdate, Htruthy, Hparse. reflexivity.
Qed.

Lemma handler_refuses_unparseable_date_witness :
  handler decimalNumber (mkEnv 0 TestCases.source readInstant 0)
    (mkQuery None (Some "1"%string) (Some ("2025-13-45T99:00:00" +:+ "Z"))) (mkWorld None 0)
  = (Some (mkResponse 400
             (ErrorResponse "InvalidParameters" "'date' no es un ISO UTC válido.")),
     mkWorld (Some (mkHolidayCache 0 {[ "2025-04-17"%string; "2025-04-18"%string ]})) 1).
Proof.
  apply (handler_refuses_unparseable_date decimalNumber
           (mkEnv 0 TestCases.source readInstant 0) _ _ _
           {[ "2025-04-17"%string; "2025-04-18"%string ]} ("2025-13-45T99:00:00" +:+ "Z")
           (example_request_wellFormed "2025-13-45T99:00:00"));
    vm_compute; reflexivity.
Defined.

(* the same, with the numbers handed on spelled out *)
Lemma handler_accepted_at (Number : string → JSNumber) (env : Env) (q : Query) (w : World) :
  wellFormed Number q →
  handler Number env q w
  = (let '(result, w') :=
       businessHoursDate env (rawDate q) (Qfloor (finiteValue (requestedDays Number q)))
         (finiteValue (requestedHours Number q)) w in
     match result with
     | Returned dateIso => (Some (mkResponse 200 (SuccessResponse dateIso)), w')
     | Thrown InvalidDate => (Some (error400 "'date' no es un ISO UTC válido."), w')
     | Thrown _ =>
         (Some (error503 "No fue posible obtener el catálogo de días festivos."), w')
     | OutOfFuel => (None, w')
     end).
Proof.
  intros Hok. rewrite <- checks_pass_iff in Hok. cbv zeta in Hok.
  destruct Hok as (H1 & H2 & H3 & H4). unfold handler. now rewrite H1, H2, H3, H4.
Qed.

(** X19: a successful response carries a working instant.  For a request
    of the documented shape, once the holidays are obtained and the start is
    resolved ([date] read as an instant, or the current time when [date] is
    absent), and on the calls of [exactDomain] (start on a whole minute,
    all instants within reach where the zone is at UTC-05:00 and inside
    Luxon's range), the handler answers 200 with the text of a UTC instant
    that in the business zone stands on a working day between 08:00 and
    12:00 or between 13:00 and 17:00, ends included. *)
Theorem handler_success_is_working_date
    (Number : string → JSNumber) (env : Env) (q : Query) (w w' : World)
    (holidays : gset string) (startCol : DateTime) :
  wellFormed Number q →
  fetchHolidays (dateNow env) (transport env) w = (Returned holidays, w') →
  match rawDate q with
  | Some date => setZone COLOMBIA_ZONE <$> fromISO env date
  | None => Some (mkDateTime (dateTimeNow env) COLOMBIA_ZONE)
  end = Some startCol →
  exactDomain holidays startCol (Qfloor (finiteValue (requestedDays Number q)))
    (finiteValue (requestedHours Number q)) →
  ∃ r, handler Number env q w
       = (Some (mkResponse 200 (SuccessResponse (toISO true r))), w')
       ∧ offset r = UTC_ZONE
       ∧ workingInstant (setZone COLOMBIA_ZONE r) holidays
       ∧ BOGOTA_UTC5_SINCE <= toMillis r <= LUXON_MAX_MS.
Proof.
  intros Hok Hfetch Hstart Hdom.
  rewrite (handler_accepted_at Number env q w Hok).
  assert (Htruthy : truthy (rawDate q) = rawDate q).
  { destruct (rawDate q) as [date|] eqn:Hdate; [|reflexivity].
    destruct Hok as (_ & _ & _ & Hz). destruct (Hz date Hdate) as ([|c p] & ->);
      [rewrite append_nil_l|rewrite append_cons]; reflexivity. }
  assert (Hstart' : match truthy (rawDate q) with
                    | Some iso => setZone COLOMBIA_ZONE <$> fromISO env iso
                    | None => Some (mkDateTime (dateTimeNow env) COLOMBIA_ZONE)
                    end = Some startCol) by now rewrite Htruthy.
  unfold businessHoursDate.
  destruct (computeBusinessDate_resolved env (rawDate q)
              (Qfloor (finiteValue (requestedDays Number q)))
              (finiteValue (requestedHours Number q)) w w' holidays startCol
              Hfetch Hstart') as [Hzone ->].
  destruct (exactDomain_hours _ _ _ _ Hdom) as [Hk Hh].
  destruct Hdom as (Hal & Hdays & _ & Hera & Hrange).
  destruct (accumulation_exact holidays startCol
              (Qfloor (finiteValue (requestedDays Number q)))
              (Qfloor (finiteValue (requestedHours Number q)))
              (finiteValue (requestedHours Number q)) Hal Hdays Hk Hh)
    as (n & r & _ & -> & Hoff & Hwi & _ & Hnlow & Hnr & Hrhigh & _).
  exists (setZone UTC_ZONE r). rewrite mbind_Returned. split; [reflexivity|].
  split; [reflexivity|]. rewrite setZone_back by congruence. split; [exact Hwi|].
  cbn [toMillis setZone]. lia.
Qed.

Lemma handler_success_is_working_date_witness :
  ∃ r, handler decimalNumber (mkEnv 0 TestCases.source readInstant 0)
         (mkQuery None (Some "1"%string) (Some ("2025-10-03T22:00:00" +:+ "Z")))
         (mkWorld None 0)
       = (Some (mkResponse 200 (SuccessResponse (toISO true r))),
          mkWorld (Some (mkHolidayCache 0 {[ "2025-04-17"%string; "2025-04-18"%string ]})) 1)
       ∧ offset r = UTC_ZONE
       ∧ workingInstant (setZone COLOMBIA_ZONE r)
           {[ "2025-04-17"%string; "2025-04-18"%string ]}
       ∧ BOGOTA_UTC5_SINCE <= toMillis r <= LUXON_MAX_MS.
Proof.
  apply (handler_success_is_working_date decimalNumber
           (mkEnv 0 TestCases.source readInstant 0) _ _ _
           {[ "2025-04-17"%string; "2025-04-18"%string ]}
           (setZone COLOMBIA_ZONE (utc (2025, 10, 3) 22 0 0 0))
           (example_request_wellFormed "2025-10-03T22:00:00"));
    [reflexivity|reflexivity|].
  split; [reflexivity|]. split; [apply Z.leb_le; vm_compute; reflexivity|].
  split; [exists 1; split; [lia|reflexivity]|].
  split; apply Z.leb_le; vm_compute; reflexivity.
Defined.

(* the first repository example, through the handler *)
Example handler_ejemplo_1 :
  fst (handler decimalNumber (mkEnv 0 TestCases.source readInstant 0)
         (mkQuery None (Some "1"%string) (Some "2025-10-03T22:00:00Z"%string))
         (mkWorld None 0))
  = Some (mkResponse 200 (SuccessResponse "2025-10-06T14:00:00Z")).
Proof. vm_compute. reflexivity. Qed.

(* an empty date is refused, not taken as absent *)
Example handler_empty_date :
  fst (handler decimalNumber (mkEnv 0 TestCases.source readInstant 0)
         (mkQuery None (Some "1"%string) (Some ""%string)) (mkWorld None 0))
  = Some (error400 "'date' debe ser ISO 8601 en UTC con sufijo Z.").
Proof. vm_compute. reflexivity. Qed.

End HandlerFacts.
